(** * webcolors: a shallow embedding of [webcolors.py] and its checked properties

    The module converts between colour names, hexadecimal colour values
    and [rgb()] triplets, and implements the HTML5 simple and legacy colour
    algorithms.  Every definition below follows the Python function of the
    same name; Python exceptions are the [Raise] outcome of [result]. *)

From Stdlib Require Import List ZArith NArith Lia Bool Ascii String Permutation.
From Stdlib Require Import SpecFloat.
Import ListNotations.

(** ** Python strings

    A Python [str] is a sequence of Unicode code points; [len] counts code
    points and indexing selects one. *)

Definition codepoint := N.
Definition str := list codepoint.

Definition ch (a : ascii) : codepoint := N_of_ascii a.
Arguments ch a%_char.

Definition lit (s : string) : str := map N_of_ascii (list_ascii_of_string s).
Arguments lit s%_string.

Definition len (s : str) : nat := List.length s.

Fixpoint str_eqb (a b : str) : bool :=
  match a, b with
  | [], [] => true
  | x :: a', y :: b' => N.eqb x y && str_eqb a' b'
  | _, _ => false
  end.

(** [c in s] for a one-character [c]. *)
Definition char_in (c : codepoint) (s : str) : bool := existsb (N.eqb c) s.

(** [s.startswith("#")]. *)
Definition startswith_hash (s : str) : bool :=
  match s with
  | c :: _ => N.eqb c (ch "#")
  | [] => false
  end.

(** [sep.join(parts)]. *)
Fixpoint join (sep : str) (parts : list str) : str :=
  match parts with
  | [] => []
  | [p] => p
  | p :: rest => p ++ sep ++ join sep rest
  end.

(** Slices with non-negative bounds: [s[a:]], [s[:b]] and [s[a:b]]. *)
Definition slice_from (a : nat) (s : str) : str := skipn a s.
Definition slice_to (b : nat) (s : str) : str := firstn b s.
Definition slice (a b : nat) (s : str) : str := firstn (b - a) (skipn a s).

(** ** Outcomes of a call

    [Raise] carries the Python exception.  [Unmodelled] marks the inputs on
    which a built-in of the Python runtime ([int], [float]) is not
    described by this development, and a loop that exhausts its fuel; no
    theorem below concludes anything from it. *)

Inductive exn : Type :=
| ValueError (msg : str)
| IndexError
| KeyError (key : str)
| OverflowError.

Inductive result (A : Type) : Type :=
| Return (a : A)
| Raise (e : exn)
| Unmodelled.
Arguments Return {A} a.
Arguments Raise {A} e.
Arguments Unmodelled {A}.

Definition bind {A B : Type} (r : result A) (k : A -> result B) : result B :=
  match r with
  | Return a => k a
  | Raise e => Raise e
  | Unmodelled => Unmodelled
  end.

Declare Scope py_scope.
Delimit Scope py_scope with py.
Notation "x <- e ;; k" := (bind e (fun x => k))
  (at level 61, e at next level, right associativity) : py_scope.
Open Scope py_scope.

(** ** The part of the Unicode database the module relies on

    [str.lower()] and [str.strip()] consult the Unicode tables of the
    Python runtime.  Their behaviour on ASCII is fixed below; on the rest of
    Unicode it is the parameter [Unicode]. *)

Class Unicode : Type := {
  (** [s.lower()] for a string with at least one non-ASCII character *)
  lower_nonascii : str -> str;
  (** whether [str.strip()] removes the non-ASCII character [c] *)
  isspace_nonascii : codepoint -> bool
}.

Definition is_ascii (c : codepoint) : bool := (c <? 128)%N.

Definition ascii_lower (c : codepoint) : codepoint :=
  if ((ch "A" <=? c) && (c <=? ch "Z"))%N then (c + 32)%N else c.

(** Tab, line feed, vertical tab, form feed, carriage return, the four
    separators U+001C..U+001F and the space. *)
Definition ascii_isspace (c : codepoint) : bool :=
  ((9 <=? c) && (c <=? 13) || (28 <=? c) && (c <=? 31) || (c =? 32))%N.

Section Runtime.
Context {U : Unicode}.

(** [s.lower()] *)
Definition lower (s : str) : str :=
  if forallb is_ascii s then map ascii_lower s else lower_nonascii s.

Definition isspace (c : codepoint) : bool :=
  if is_ascii c then ascii_isspace c else isspace_nonascii c.

Fixpoint lstrip (s : str) : str :=
  match s with
  | c :: s' => if isspace c then lstrip s' else s
  | [] => []
  end.

Definition rstrip (s : str) : str := rev (lstrip (rev s)).

(** [s.strip()] *)
Definition strip (s : str) : str := rstrip (lstrip s).

End Runtime.

(** The instance that leaves non-ASCII text alone; on ASCII input every
    instance computes the same result. *)
Definition ascii_only : Unicode :=
  {| lower_nonascii := fun s => s; isspace_nonascii := fun _ => false |}.

(** ** Hexadecimal digits *)

(** [string.hexdigits] *)
Definition hexdigits : str := lit "0123456789abcdefABCDEF".

Definition is_hexdigit (c : codepoint) : bool := char_in c hexdigits.

(** The value of one hexadecimal digit. *)
Definition hex_value_of (c : codepoint) : Z :=
  if ((ch "0" <=? c) && (c <=? ch "9"))%N then Z.of_N (c - ch "0")
  else if ((ch "a" <=? c) && (c <=? ch "f"))%N then Z.of_N (c - ch "a") + 10
  else Z.of_N (c - ch "A") + 10.

(** [int(s, 16)] on a string of hexadecimal digits.  The empty string is a
    [ValueError].  CPython also accepts a sign, a [0x] prefix, surrounding
    white space, underscores between digits and non-ASCII decimal digits;
    those strings are [Unmodelled]: the module only ever passes digits. *)
Definition int16 (s : str) : result Z :=
  match s with
  | [] => Raise (ValueError (lit "invalid literal for int() with base 16: ''"))
  | _ =>
      if forallb is_hexdigit s
      then Return (fold_left (fun acc c => acc * 16 + hex_value_of c) s 0)%Z
      else Unmodelled
  end.

(** [s[i]] *)
Definition index (s : str) (i : nat) : result codepoint :=
  match nth_error s i with
  | Some c => Return c
  | None => Raise IndexError
  end.

(** ** Named tuples *)

Record IntegerRGB : Type := mkIntegerRGB { red : Z; green : Z; blue : Z }.

Record PercentRGB : Type :=
  mkPercentRGB { pred : str; pgreen : str; pblue : str }.

Record HTML5SimpleColor : Type :=
  mkHTML5SimpleColor { sred : Z; sgreen : Z; sblue : Z }.

(** [IntTuple] and [PercentTuple] arguments are taken as plain 3-tuples. *)
Definition IntTuple : Type := (Z * Z * Z)%type.
Definition PercentTuple : Type := (str * str * str)%type.

(** ** HTML5 simple colour *)

Definition simple_length_error : exn :=
  ValueError (lit "An HTML5 simple color must be a Unicode string exactly seven characters long.").
Definition simple_hash_error : exn :=
  ValueError (lit "An HTML5 simple color must begin with the character '#' (U+0023).").
Definition simple_digits_error : exn :=
  ValueError (lit "An HTML5 simple color must contain exactly six ASCII hex digits.").

Definition html5_parse_simple_color (input : str) : result HTML5SimpleColor :=
  if negb (len input =? 7)%nat then Raise simple_length_error
  else if negb (startswith_hash input) then Raise simple_hash_error
  else if negb (forallb is_hexdigit (slice_from 1 input)) then Raise simple_digits_error
  else
    r <- int16 (slice 1 3 input) ;;
    g <- int16 (slice 3 5 input) ;;
    b <- int16 (slice 5 7 input) ;;
    Return (mkHTML5SimpleColor r g b).


(** ** Dictionaries

    A Python [dict] keeps its keys in insertion order; assigning to a key
    that is present replaces the value where the key already sits. *)

Definition dict (V : Type) : Type := list (str * V).

Fixpoint dict_get {V : Type} (d : dict V) (k : str) : option V :=
  match d with
  | [] => None
  | (k', v) :: d' => if str_eqb k' k then Some v else dict_get d' k
  end.

(** [d[k] = v] *)
Fixpoint dict_set {V : Type} (d : dict V) (k : str) (v : V) : dict V :=
  match d with
  | [] => [(k, v)]
  | (k', v') :: d' =>
      if str_eqb k' k then (k', v) :: d' else (k', v') :: dict_set d' k v
  end.

(** A dictionary display [{k1: v1, k2: v2, ...}]. *)
Definition dict_literal {V : Type} (items : list (str * V)) : dict V :=
  fold_left (fun d kv => dict_set d (fst kv) (snd kv)) items [].

(** [{value: key for key, value in d.items()}] *)
Definition _reversedict (d : dict str) : dict str :=
  fold_left (fun acc kv => dict_set acc (snd kv) (fst kv)) d [].

(** ** Specifications and the colour tables *)

Definition COLOR_HEXA : str := lit "color_hexa".
Definition HTML4 : str := lit "html4".
Definition CSS2 : str := lit "css2".
Definition CSS21 : str := lit "css21".
Definition CSS3 : str := lit "css3".

Definition SUPPORTED_SPECIFICATIONS : list str := [HTML4; CSS2; CSS21; CSS3].

(** [SPECIFICATION_ERROR_TEMPLATE.format(spec=spec)] *)
Definition SPECIFICATION_ERROR (spec : str) : str :=
  spec ++ lit " is not a supported specification for color name lookups; supported specifications are: "
       ++ join (lit ",") SUPPORTED_SPECIFICATIONS ++ lit ".".

Definition HTML4_NAMES_TO_HEX_items : list (str * str) :=
  [ (lit "aqua", lit "#00ffff");
    (lit "black", lit "#000000");
    (lit "blue", lit "#0000ff");
    (lit "fuchsia", lit "#ff00ff");
    (lit "green", lit "#008000");
    (lit "gray", lit "#808080");
    (lit "lime", lit "#00ff00");
    (lit "maroon", lit "#800000");
    (lit "navy", lit "#000080");
    (lit "olive", lit "#808000");
    (lit "purple", lit "#800080");
    (lit "red", lit "#ff0000");
    (lit "silver", lit "#c0c0c0");
    (lit "teal", lit "#008080");
    (lit "white", lit "#ffffff");
    (lit "yellow", lit "#ffff00") ].

Definition HTML4_NAMES_TO_HEX : dict str := dict_literal HTML4_NAMES_TO_HEX_items.

Definition CSS2_NAMES_TO_HEX : dict str := HTML4_NAMES_TO_HEX.

(** [{"orange": "#ffa500", **HTML4_NAMES_TO_HEX}] *)
Definition CSS21_NAMES_TO_HEX : dict str :=
  dict_literal ((lit "orange", lit "#ffa500") :: HTML4_NAMES_TO_HEX).

Definition CSS3_NAMES_TO_HEX_items : list (str * str) :=
  [ (lit "aliceblue", lit "#f0f8ff");
    (lit "antiquewhite", lit "#faebd7");
    (lit "aqua", lit "#00ffff");
    (lit "aquamarine", lit "#7fffd4");
    (lit "azure", lit "#f0ffff");
    (lit "beige", lit "#f5f5dc");
    (lit "bisque", lit "#ffe4c4");
    (lit "black", lit "#000000");
    (lit "blanchedalmond", lit "#ffebcd");
    (lit "blue", lit "#0000ff");
    (lit "blueviolet", lit "#8a2be2");
    (lit "brown", lit "#a52a2a");
    (lit "burlywood", lit "#deb887");
    (lit "cadetblue", lit "#5f9ea0");
    (lit "chartreuse", lit "#7fff00");
    (lit "chocolate", lit "#d2691e");
    (lit "coral", lit "#ff7f50");
    (lit "cornflowerblue", lit "#6495ed");
    (lit "cornsilk", lit "#fff8dc");
    (lit "crimson", lit "#dc143c");
    (lit "cyan", lit "#00ffff");
    (lit "darkblue", lit "#00008b");
    (lit "darkcyan", lit "#008b8b");
    (lit "darkgoldenrod", lit "#b8860b");
    (lit "darkgray", lit "#a9a9a9");
    (lit "darkgrey", lit "#a9a9a9");
    (lit "darkgreen", lit "#006400");
    (lit "darkkhaki", lit "#bdb76b");
    (lit "darkmagenta", lit "#8b008b");
    (lit "darkolivegreen", lit "#556b2f");
    (lit "darkorange", lit "#ff8c00");
    (lit "darkorchid", lit "#9932cc");
    (lit "darkred", lit "#8b0000");
    (lit "darksalmon", lit "#e9967a");
    (lit "darkseagreen", lit "#8fbc8f");
    (lit "darkslateblue", lit "#483d8b");
    (lit "darkslategray", lit "#2f4f4f");
    (lit "darkslategrey", lit "#2f4f4f");
    (lit "darkturquoise", lit "#00ced1");
    (lit "darkviolet", lit "#9400d3");
    (lit "deeppink", lit "#ff1493");
    (lit "deepskyblue", lit "#00bfff");
    (lit "dimgray", lit "#696969");
    (lit "dimgrey", lit "#696969");
    (lit "dodgerblue", lit "#1e90ff");
    (lit "firebrick", lit "#b22222");
    (lit "floralwhite", lit "#fffaf0");
    (lit "forestgreen", lit "#228b22");
    (lit "fuchsia", lit "#ff00ff");
    (lit "gainsboro", lit "#dcdcdc");
    (lit "ghostwhite", lit "#f8f8ff");
    (lit "gold", lit "#ffd700");
    (lit "goldenrod", lit "#daa520");
    (lit "gray", lit "#808080");
    (lit "grey", lit "#808080");
    (lit "green", lit "#008000");
    (lit "greenyellow", lit "#adff2f");
    (lit "honeydew", lit "#f0fff0");
    (lit "hotpink", lit "#ff69b4");
    (lit "indianred", lit "#cd5c5c");
    (lit "indigo", lit "#4b0082");
    (lit "ivory", lit "#fffff0");
    (lit "khaki", lit "#f0e68c");
    (lit "lavender", lit "#e6e6fa");
    (lit "lavenderblush", lit "#fff0f5");
    (lit "lawngreen", lit "#7cfc00");
    (lit "lemonchiffon", lit "#fffacd");
    (lit "lightblue", lit "#add8e6");
    (lit "lightcoral", lit "#f08080");
    (lit "lightcyan", lit "#e0ffff");
    (lit "lightgoldenrodyellow", lit "#fafad2");
    (lit "lightgray", lit "#d3d3d3");
    (lit "lightgrey", lit "#d3d3d3");
    (lit "lightgreen", lit "#90ee90");
    (lit "lightpink", lit "#ffb6c1");
    (lit "lightsalmon", lit "#ffa07a");
    (lit "lightseagreen", lit "#20b2aa");
    (lit "lightskyblue", lit "#87cefa");
    (lit "lightslategray", lit "#778899");
    (lit "lightslategrey", lit "#778899");
    (lit "lightsteelblue", lit "#b0c4de");
    (lit "lightyellow", lit "#ffffe0");
    (lit "lime", lit "#00ff00");
    (lit "limegreen", lit "#32cd32");
    (lit "linen", lit "#faf0e6");
    (lit "magenta", lit "#ff00ff");
    (lit "maroon", lit "#800000");
    (lit "mediumaquamarine", lit "#66cdaa");
    (lit "mediumblue", lit "#0000cd");
    (lit "mediumorchid", lit "#ba55d3");
    (lit "mediumpurple", lit "#9370db");
    (lit "mediumseagreen", lit "#3cb371");
    (lit "mediumslateblue", lit "#7b68ee");
    (lit "mediumspringgreen", lit "#00fa9a");
    (lit "mediumturquoise", lit "#48d1cc");
    (lit "mediumvioletred", lit "#c71585");
    (lit "midnightblue", lit "#191970");
    (lit "mintcream", lit "#f5fffa");
    (lit "mistyrose", lit "#ffe4e1");
    (lit "moccasin", lit "#ffe4b5");
    (lit "navajowhite", lit "#ffdead");
    (lit "navy", lit "#000080");
    (lit "oldlace", lit "#fdf5e6");
    (lit "olive", lit "#808000");
    (lit "olivedrab", lit "#6b8e23");
    (lit "orange", lit "#ffa500");
    (lit "orangered", lit "#ff4500");
    (lit "orchid", lit "#da70d6");
    (lit "palegoldenrod", lit "#eee8aa");
    (lit "palegreen", lit "#98fb98");
    (lit "paleturquoise", lit "#afeeee");
    (lit "palevioletred", lit "#db7093");
    (lit "papayawhip", lit "#ffefd5");
    (lit "peachpuff", lit "#ffdab9");
    (lit "peru", lit "#cd853f");
    (lit "pink", lit "#ffc0cb");
    (lit "plum", lit "#dda0dd");
    (lit "powderblue", lit "#b0e0e6");
    (lit "purple", lit "#800080");
    (lit "red", lit "#ff0000");
    (lit "rosybrown", lit "#bc8f8f");
    (lit "royalblue", lit "#4169e1");
    (lit "saddlebrown", lit "#8b4513");
    (lit "salmon", lit "#fa8072");
    (lit "sandybrown", lit "#f4a460");
    (lit "seagreen", lit "#2e8b57");
    (lit "seashell", lit "#fff5ee");
    (lit "sienna", lit "#a0522d");
    (lit "silver", lit "#c0c0c0");
    (lit "skyblue", lit "#87ceeb");
    (lit "slateblue", lit "#6a5acd");
    (lit "slategray", lit "#708090");
    (lit "slategrey", lit "#708090");
    (lit "snow", lit "#fffafa");
    (lit "springgreen", lit "#00ff7f");
    (lit "steelblue", lit "#4682b4");
    (lit "tan", lit "#d2b48c");
    (lit "teal", lit "#008080");
    (lit "thistle", lit "#d8bfd8");
    (lit "tomato", lit "#ff6347");
    (lit "turquoise", lit "#40e0d0");
    (lit "violet", lit "#ee82ee");
    (lit "wheat", lit "#f5deb3");
    (lit "white", lit "#ffffff");
    (lit "whitesmoke", lit "#f5f5f5");
    (lit "yellow", lit "#ffff00");
    (lit "yellowgreen", lit "#9acd32") ].

Definition CSS3_NAMES_TO_HEX : dict str := dict_literal CSS3_NAMES_TO_HEX_items.

Definition COLOR_HEXA_NAMES_TO_HEX_items : list (str * str) :=
  [ (lit "Air Force Blue (Usaf)", lit "#00308f");
    (lit "Air Superiority Blue", lit "#72a0c1");
    (lit "Alabama Crimson", lit "#a32638");
    (lit "Alice Blue", lit "#f0f8ff");
    (lit "Alizarin Crimson", lit "#e32636");
    (lit "Alloy Orange", lit "#c46210");
    (lit "Almond", lit "#efdecd");
    (lit "Amaranth", lit "#e52b50");
    (lit "Amber", lit "#ffbf00");
    (lit "Amber (Sae/Ece)", lit "#ff7e00");
    (lit "American Rose", lit "#ff033e");
    (lit "Amethyst", lit "#9966cc");
    (lit "Android Green", lit "#a4c639");
    (lit "Anti-Flash White", lit "#f2f3f4");
    (lit "Antique Brass", lit "#cd9575");
    (lit "Antique Fuchsia", lit "#915c83");
    (lit "Antique Ruby", lit "#841b2d");
    (lit "Antique White", lit "#faebd7");
    (lit "Ao (English)", lit "#008000");
    (lit "Apple Green", lit "#8db600");
    (lit "Apricot", lit "#fbceb1");
    (lit "Aqua", lit "#00ffff");
    (lit "Aquamarine", lit "#7fffd4");
    (lit "Army Green", lit "#4b5320");
    (lit "Arsenic", lit "#3b444b");
    (lit "Arylide Yellow", lit "#e9d66b");
    (lit "Ash Grey", lit "#b2beb5");
    (lit "Asparagus", lit "#87a96b");
    (lit "Atomic Tangerine", lit "#ff9966");
    (lit "Auburn", lit "#a52a2a");
    (lit "Aureolin", lit "#fdee00");
    (lit "Aurometalsaurus", lit "#6e7f80");
    (lit "Avocado", lit "#568203");
    (lit "Azure", lit "#007fff");
    (lit "Azure Mist/Web", lit "#f0ffff");
    (lit "Baby Blue", lit "#89cff0");
    (lit "Baby Blue Eyes", lit "#a1caf1");
    (lit "Baby Pink", lit "#f4c2c2");
    (lit "Ball Blue", lit "#21abcd");
    (lit "Banana Mania", lit "#fae7b5");
    (lit "Banana Yellow", lit "#ffe135");
    (lit "Barn Red", lit "#7c0a02");
    (lit "Battleship Grey", lit "#848482");
    (lit "Bazaar", lit "#98777b");
    (lit "Beau Blue", lit "#bcd4e6");
    (lit "Beaver", lit "#9f8170");
    (lit "Beige", lit "#f5f5dc");
    (lit "Big Dip ORuby", lit "#9c2542");
    (lit "Bisque", lit "#ffe4c4");
    (lit "Bistre", lit "#3d2b1f");
    (lit "Bittersweet", lit "#fe6f5e");
    (lit "Bittersweet Shimmer", lit "#bf4f51");
    (lit "Black", lit "#000000");
    (lit "Black Bean", lit "#3d0c02");
    (lit "Black Leather Jacket", lit "#253529");
    (lit "Black Olive", lit "#3b3c36");
    (lit "Blanched Almond", lit "#ffebcd");
    (lit "Blast-Off Bronze", lit "#a57164");
    (lit "Bleu De France", lit "#318ce7");
    (lit "Blizzard Blue", lit "#ace5ee");
    (lit "Blond", lit "#faf0be");
    (lit "Blue", lit "#0000ff");
    (lit "Blue Bell", lit "#a2a2d0");
    (lit "Blue (Crayola)", lit "#1f75fe");
    (lit "Blue Gray", lit "#6699cc");
    (lit "Blue-Green", lit "#0d98ba");
    (lit "Blue (Munsell)", lit "#0093af");
    (lit "Blue (Ncs)", lit "#0087bd");
    (lit "Blue (Pigment)", lit "#333399");
    (lit "Blue (Ryb)", lit "#0247fe");
    (lit "Blue Sapphire", lit "#126180");
    (lit "Blue-Violet", lit "#8a2be2");
    (lit "Blush", lit "#de5d83");
    (lit "Bole", lit "#79443b");
    (lit "Bondi Blue", lit "#0095b6");
    (lit "Bone", lit "#e3dac9");
    (lit "Boston University Red", lit "#cc0000");
    (lit "Bottle Green", lit "#006a4e");
    (lit "Boysenberry", lit "#873260");
    (lit "Brandeis Blue", lit "#0070ff");
    (lit "Brass", lit "#b5a642");
    (lit "Brick Red", lit "#cb4154");
    (lit "Bright Cerulean", lit "#1dacd6");
    (lit "Bright Green", lit "#66ff00");
    (lit "Bright Lavender", lit "#bf94e4");
    (lit "Bright Maroon", lit "#c32148");
    (lit "Bright Pink", lit "#ff007f");
    (lit "Bright Turquoise", lit "#08e8de");
    (lit "Bright Ube", lit "#d19fe8");
    (lit "Brilliant Lavender", lit "#f4bbff");
    (lit "Brilliant Rose", lit "#ff55a3");
    (lit "Brink Pink", lit "#fb607f");
    (lit "British Racing Green", lit "#004225");
    (lit "Bronze", lit "#cd7f32");
    (lit "Brown (Traditional)", lit "#964b00");
    (lit "Brown (Web)", lit "#a52a2a");
    (lit "Bubble Gum", lit "#ffc1cc");
    (lit "Bubbles", lit "#e7feff");
    (lit "Buff", lit "#f0dc82");
    (lit "Bulgarian Rose", lit "#480607");
    (lit "Burgundy", lit "#800020");
    (lit "Burlywood", lit "#deb887");
    (lit "Burnt Orange", lit "#c50");
    (lit "Burnt Sienna", lit "#e97451");
    (lit "Burnt Umber", lit "#8a3324");
    (lit "Byzantine", lit "#bd33a4");
    (lit "Byzantium", lit "#702963");
    (lit "Cadet", lit "#536872");
    (lit "Cadet Blue", lit "#5f9ea0");
    (lit "Cadet Grey", lit "#91a3b0");
    (lit "Cadmium Green", lit "#006b3c");
    (lit "Cadmium Orange", lit "#ed872d");
    (lit "Cadmium Red", lit "#e30022");
    (lit "Cadmium Yellow", lit "#fff600");
    ((lit "Caf" ++ [233%N] ++ lit " Au Lait"), lit "#a67b5b");
    ((lit "Caf" ++ [233%N] ++ lit " Noir"), lit "#4b3621");
    (lit "Cal Poly Green", lit "#1e4d2b");
    (lit "Cambridge Blue", lit "#a3c1ad");
    (lit "Camel", lit "#c19a6b");
    (lit "Cameo Pink", lit "#efbbcc");
    (lit "Camouflage Green", lit "#78866b");
    (lit "Canary Yellow", lit "#ffef00");
    (lit "Candy Apple Red", lit "#ff0800");
    (lit "Candy Pink", lit "#e4717a");
    (lit "Capri", lit "#00bfff");
    (lit "Caput Mortuum", lit "#592720");
    (lit "Cardinal", lit "#c41e3a");
    (lit "Caribbean Green", lit "#00cc99");
    (lit "Carmine", lit "#960018");
    (lit "Carmine (M&P)", lit "#d70040");
    (lit "Carmine Pink", lit "#eb4c42");
    (lit "Carmine Red", lit "#ff0038");
    (lit "Carnation Pink", lit "#ffa6c9");
    (lit "Carnelian", lit "#b31b1b");
    (lit "Carolina Blue", lit "#99badd");
    (lit "Carrot Orange", lit "#ed9121");
    (lit "Catalina Blue", lit "#062a78");
    (lit "Ceil", lit "#92a1cf");
    (lit "Celadon", lit "#ace1af");
    (lit "Celadon Blue", lit "#007ba7");
    (lit "Celadon Green", lit "#2f847c");
    (lit "Celeste (Colour)", lit "#b2ffff");
    (lit "Celestial Blue", lit "#4997d0");
    (lit "Cerise", lit "#de3163");
    (lit "Cerise Pink", lit "#ec3b83");
    (lit "Cerulean", lit "#007ba7");
    (lit "Cerulean Blue", lit "#2a52be");
    (lit "Cerulean Frost", lit "#6d9bc3");
    (lit "Cg Blue", lit "#007aa5");
    (lit "Cg Red", lit "#e03c31");
    (lit "Chamoisee", lit "#a0785a");
    (lit "Champagne", lit "#fad6a5");
    (lit "Charcoal", lit "#36454f");
    (lit "Charm Pink", lit "#e68fac");
    (lit "Chartreuse (Traditional)", lit "#dfff00");
    (lit "Chartreuse (Web)", lit "#7fff00");
    (lit "Cherry", lit "#de3163");
    (lit "Cherry Blossom Pink", lit "#ffb7c5");
    (lit "Chestnut", lit "#cd5c5c");
    (lit "China Pink", lit "#de6fa1");
    (lit "China Rose", lit "#a8516e");
    (lit "Chinese Red", lit "#aa381e");
    (lit "Chocolate (Traditional)", lit "#7b3f00");
    (lit "Chocolate (Web)", lit "#d2691e");
    (lit "Chrome Yellow", lit "#ffa700");
    (lit "Cinereous", lit "#98817b");
    (lit "Cinnabar", lit "#e34234");
    (lit "Cinnamon", lit "#d2691e");
    (lit "Citrine", lit "#e4d00a");
    (lit "Classic Rose", lit "#fbcce7");
    (lit "Cobalt", lit "#0047ab");
    (lit "Cocoa Brown", lit "#d2691e");
    (lit "Coffee", lit "#6f4e37");
    (lit "Columbia Blue", lit "#9bddff");
    (lit "Congo Pink", lit "#f88379");
    (lit "Cool Black", lit "#002e63");
    (lit "Cool Grey", lit "#8c92ac");
    (lit "Copper", lit "#b87333");
    (lit "Copper (Crayola)", lit "#da8a67");
    (lit "Copper Penny", lit "#ad6f69");
    (lit "Copper Red", lit "#cb6d51");
    (lit "Copper Rose", lit "#996666");
    (lit "Coquelicot", lit "#ff3800");
    (lit "Coral", lit "#ff7f50");
    (lit "Coral Pink", lit "#f88379");
    (lit "Coral Red", lit "#ff4040");
    (lit "Cordovan", lit "#893f45");
    (lit "Corn", lit "#fbec5d");
    (lit "Cornell Red", lit "#b31b1b");
    (lit "Cornflower Blue", lit "#6495ed");
    (lit "Cornsilk", lit "#fff8dc");
    (lit "Cosmic Latte", lit "#fff8e7");
    (lit "Cotton Candy", lit "#ffbcd9");
    (lit "Cream", lit "#fffdd0");
    (lit "Crimson", lit "#dc143c");
    (lit "Crimson Glory", lit "#be0032");
    (lit "Cyan", lit "#00ffff");
    (lit "Cyan (Process)", lit "#00b7eb");
    (lit "Daffodil", lit "#ffff31");
    (lit "Dandelion", lit "#f0e130");
    (lit "Dark Blue", lit "#00008b");
    (lit "Dark Brown", lit "#654321");
    (lit "Dark Byzantium", lit "#5d3954");
    (lit "Dark Candy Apple Red", lit "#a40000");
    (lit "Dark Cerulean", lit "#08457e");
    (lit "Dark Chestnut", lit "#986960");
    (lit "Dark Coral", lit "#cd5b45");
    (lit "Dark Cyan", lit "#008b8b");
    (lit "Dark Electric Blue", lit "#536878");
    (lit "Dark Goldenrod", lit "#b8860b");
    (lit "Dark Gray", lit "#a9a9a9");
    (lit "Dark Green", lit "#013220");
    (lit "Dark Imperial Blue", lit "#00416a");
    (lit "Dark Jungle Green", lit "#1a2421");
    (lit "Dark Khaki", lit "#bdb76b");
    (lit "Dark Lava", lit "#483c32");
    (lit "Dark Lavender", lit "#734f96");
    (lit "Dark Magenta", lit "#8b008b");
    (lit "Dark Midnight Blue", lit "#003366");
    (lit "Dark Olive Green", lit "#556b2f");
    (lit "Dark Orange", lit "#ff8c00");
    (lit "Dark Orchid", lit "#9932cc");
    (lit "Dark Pastel Blue", lit "#779ecb");
    (lit "Dark Pastel Green", lit "#03c03c");
    (lit "Dark Pastel Purple", lit "#966fd6");
    (lit "Dark Pastel Red", lit "#c23b22");
    (lit "Dark Pink", lit "#e75480");
    (lit "Dark Powder Blue", lit "#003399");
    (lit "Dark Raspberry", lit "#872657");
    (lit "Dark Red", lit "#8b0000");
    (lit "Dark Salmon", lit "#e9967a");
    (lit "Dark Scarlet", lit "#560319");
    (lit "Dark Sea Green", lit "#8fbc8f");
    (lit "Dark Sienna", lit "#3c1414");
    (lit "Dark Slate Blue", lit "#483d8b");
    (lit "Dark Slate Gray", lit "#2f4f4f");
    (lit "Dark Spring Green", lit "#177245");
    (lit "Dark Tan", lit "#918151");
    (lit "Dark Tangerine", lit "#ffa812");
    (lit "Dark Taupe", lit "#483c32");
    (lit "Dark Terra Cotta", lit "#cc4e5c");
    (lit "Dark Turquoise", lit "#00ced1");
    (lit "Dark Violet", lit "#9400d3");
    (lit "Dark Yellow", lit "#9b870c");
    (lit "Dartmouth Green", lit "#00703c");
    (lit "Davy Grey", lit "#555555");
    (lit "Debian Red", lit "#d70a53");
    (lit "Deep Carmine", lit "#a9203e");
    (lit "Deep Carmine Pink", lit "#ef3038");
    (lit "Deep Carrot Orange", lit "#e9692c");
    (lit "Deep Cerise", lit "#da3287");
    (lit "Deep Champagne", lit "#fad6a5");
    (lit "Deep Chestnut", lit "#b94e48");
    (lit "Deep Coffee", lit "#704241");
    (lit "Deep Fuchsia", lit "#c154c1");
    (lit "Deep Jungle Green", lit "#004b49");
    (lit "Deep Lilac", lit "#9955bb");
    (lit "Deep Magenta", lit "#cc00cc");
    (lit "Deep Peach", lit "#ffcba4");
    (lit "Deep Pink", lit "#ff1493");
    (lit "Deep Ruby", lit "#843f5b");
    (lit "Deep Saffron", lit "#f93");
    (lit "Deep Sky Blue", lit "#00bfff");
    (lit "Deep Tuscan Red", lit "#66424d");
    (lit "Denim", lit "#1560bd");
    (lit "Desert", lit "#c19a6b");
    (lit "Desert Sand", lit "#edc9af");
    (lit "Dim Gray", lit "#696969");
    (lit "Dodger Blue", lit "#1e90ff");
    (lit "Dogwood Rose", lit "#d71868");
    (lit "Dollar Bill", lit "#85bb65");
    (lit "Drab", lit "#967117");
    (lit "Duke Blue", lit "#00009c");
    (lit "Earth Yellow", lit "#e1a95f");
    (lit "Ebony", lit "#555d50");
    (lit "Ecru", lit "#c2b280");
    (lit "Eggplant", lit "#614051");
    (lit "Eggshell", lit "#f0ead6");
    (lit "Egyptian Blue", lit "#1034a6");
    (lit "Electric Blue", lit "#7df9ff");
    (lit "Electric Crimson", lit "#ff003f");
    (lit "Electric Cyan", lit "#00ffff");
    (lit "Electric Green", lit "#00ff00");
    (lit "Electric Indigo", lit "#6f00ff");
    (lit "Electric Lavender", lit "#f4bbff");
    (lit "Electric Lime", lit "#ccff00");
    (lit "Electric Purple", lit "#bf00ff");
    (lit "Electric Ultramarine", lit "#3f00ff");
    (lit "Electric Violet", lit "#8f00ff");
    (lit "Electric Yellow", lit "#ffff00");
    (lit "Emerald", lit "#50c878");
    (lit "English Lavender", lit "#b48395");
    (lit "Eton Blue", lit "#96c8a2");
    (lit "Fallow", lit "#c19a6b");
    (lit "Falu Red", lit "#801818");
    (lit "Fandango", lit "#b53389");
    (lit "Fashion Fuchsia", lit "#f400a1");
    (lit "Fawn", lit "#e5aa70");
    (lit "Feldgrau", lit "#4d5d53");
    (lit "Fern Green", lit "#4f7942");
    (lit "Ferrari Red", lit "#ff2800");
    (lit "Field Drab", lit "#6c541e");
    (lit "Fire Engine Red", lit "#ce2029");
    (lit "Firebrick", lit "#b22222");
    (lit "Flame", lit "#e25822");
    (lit "Flamingo Pink", lit "#fc8eac");
    (lit "Flavescent", lit "#f7e98e");
    (lit "Flax", lit "#eedc82");
    (lit "Floral White", lit "#fffaf0");
    (lit "Fluorescent Orange", lit "#ffbf00");
    (lit "Fluorescent Pink", lit "#ff1493");
    (lit "Fluorescent Yellow", lit "#ccff00");
    (lit "Folly", lit "#ff004f");
    (lit "Forest Green (Traditional)", lit "#014421");
    (lit "Forest Green (Web)", lit "#228b22");
    (lit "French Beige", lit "#a67b5b");
    (lit "French Blue", lit "#0072bb");
    (lit "French Lilac", lit "#86608e");
    (lit "French Lime", lit "#ccff00");
    (lit "French Raspberry", lit "#c72c48");
    (lit "French Rose", lit "#f64a8a");
    (lit "Fuchsia", lit "#ff00ff");
    (lit "Fuchsia (Crayola)", lit "#c154c1");
    (lit "Fuchsia Pink", lit "#ff77ff");
    (lit "Fuchsia Rose", lit "#c74375");
    (lit "Fulvous", lit "#e48400");
    (lit "Fuzzy Wuzzy", lit "#cc6666");
    (lit "Gainsboro", lit "#dcdcdc");
    (lit "Gamboge", lit "#e49b0f");
    (lit "Ghost White", lit "#f8f8ff");
    (lit "Ginger", lit "#b06500");
    (lit "Glaucous", lit "#6082b6");
    (lit "Glitter", lit "#e6e8fa");
    (lit "Gold (Metallic)", lit "#d4af37");
    (lit "Gold (Web) (Golden)", lit "#ffd700");
    (lit "Golden Brown", lit "#996515");
    (lit "Golden Poppy", lit "#fcc200");
    (lit "Golden Yellow", lit "#ffdf00");
    (lit "Goldenrod", lit "#daa520");
    (lit "Granny Smith Apple", lit "#a8e4a0");
    (lit "Gray", lit "#808080");
    (lit "Gray-Asparagus", lit "#465945");
    (lit "Gray (Html/Css Gray)", lit "#808080");
    (lit "Gray (X11 Gray)", lit "#bebebe");
    (lit "Green (Color Wheel) (X11 Green)", lit "#00ff00");
    (lit "Green (Crayola)", lit "#1cac78");
    (lit "Green (Html/Css Green)", lit "#008000");
    (lit "Green (Munsell)", lit "#00a877");
    (lit "Green (Ncs)", lit "#009f6b");
    (lit "Green (Pigment)", lit "#00a550");
    (lit "Green (Ryb)", lit "#66b032");
    (lit "Green-Yellow", lit "#adff2f");
    (lit "Grullo", lit "#a99a86");
    (lit "Guppie Green", lit "#00ff7f");
    ((lit "Halay" ++ [224%N] ++ lit " " ++ [250%N] ++ lit "Be"), lit "#663854");
    (lit "Han Blue", lit "#446ccf");
    (lit "Han Purple", lit "#5218fa");
    (lit "Hansa Yellow", lit "#e9d66b");
    (lit "Harlequin", lit "#3fff00");
    (lit "Harvard Crimson", lit "#c90016");
    (lit "Harvest Gold", lit "#da9100");
    (lit "Heart Gold", lit "#808000");
    (lit "Heliotrope", lit "#df73ff");
    (lit "Hollywood Cerise", lit "#f400a1");
    (lit "Honeydew", lit "#f0fff0");
    (lit "Honolulu Blue", lit "#007fbf");
    (lit "Hooker Green", lit "#49796b");
    (lit "Hot Magenta", lit "#ff1dce");
    (lit "Hot Pink", lit "#ff69b4");
    (lit "Hunter Green", lit "#355e3b");
    (lit "Iceberg", lit "#71a6d2");
    (lit "Icterine", lit "#fcf75e");
    (lit "Imperial Blue", lit "#002395");
    (lit "Inchworm", lit "#b2ec5d");
    (lit "India Green", lit "#138808");
    (lit "Indian Red", lit "#cd5c5c");
    (lit "Indian Yellow", lit "#e3a857");
    (lit "Indigo", lit "#6f00ff");
    (lit "Indigo (Dye)", lit "#00416a");
    (lit "Indigo (Web)", lit "#4b0082");
    (lit "International Klein Blue", lit "#002fa7");
    (lit "International Orange (Aerospace)", lit "#ff4f00");
    (lit "International Orange (Engineering)", lit "#ba160c");
    (lit "International Orange (Golden Gate Bridge)", lit "#c0362c");
    (lit "Iris", lit "#5a4fcf");
    (lit "Isabelline", lit "#f4f0ec");
    (lit "Islamic Green", lit "#009000");
    (lit "Ivory", lit "#fffff0");
    (lit "Jade", lit "#00a86b");
    (lit "Jasmine", lit "#f8de7e");
    (lit "Jasper", lit "#d73b3e");
    (lit "Jazzberry Jam", lit "#a50b5e");
    (lit "Jet", lit "#343434");
    (lit "Jonquil", lit "#fada5e");
    (lit "June Bud", lit "#bdda57");
    (lit "Jungle Green", lit "#29ab87");
    (lit "Kelly Green", lit "#4cbb17");
    (lit "Kenyan Copper", lit "#7c1c05");
    (lit "Khaki (Html/Css) (Khaki)", lit "#c3b091");
    (lit "Khaki (X11) (Light Khaki)", lit "#f0e68c");
    (lit "Ku Crimson", lit "#e8000d");
    (lit "La Salle Green", lit "#087830");
    (lit "Languid Lavender", lit "#d6cadd");
    (lit "Lapis Lazuli", lit "#26619c");
    (lit "Laser Lemon", lit "#fefe22");
    (lit "Laurel Green", lit "#a9ba9d");
    (lit "Lava", lit "#cf1020");
    (lit "Lavender Blue", lit "#ccccff");
    (lit "Lavender Blush", lit "#fff0f5");
    (lit "Lavender (Floral)", lit "#b57edc");
    (lit "Lavender Gray", lit "#c4c3d0");
    (lit "Lavender Indigo", lit "#9457eb");
    (lit "Lavender Magenta", lit "#ee82ee");
    (lit "Lavender Mist", lit "#e6e6fa");
    (lit "Lavender Pink", lit "#fbaed2");
    (lit "Lavender Purple", lit "#967bb6");
    (lit "Lavender Rose", lit "#fba0e3");
    (lit "Lavender (Web)", lit "#e6e6fa");
    (lit "Lawn Green", lit "#7cfc00");
    (lit "Lemon", lit "#fff700");
    (lit "Lemon Chiffon", lit "#fffacd");
    (lit "Lemon Lime", lit "#e3ff00");
    (lit "Licorice", lit "#1a1110");
    (lit "Light Apricot", lit "#fdd5b1");
    (lit "Light Blue", lit "#add8e6");
    (lit "Light Brown", lit "#b5651d");
    (lit "Light Carmine Pink", lit "#e66771");
    (lit "Light Coral", lit "#f08080");
    (lit "Light Cornflower Blue", lit "#93ccea");
    (lit "Light Crimson", lit "#f56991");
    (lit "Light Cyan", lit "#e0ffff");
    (lit "Light Fuchsia Pink", lit "#f984ef");
    (lit "Light Goldenrod Yellow", lit "#fafad2");
    (lit "Light Gray", lit "#d3d3d3");
    (lit "Light Green", lit "#90ee90");
    (lit "Light Khaki", lit "#f0e68c");
    (lit "Light Pastel Purple", lit "#b19cd9");
    (lit "Light Pink", lit "#ffb6c1");
    (lit "Light Red Ochre", lit "#e97451");
    (lit "Light Salmon", lit "#ffa07a");
    (lit "Light Salmon Pink", lit "#ff9999");
    (lit "Light Sea Green", lit "#20b2aa");
    (lit "Light Sky Blue", lit "#87cefa");
    (lit "Light Slate Gray", lit "#778899");
    (lit "Light Taupe", lit "#b38b6d");
    (lit "Light Thulian Pink", lit "#e68fac");
    (lit "Light Yellow", lit "#ffffe0");
    (lit "Lilac", lit "#c8a2c8");
    (lit "Lime (Color Wheel)", lit "#bfff00");
    (lit "Lime Green", lit "#32cd32");
    (lit "Lime (Web) (X11 Green)", lit "#00ff00");
    (lit "Limerick", lit "#9dc209");
    (lit "Lincoln Green", lit "#195905");
    (lit "Linen", lit "#faf0e6");
    (lit "Lion", lit "#c19a6b");
    (lit "Little Boy Blue", lit "#6ca0dc");
    (lit "Liver", lit "#534b4f");
    (lit "Lust", lit "#e62020");
    (lit "Magenta", lit "#ff00ff");
    (lit "Magenta (Dye)", lit "#ca1f7b");
    (lit "Magenta (Process)", lit "#ff0090");
    (lit "Magic Mint", lit "#aaf0d1");
    (lit "Magnolia", lit "#f8f4ff");
    (lit "Mahogany", lit "#c04000");
    (lit "Maize", lit "#fbec5d");
    (lit "Majorelle Blue", lit "#6050dc");
    (lit "Malachite", lit "#0bda51");
    (lit "Manatee", lit "#979aaa");
    (lit "Mango Tango", lit "#ff8243");
    (lit "Mantis", lit "#74c365");
    (lit "Mardi Gras", lit "#880085");
    (lit "Maroon (Crayola)", lit "#c32148");
    (lit "Maroon (Html/Css)", lit "#800000");
    (lit "Maroon (X11)", lit "#b03060");
    (lit "Mauve", lit "#e0b0ff");
    (lit "Mauve Taupe", lit "#915f6d");
    (lit "Mauvelous", lit "#ef98aa");
    (lit "Maya Blue", lit "#73c2fb");
    (lit "Meat Brown", lit "#e5b73b");
    (lit "Medium Aquamarine", lit "#66ddaa");
    (lit "Medium Blue", lit "#0000cd");
    (lit "Medium Candy Apple Red", lit "#e2062c");
    (lit "Medium Carmine", lit "#af4035");
    (lit "Medium Champagne", lit "#f3e5ab");
    (lit "Medium Electric Blue", lit "#035096");
    (lit "Medium Jungle Green", lit "#1c352d");
    (lit "Medium Lavender Magenta", lit "#dda0dd");
    (lit "Medium Orchid", lit "#ba55d3");
    (lit "Medium Persian Blue", lit "#0067a5");
    (lit "Medium Purple", lit "#9370db");
    (lit "Medium Red-Violet", lit "#bb3385");
    (lit "Medium Ruby", lit "#aa4069");
    (lit "Medium Sea Green", lit "#3cb371");
    (lit "Medium Slate Blue", lit "#7b68ee");
    (lit "Medium Spring Bud", lit "#c9dc87");
    (lit "Medium Spring Green", lit "#00fa9a");
    (lit "Medium Taupe", lit "#674c47");
    (lit "Medium Turquoise", lit "#48d1cc");
    (lit "Medium Tuscan Red", lit "#79443b");
    (lit "Medium Vermilion", lit "#d9603b");
    (lit "Medium Violet-Red", lit "#c71585");
    (lit "Mellow Apricot", lit "#f8b878");
    (lit "Mellow Yellow", lit "#f8de7e");
    (lit "Melon", lit "#fdbcb4");
    (lit "Midnight Blue", lit "#191970");
    (lit "Midnight Green (Eagle Green)", lit "#004953");
    (lit "Mikado Yellow", lit "#ffc40c");
    (lit "Mint", lit "#3eb489");
    (lit "Mint Cream", lit "#f5fffa");
    (lit "Mint Green", lit "#98ff98");
    (lit "Misty Rose", lit "#ffe4e1");
    (lit "Moccasin", lit "#faebd7");
    (lit "Mode Beige", lit "#967117");
    (lit "Moonstone Blue", lit "#73a9c2");
    (lit "Mordant Red 19", lit "#ae0c00");
    (lit "Moss Green", lit "#addfad");
    (lit "Mountain Meadow", lit "#30ba8f");
    (lit "Mountbatten Pink", lit "#997a8d");
    (lit "Msu Green", lit "#18453b");
    (lit "Mulberry", lit "#c54b8c");
    (lit "Mustard", lit "#ffdb58");
    (lit "Myrtle", lit "#21421e");
    (lit "Nadeshiko Pink", lit "#f6adc6");
    (lit "Napier Green", lit "#2a8000");
    (lit "Naples Yellow", lit "#fada5e");
    (lit "Navajo White", lit "#ffdead");
    (lit "Navy Blue", lit "#000080");
    (lit "Neon Carrot", lit "#ffa343");
    (lit "Neon Fuchsia", lit "#fe4164");
    (lit "Neon Green", lit "#39ff14");
    (lit "New York Pink", lit "#d7837f");
    (lit "Non-Photo Blue", lit "#a4dded");
    (lit "North Texas Green", lit "#059033");
    (lit "Ocean Boat Blue", lit "#0077be");
    (lit "Ochre", lit "#cc7722");
    (lit "Office Green", lit "#008000");
    (lit "Old Gold", lit "#cfb53b");
    (lit "Old Lace", lit "#fdf5e6");
    (lit "Old Lavender", lit "#796878");
    (lit "Old Mauve", lit "#673147");
    (lit "Old Rose", lit "#c08081");
    (lit "Olive", lit "#808000");
    (lit "Olive Drab #7", lit "#3c341f");
    (lit "Olive Drab (Web) (Olive Drab #3)", lit "#6b8e23");
    (lit "Olivine", lit "#9ab973");
    (lit "Onyx", lit "#353839");
    (lit "Opera Mauve", lit "#b784a7");
    (lit "Orange (Color Wheel)", lit "#ff7f00");
    (lit "Orange Peel", lit "#ff9f00");
    (lit "Orange-Red", lit "#ff4500");
    (lit "Orange (Ryb)", lit "#fb9902");
    (lit "Orange (Web Color)", lit "#ffa500");
    (lit "Orchid", lit "#da70d6");
    (lit "Otter Brown", lit "#654321");
    (lit "Ou Crimson Red", lit "#900");
    (lit "Outer Space", lit "#414a4c");
    (lit "Outrageous Orange", lit "#ff6e4a");
    (lit "Oxford Blue", lit "#002147");
    (lit "Pakistan Green", lit "#006600");
    (lit "Palatinate Blue", lit "#273be2");
    (lit "Palatinate Purple", lit "#682860");
    (lit "Pale Aqua", lit "#bcd4e6");
    (lit "Pale Blue", lit "#afeeee");
    (lit "Pale Brown", lit "#987654");
    (lit "Pale Carmine", lit "#af4035");
    (lit "Pale Cerulean", lit "#9bc4e2");
    (lit "Pale Chestnut", lit "#ddadaf");
    (lit "Pale Copper", lit "#da8a67");
    (lit "Pale Cornflower Blue", lit "#abcdef");
    (lit "Pale Gold", lit "#e6be8a");
    (lit "Pale Goldenrod", lit "#eee8aa");
    (lit "Pale Green", lit "#98fb98");
    (lit "Pale Lavender", lit "#dcd0ff");
    (lit "Pale Magenta", lit "#f984e5");
    (lit "Pale Pink", lit "#fadadd");
    (lit "Pale Plum", lit "#dda0dd");
    (lit "Pale Red-Violet", lit "#db7093");
    (lit "Pale Robin Egg Blue", lit "#96ded1");
    (lit "Pale Silver", lit "#c9c0bb");
    (lit "Pale Spring Bud", lit "#ecebbd");
    (lit "Pale Taupe", lit "#bc987e");
    (lit "Pale Violet-Red", lit "#db7093");
    (lit "Pansy Purple", lit "#78184a");
    (lit "Papaya Whip", lit "#ffefd5");
    (lit "Paris Green", lit "#50c878");
    (lit "Pastel Blue", lit "#aec6cf");
    (lit "Pastel Brown", lit "#836953");
    (lit "Pastel Gray", lit "#cfcfc4");
    (lit "Pastel Green", lit "#77dd77");
    (lit "Pastel Magenta", lit "#f49ac2");
    (lit "Pastel Orange", lit "#ffb347");
    (lit "Pastel Pink", lit "#dea5a4");
    (lit "Pastel Purple", lit "#b39eb5");
    (lit "Pastel Red", lit "#ff6961");
    (lit "Pastel Violet", lit "#cb99c9");
    (lit "Pastel Yellow", lit "#fdfd96");
    (lit "Patriarch", lit "#800080");
    (lit "Payne Grey", lit "#536878");
    (lit "Peach", lit "#ffe5b4");
    (lit "Peach (Crayola)", lit "#ffcba4");
    (lit "Peach-Orange", lit "#ffcc99");
    (lit "Peach Puff", lit "#ffdab9");
    (lit "Peach-Yellow", lit "#fadfad");
    (lit "Pear", lit "#d1e231");
    (lit "Pearl", lit "#eae0c8");
    (lit "Pearl Aqua", lit "#88d8c0");
    (lit "Pearly Purple", lit "#b768a2");
    (lit "Peridot", lit "#e6e200");
    (lit "Periwinkle", lit "#ccccff");
    (lit "Persian Blue", lit "#1c39bb");
    (lit "Persian Green", lit "#00a693");
    (lit "Persian Indigo", lit "#32127a");
    (lit "Persian Orange", lit "#d99058");
    (lit "Persian Pink", lit "#f77fbe");
    (lit "Persian Plum", lit "#701c1c");
    (lit "Persian Red", lit "#cc3333");
    (lit "Persian Rose", lit "#fe28a2");
    (lit "Persimmon", lit "#ec5800");
    (lit "Peru", lit "#cd853f");
    (lit "Phlox", lit "#df00ff");
    (lit "Phthalo Blue", lit "#000f89");
    (lit "Phthalo Green", lit "#123524");
    (lit "Piggy Pink", lit "#fddde6");
    (lit "Pine Green", lit "#01796f");
    (lit "Pink", lit "#ffc0cb");
    (lit "Pink Lace", lit "#ffddf4");
    (lit "Pink-Orange", lit "#f96");
    (lit "Pink Pearl", lit "#e7accf");
    (lit "Pink Sherbet", lit "#f78fa7");
    (lit "Pistachio", lit "#93c572");
    (lit "Platinum", lit "#e5e4e2");
    (lit "Plum (Traditional)", lit "#8e4585");
    (lit "Plum (Web)", lit "#dda0dd");
    (lit "Portland Orange", lit "#ff5a36");
    (lit "Powder Blue (Web)", lit "#b0e0e6");
    (lit "Princeton Orange", lit "#ff8f00");
    (lit "Prune", lit "#701c1c");
    (lit "Prussian Blue", lit "#003153");
    (lit "Psychedelic Purple", lit "#df00ff");
    (lit "Puce", lit "#cc8899");
    (lit "Pumpkin", lit "#ff7518");
    (lit "Purple Heart", lit "#69359c");
    (lit "Purple (Html/Css)", lit "#800080");
    (lit "Purple Mountain Majesty", lit "#9678b6");
    (lit "Purple (Munsell)", lit "#9f00c5");
    (lit "Purple Pizzazz", lit "#fe4eda");
    (lit "Purple Taupe", lit "#50404d");
    (lit "Purple (X11)", lit "#a020f0");
    (lit "Quartz", lit "#51484f");
    (lit "Rackley", lit "#5d8aa8");
    (lit "Radical Red", lit "#ff355e");
    (lit "Rajah", lit "#fbab60");
    (lit "Raspberry", lit "#e30b5d");
    (lit "Raspberry Glace", lit "#915f6d");
    (lit "Raspberry Pink", lit "#e25098");
    (lit "Raspberry Rose", lit "#b3446c");
    (lit "Raw Umber", lit "#826644");
    (lit "Razzle Dazzle Rose", lit "#ff33cc");
    (lit "Razzmatazz", lit "#e3256b");
    (lit "Red", lit "#ff0000");
    (lit "Red-Brown", lit "#a52a2a");
    (lit "Red Devil", lit "#860111");
    (lit "Red (Munsell)", lit "#f2003c");
    (lit "Red (Ncs)", lit "#c40233");
    (lit "Red-Orange", lit "#ff5349");
    (lit "Red (Pigment)", lit "#ed1c24");
    (lit "Red (Ryb)", lit "#fe2712");
    (lit "Red-Violet", lit "#c71585");
    (lit "Redwood", lit "#ab4e52");
    (lit "Regalia", lit "#522d80");
    (lit "Resolution Blue", lit "#002387");
    (lit "Rich Black", lit "#004040");
    (lit "Rich Brilliant Lavender", lit "#f1a7fe");
    (lit "Rich Carmine", lit "#d70040");
    (lit "Rich Electric Blue", lit "#0892d0");
    (lit "Rich Lavender", lit "#a76bcf");
    (lit "Rich Lilac", lit "#b666d2");
    (lit "Rich Maroon", lit "#b03060");
    (lit "Rifle Green", lit "#414833");
    (lit "Robin Egg Blue", lit "#0cc");
    (lit "Rose", lit "#ff007f");
    (lit "Rose Bonbon", lit "#f9429e");
    (lit "Rose Ebony", lit "#674846");
    (lit "Rose Gold", lit "#b76e79");
    (lit "Rose Madder", lit "#e32636");
    (lit "Rose Pink", lit "#f6c");
    (lit "Rose Quartz", lit "#aa98a9");
    (lit "Rose Taupe", lit "#905d5d");
    (lit "Rose Vale", lit "#ab4e52");
    (lit "Rosewood", lit "#65000b");
    (lit "Rosso Corsa", lit "#d40000");
    (lit "Rosy Brown", lit "#bc8f8f");
    (lit "Royal Azure", lit "#0038a8");
    (lit "Royal Blue (Traditional)", lit "#002366");
    (lit "Royal Blue (Web)", lit "#4169e1");
    (lit "Royal Fuchsia", lit "#ca2c92");
    (lit "Royal Purple", lit "#7851a9");
    (lit "Royal Yellow", lit "#fada5e");
    (lit "Rubine Red", lit "#d10056");
    (lit "Ruby", lit "#e0115f");
    (lit "Ruby Red", lit "#9b111e");
    (lit "Ruddy", lit "#ff0028");
    (lit "Ruddy Brown", lit "#bb6528");
    (lit "Ruddy Pink", lit "#e18e96");
    (lit "Rufous", lit "#a81c07");
    (lit "Russet", lit "#80461b");
    (lit "Rust", lit "#b7410e");
    (lit "Rusty Red", lit "#da2c43");
    (lit "Sacramento State Green", lit "#00563f");
    (lit "Saddle Brown", lit "#8b4513");
    (lit "Safety Orange (Blaze Orange)", lit "#ff6700");
    (lit "Saffron", lit "#f4c430");
    (lit "Salmon", lit "#ff8c69");
    (lit "Salmon Pink", lit "#ff91a4");
    (lit "Sand", lit "#c2b280");
    (lit "Sand Dune", lit "#967117");
    (lit "Sandstorm", lit "#ecd540");
    (lit "Sandy Brown", lit "#f4a460");
    (lit "Sandy Taupe", lit "#967117");
    (lit "Sangria", lit "#92000a");
    (lit "Sap Green", lit "#507d2a");
    (lit "Sapphire", lit "#0f52ba");
    (lit "Sapphire Blue", lit "#0067a5");
    (lit "Satin Sheen Gold", lit "#cba135");
    (lit "Scarlet", lit "#ff2400");
    (lit "Scarlet (Crayola)", lit "#fd0e35");
    (lit "School Bus Yellow", lit "#ffd800");
    (lit "Screamin Green", lit "#76ff7a");
    (lit "Sea Blue", lit "#006994");
    (lit "Sea Green", lit "#2e8b57");
    (lit "Seal Brown", lit "#321414");
    (lit "Seashell", lit "#fff5ee");
    (lit "Selective Yellow", lit "#ffba00");
    (lit "Sepia", lit "#704214");
    (lit "Shadow", lit "#8a795d");
    (lit "Shamrock Green", lit "#009e60");
    (lit "Shocking Pink", lit "#fc0fc0");
    (lit "Shocking Pink (Crayola)", lit "#ff6fff");
    (lit "Sienna", lit "#882d17");
    (lit "Silver", lit "#c0c0c0");
    (lit "Sinopia", lit "#cb410b");
    (lit "Skobeloff", lit "#007474");
    (lit "Sky Blue", lit "#87ceeb");
    (lit "Sky Magenta", lit "#cf71af");
    (lit "Slate Blue", lit "#6a5acd");
    (lit "Slate Gray", lit "#708090");
    (lit "Smalt (Dark Powder Blue)", lit "#039");
    (lit "Smokey Topaz", lit "#933d41");
    (lit "Smoky Black", lit "#100c08");
    (lit "Snow", lit "#fffafa");
    (lit "Spiro Disco Ball", lit "#0fc0fc");
    (lit "Spring Bud", lit "#a7fc00");
    (lit "Spring Green", lit "#00ff7f");
    (lit "St. Patrick Blue", lit "#23297a");
    (lit "Steel Blue", lit "#4682b4");
    (lit "Stil De Grain Yellow", lit "#fada5e");
    (lit "Stizza", lit "#900");
    (lit "Stormcloud", lit "#4f666a");
    (lit "Straw", lit "#e4d96f");
    (lit "Sunglow", lit "#ffcc33");
    (lit "Sunset", lit "#fad6a5");
    (lit "Tan", lit "#d2b48c");
    (lit "Tangelo", lit "#f94d00");
    (lit "Tangerine", lit "#f28500");
    (lit "Tangerine Yellow", lit "#ffcc00");
    (lit "Tango Pink", lit "#e4717a");
    (lit "Taupe", lit "#483c32");
    (lit "Taupe Gray", lit "#8b8589");
    (lit "Tea Green", lit "#d0f0c0");
    (lit "Tea Rose (Orange)", lit "#f88379");
    (lit "Tea Rose (Rose)", lit "#f4c2c2");
    (lit "Teal", lit "#008080");
    (lit "Teal Blue", lit "#367588");
    (lit "Teal Green", lit "#00827f");
    (lit "Telemagenta", lit "#cf3476");
    ((lit "Tenn" ++ [233%N] ++ lit " (Tawny)"), lit "#cd5700");
    (lit "Terra Cotta", lit "#e2725b");
    (lit "Thistle", lit "#d8bfd8");
    (lit "Thulian Pink", lit "#de6fa1");
    (lit "Tickle Me Pink", lit "#fc89ac");
    (lit "Tiffany Blue", lit "#0abab5");
    (lit "Tiger Eye", lit "#e08d3c");
    (lit "Timberwolf", lit "#dbd7d2");
    (lit "Titanium Yellow", lit "#eee600");
    (lit "Tomato", lit "#ff6347");
    (lit "Toolbox", lit "#746cc0");
    (lit "Topaz", lit "#ffc87c");
    (lit "Tractor Red", lit "#fd0e35");
    (lit "Trolley Grey", lit "#808080");
    (lit "Tropical Rain Forest", lit "#00755e");
    (lit "True Blue", lit "#0073cf");
    (lit "Tufts Blue", lit "#417dc1");
    (lit "Tumbleweed", lit "#deaa88");
    (lit "Turkish Rose", lit "#b57281");
    (lit "Turquoise", lit "#30d5c8");
    (lit "Turquoise Blue", lit "#00ffef");
    (lit "Turquoise Green", lit "#a0d6b4");
    (lit "Tuscan Red", lit "#7c4848");
    (lit "Twilight Lavender", lit "#8a496b");
    (lit "Tyrian Purple", lit "#66023c");
    (lit "Ua Blue", lit "#0033aa");
    (lit "Ua Red", lit "#d9004c");
    (lit "Ube", lit "#8878c3");
    (lit "Ucla Blue", lit "#536895");
    (lit "Ucla Gold", lit "#ffb300");
    (lit "Ufo Green", lit "#3cd070");
    (lit "Ultra Pink", lit "#ff6fff");
    (lit "Ultramarine", lit "#120a8f");
    (lit "Ultramarine Blue", lit "#4166f5");
    (lit "Umber", lit "#635147");
    (lit "Unbleached Silk", lit "#ffddca");
    (lit "United Nations Blue", lit "#5b92e5");
    (lit "University Of California Gold", lit "#b78727");
    (lit "Unmellow Yellow", lit "#ffff66");
    (lit "Up Forest Green", lit "#014421");
    (lit "Up Maroon", lit "#7b1113");
    (lit "Upsdell Red", lit "#ae2029");
    (lit "Urobilin", lit "#e1ad21");
    (lit "Usafa Blue", lit "#004f98");
    (lit "Usc Cardinal", lit "#990000");
    (lit "Usc Gold", lit "#ffcc00");
    (lit "Utah Crimson", lit "#d3003f");
    (lit "Vanilla", lit "#f3e5ab");
    (lit "Vegas Gold", lit "#c5b358");
    (lit "Venetian Red", lit "#c80815");
    (lit "Verdigris", lit "#43b3ae");
    (lit "Vermilion (Cinnabar)", lit "#e34234");
    (lit "Vermilion (Plochere)", lit "#d9603b");
    (lit "Veronica", lit "#a020f0");
    (lit "Violet", lit "#8f00ff");
    (lit "Violet-Blue", lit "#324ab2");
    (lit "Violet (Color Wheel)", lit "#7f00ff");
    (lit "Violet (Ryb)", lit "#8601af");
    (lit "Violet (Web)", lit "#ee82ee");
    (lit "Viridian", lit "#40826d");
    (lit "Vivid Auburn", lit "#922724");
    (lit "Vivid Burgundy", lit "#9f1d35");
    (lit "Vivid Cerise", lit "#da1d81");
    (lit "Vivid Tangerine", lit "#ffa089");
    (lit "Vivid Violet", lit "#9f00ff");
    (lit "Warm Black", lit "#004242");
    (lit "Waterspout", lit "#a4f4f9");
    (lit "Wenge", lit "#645452");
    (lit "Wheat", lit "#f5deb3");
    (lit "White", lit "#ffffff");
    (lit "White Smoke", lit "#f5f5f5");
    (lit "Wild Blue Yonder", lit "#a2add0");
    (lit "Wild Strawberry", lit "#ff43a4");
    (lit "Wild Watermelon", lit "#fc6c85");
    (lit "Wine", lit "#722f37");
    (lit "Wine Dregs", lit "#673147");
    (lit "Wisteria", lit "#c9a0dc");
    (lit "Wood Brown", lit "#c19a6b");
    (lit "Xanadu", lit "#738678");
    (lit "Yale Blue", lit "#0f4d92");
    (lit "Yellow", lit "#ffff00");
    (lit "Yellow-Green", lit "#9acd32");
    (lit "Yellow (Munsell)", lit "#efcc00");
    (lit "Yellow (Ncs)", lit "#ffd300");
    (lit "Yellow Orange", lit "#ffae42");
    (lit "Yellow (Process)", lit "#ffef00");
    (lit "Yellow (Ryb)", lit "#fefe33");
    (lit "Zaffre", lit "#0014a8");
    (lit "Zinnwaldite Brown", lit "#2c1608") ].

Definition COLOR_HEXA_NAMES_TO_HEX : dict str :=
  dict_literal COLOR_HEXA_NAMES_TO_HEX_items.

Definition HTML4_HEX_TO_NAMES : dict str := _reversedict HTML4_NAMES_TO_HEX.
Definition CSS2_HEX_TO_NAMES : dict str := HTML4_HEX_TO_NAMES.
Definition CSS21_HEX_TO_NAMES : dict str := _reversedict CSS21_NAMES_TO_HEX.
Definition COLOR_HEXA_HEX_TO_NAMES : dict str := _reversedict COLOR_HEXA_NAMES_TO_HEX.

(** The seven assignments [CSS3_HEX_TO_NAMES["#a9a9a9"] = "darkgray"], ...
    made after the reverse table is built, in the order of the source. *)
Definition CSS3_GRAY_ASSIGNMENTS : list (str * str) :=
  [ (lit "#a9a9a9", lit "darkgray");
    (lit "#2f4f4f", lit "darkslategray");
    (lit "#696969", lit "dimgray");
    (lit "#808080", lit "gray");
    (lit "#d3d3d3", lit "lightgray");
    (lit "#778899", lit "lightslategray");
    (lit "#708090", lit "slategray") ].

(** The CSS3 reverse table as the module builds it from a name table:
    [_reversedict], then the seven assignments. *)
Definition CSS3_HEX_TO_NAMES_of (names_to_hex : dict str) : dict str :=
  fold_left (fun d kv => dict_set d (fst kv) (snd kv))
            CSS3_GRAY_ASSIGNMENTS (_reversedict names_to_hex).

Definition CSS3_HEX_TO_NAMES : dict str := CSS3_HEX_TO_NAMES_of CSS3_NAMES_TO_HEX.


(** ** Normalisation functions *)

(** The character class [[a-fA-F0-9]] of [HEX_COLOR_RE]. *)
Definition re_hex_class (c : codepoint) : bool :=
  ((ch "a" <=? c) && (c <=? ch "f") || (ch "A" <=? c) && (c <=? ch "F")
   || (ch "0" <=? c) && (c <=? ch "9"))%N.

(** [$] without [re.MULTILINE]: the end of the string, or the position
    just before a line feed that ends the string. *)
Definition re_at_end (rest : str) : bool :=
  match rest with
  | [] => true
  | [c] => (c =? 10)%N
  | _ => false
  end.

(** One alternative [[a-fA-F0-9]{n}] followed by [$]: the group it captures. *)
Definition re_hex_run (n : nat) (s : str) : option str :=
  let g := firstn n s in
  if (len g =? n)%nat && forallb re_hex_class g && re_at_end (skipn n s)
  then Some g else None.

(** [HEX_COLOR_RE.match(hex_value)], as [match.group(1)]. *)
Definition HEX_COLOR_RE_match (hex_value : str) : option str :=
  match hex_value with
  | c :: rest =>
      if (c =? ch "#")%N then
        match re_hex_run 3 rest with
        | Some g => Some g
        | None => re_hex_run 6 rest
        end
      else None
  | [] => None
  end.

Definition _normalize_integer_rgb (value : Z) : Z :=
  if (value <? 0)%Z then 0%Z else if (255 <? value)%Z then 255%Z else value.

Definition normalize_integer_triplet (rgb_triplet : IntTuple) : IntegerRGB :=
  let '(r, g, b) := rgb_triplet in
  mkIntegerRGB (_normalize_integer_rgb r) (_normalize_integer_rgb g)
               (_normalize_integer_rgb b).

(** ** Formatting integers *)

Definition hex_digit_char (d : Z) : codepoint :=
  if (d <? 10)%Z then (ch "0" + Z.to_N d)%N else (ch "a" + Z.to_N (d - 10))%N.

(** Lowercase hexadecimal digits of [n >= 0], most significant first; the
    fuel [S (log2 n)] that [format_x] passes exceeds the number of digits. *)
Fixpoint hex_digits_of (fuel : nat) (n : Z) : str :=
  match fuel with
  | O => []
  | S fuel' =>
      if (n <? 16)%Z then [hex_digit_char n]
      else hex_digits_of fuel' (n / 16)%Z ++ [hex_digit_char (n mod 16)%Z]
  end.

Definition format_x (n : Z) : str := hex_digits_of (S (Z.to_nat (Z.log2 n))) n.

(** ["{:02x}".format(n)]: the sign counts towards the width of two. *)
Definition format_02x (n : Z) : str :=
  if (n <? 0)%Z then ch "-" :: format_x (- n)
  else
    let ds := format_x n in
    if (len ds <? 2)%nat then ch "0" :: ds else ds.

Definition dec_digit_char (d : Z) : codepoint := (ch "0" + Z.to_N d)%N.

Fixpoint dec_digits_of (fuel : nat) (n : Z) : str :=
  match fuel with
  | O => []
  | S fuel' =>
      if (n <? 10)%Z then [dec_digit_char n]
      else dec_digits_of fuel' (n / 10)%Z ++ [dec_digit_char (n mod 10)%Z]
  end.

(** [str(n)] for [n >= 0]. *)
Definition format_nat (n : Z) : str := dec_digits_of (S (Z.to_nat (Z.log2 n))) n.

(** [str(n)] *)
Definition format_int (n : Z) : str :=
  if (n <? 0)%Z then ch "-" :: format_nat (- n) else format_nat n.

(** ** Python floats

    A [float] is an IEEE 754 binary64 number; the arithmetic is that of
    [SpecFloat] at precision 53, with rounding to nearest, ties to even. *)

Definition float : Type := spec_float.
Definition prec : Z := 53.
Definition emax : Z := 1024.

Inductive num : Type :=
| PyInt (n : Z)
| PyFloat (f : float).

(** [float(n)] for an [int] of magnitude below [2 ** 1024]. *)
Definition float_of_int (n : Z) : float := binary_normalize prec emax n 0 false.

Definition float_div (x y : float) : float := SFdiv prec emax x y.
Definition float_mul (x y : float) : float := SFmul prec emax x y.

(** The float nearest to the fraction [p / q]. *)
Definition float_of_ratio (neg : bool) (p q : positive) : float :=
  SFdiv prec emax (S754_finite neg p 0) (S754_finite false q 0).

Definition float_eqb (x y : float) : bool :=
  match x, y with
  | S754_zero a, S754_zero b => Bool.eqb a b
  | S754_infinity a, S754_infinity b => Bool.eqb a b
  | S754_finite a m e, S754_finite b m' e' =>
      Bool.eqb a b && Pos.eqb m m' && Z.eqb e e'
  | _, _ => false
  end.

(** The exact value [m * 2 ** e] as a fraction. *)
Definition float_ratio (m : positive) (e : Z) : Z * Z :=
  if (0 <=? e)%Z then (Zpos m * 2 ^ e, 1)%Z else (Zpos m, 2 ^ (- e))%Z.

(** [p / q] rounded to the nearest integer, ties to even ([0 <= p], [0 < q]). *)
Definition round_half_even_ratio (p q : Z) : Z :=
  let d := (p / q)%Z in
  match (2 * (p mod q) ?= q)%Z with
  | Lt => d
  | Gt => (d + 1)%Z
  | Eq => if Z.even d then d else (d + 1)%Z
  end.

(** [round(x)] for a float [x]: an [int]. *)
Definition py_round (x : float) : result Z :=
  match x with
  | S754_zero _ => Return 0%Z
  | S754_finite s m e =>
      let '(p, q) := float_ratio m e in
      let n := round_half_even_ratio p q in
      Return (if s then - n else n)%Z
  | S754_infinity _ => Raise OverflowError
  | S754_nan => Raise (ValueError (lit "cannot convert float NaN to integer"))
  end.

Definition is_decdigit (c : codepoint) : bool :=
  ((ch "0" <=? c) && (c <=? ch "9"))%N.

Definition dec_value (s : str) : Z :=
  fold_left (fun acc c => acc * 10 + Z.of_N (c - ch "0"))%Z s 0%Z.

Definition split_sign (s : str) : bool * str :=
  match s with
  | c :: t =>
      if (c =? ch "-")%N then (true, t)
      else if (c =? ch "+")%N then (false, t)
      else (false, s)
  | [] => (false, [])
  end.

(** The text before the first ["."] and, when there is one, the text after it. *)
Fixpoint split_point (s : str) : str * option str :=
  match s with
  | [] => ([], None)
  | c :: t =>
      if (c =? ch ".")%N then ([], Some t)
      else let '(a, b) := split_point t in (c :: a, b)
  end.

(** The number of decimal digits that [int] converts at most, leading
    zeros counted and the sign not: the interpreter's default,
    [sys.int_info.default_max_str_digits]. *)
Definition int_max_str_digits : Z := 4300.

(** The [ValueError] of [int] on a literal of [digits] digits, more than
    the limit. *)
Definition int_limit_error (digits : Z) : exn :=
  ValueError (lit "Exceeds the limit (" ++ format_int int_max_str_digits
              ++ lit " digits) for integer string conversion: value has "
              ++ format_int digits
              ++ lit " digits; use sys.set_int_max_str_digits() to increase the limit").

(** [int(s)] on an optional sign followed by ASCII decimal digits: the
    value, or the [ValueError] of the digit limit when there are more than
    [int_max_str_digits] digits.  Other strings (white space, underscores,
    non-ASCII digits, malformed text) are [Unmodelled]. *)
Definition py_int (s : str) : result Z :=
  let '(neg, body) := split_sign s in
  if negb (len body =? 0)%nat && forallb is_decdigit body
  then
    if (int_max_str_digits <? Z.of_nat (len body))%Z
    then Raise (int_limit_error (Z.of_nat (len body)))
    else Return (if neg then - dec_value body else dec_value body)%Z
  else Unmodelled.

(** [float(s)] on an optional sign followed by a decimal numeral
    [digits], [digits.digits], [digits.] or [.digits]: the binary64 number
    nearest to the decimal value.  Other strings (exponents, [inf], [nan],
    white space, underscores, malformed text) are [Unmodelled]. *)
Definition py_float (s : str) : result float :=
  let '(neg, body) := split_sign s in
  let '(ip, fp) := split_point body in
  let fp := match fp with Some f => f | None => [] end in
  if negb (len ip + len fp =? 0)%nat && forallb is_decdigit ip && forallb is_decdigit fp
  then
    match dec_value (ip ++ fp) with
    | Zpos p => Return (float_of_ratio neg p (Z.to_pos (10 ^ Z.of_nat (len fp))))
    | _ => Return (S754_zero neg)
    end
  else Unmodelled.

(** Two decimal digits of [0 <= n < 100]. *)
Definition two_digits (n : Z) : str :=
  [dec_digit_char (n / 10)%Z; dec_digit_char (n mod 10)%Z].

(** ["{:.02f}".format(x)]: the exact value of [x] rounded to two decimals,
    ties to even. *)
Definition format_2f (x : float) : str :=
  match x with
  | S754_nan => lit "nan"
  | S754_infinity s => if s then lit "-inf" else lit "inf"
  | S754_zero s => if s then lit "-0.00" else lit "0.00"
  | S754_finite s m e =>
      let '(p, q) := float_ratio m e in
      let n := round_half_even_ratio (100 * p)%Z q in
      (if s then [ch "-"] else [])
        ++ format_nat (n / 100)%Z ++ [ch "."] ++ two_digits (n mod 100)%Z
  end.

(** *** [repr] of a float

    [repr(x)] is the shortest decimal numeral that [float] reads back as
    [x]; among the numerals of that length, the one nearest to [x]. *)

(** For [p / q >= 1]: the least [d] with [p / q < 10 ** d], counting up
    from [d] while multiplying [q] by ten. *)
Fixpoint decpt_up (fuel : nat) (p q d : Z) : Z :=
  match fuel with
  | O => d
  | S fuel' => if (p <? q)%Z then d else decpt_up fuel' p (q * 10)%Z (d + 1)%Z
  end.

(** For [p / q < 1]: the least [d] with [p / q < 10 ** d], counting down
    from [d] while multiplying [p] by ten. *)
Fixpoint decpt_down (fuel : nat) (p q d : Z) : Z :=
  match fuel with
  | O => d
  | S fuel' => if (p * 10 <? q)%Z then decpt_down fuel' (p * 10)%Z q (d - 1)%Z else d
  end.

(** The position of the decimal point: the least [d] with [p / q < 10 ** d].
    A binary64 number lies between [10 ** -324] and [10 ** 309]. *)
Definition find_decpt (p q : Z) : Z :=
  if (p <? q)%Z then decpt_down 400 p q 0 else decpt_up 400 p q 0.

(** [floor ((p / q) / 10 ** k)] *)
Definition scaled_floor (p q k : Z) : Z :=
  if (0 <=? k)%Z then (p / (q * 10 ^ k))%Z else ((p * 10 ^ (- k)) / q)%Z.

(** The float that [c * 10 ** k] reads as ([0 < c]). *)
Definition float_of_decimal (neg : bool) (c k : Z) : float :=
  if (0 <=? k)%Z
  then float_of_ratio neg (Z.to_pos (c * 10 ^ k)) 1
  else float_of_ratio neg (Z.to_pos c) (Z.to_pos (10 ^ (- k))).

(** Whether [lo * 10 ** k] is at least as near to [p / q] as
    [(lo + 1) * 10 ** k], the even numeral winning a tie. *)
Definition lower_is_nearer (p q lo k : Z) : bool :=
  let mid2 := (2 * lo + 1)%Z in
  let c := if (0 <=? k)%Z then (2 * p ?= mid2 * 10 ^ k * q)%Z
           else (2 * p * 10 ^ (- k) ?= mid2 * q)%Z in
  match c with
  | Lt => true
  | Gt => false
  | Eq => Z.even lo
  end.

(** Numerals of [n], [n + 1], ... significant digits, up to 17, until one
    reads back as [x]: the pair [(c, k)] stands for [c * 10 ** k]. *)
Fixpoint shortest_decimal (fuel : nat) (x : float) (p q decpt n : Z) : Z * Z :=
  let k := (decpt - n)%Z in
  let lo := scaled_floor p q k in
  let hi := (lo + 1)%Z in
  match fuel with
  | O => if lower_is_nearer p q lo k then (lo, k) else (hi, k)
  | S fuel' =>
      let rlo := float_eqb (float_of_decimal false lo k) x in
      let rhi := float_eqb (float_of_decimal false hi k) x in
      if rlo && rhi then (if lower_is_nearer p q lo k then (lo, k) else (hi, k))
      else if rlo then (lo, k)
      else if rhi then (hi, k)
      else shortest_decimal fuel' x p q decpt (n + 1)%Z
  end.

(** Drop the trailing zeros of [c], moving them into the exponent. *)
Fixpoint strip_trailing_zeros (fuel : nat) (c k : Z) : Z * Z :=
  match fuel with
  | O => (c, k)
  | S fuel' =>
      if (c mod 10 =? 0)%Z then strip_trailing_zeros fuel' (c / 10)%Z (k + 1)%Z
      else (c, k)
  end.

Definition zeros (n : Z) : str := repeat (ch "0") (Z.to_nat n).

(** The digits [ds] with the decimal point after [decpt] of them, in the
    layout of [repr]: exponent notation when [decpt <= -4] or [decpt > 16]. *)
Definition repr_layout (ds : str) (decpt : Z) : str :=
  if ((decpt <=? -4) || (16 <? decpt))%Z then
    let e := (decpt - 1)%Z in
    let mant := match ds with
                | [] => []
                | [d] => [d]
                | d :: rest => d :: ch "." :: rest
                end in
    let ed := format_nat (Z.abs e) in
    mant ++ [ch "e"] ++ [if (e <? 0)%Z then ch "-" else ch "+"]
         ++ (if (len ed <? 2)%nat then ch "0" :: ed else ed)
  else if (decpt <=? 0)%Z then lit "0." ++ zeros (- decpt) ++ ds
  else if (Z.of_nat (len ds) <=? decpt)%Z
       then ds ++ zeros (decpt - Z.of_nat (len ds)) ++ lit ".0"
  else firstn (Z.to_nat decpt) ds ++ [ch "."] ++ skipn (Z.to_nat decpt) ds.

(** [repr(x)], which is also [str(x)] and ["{}".format(x)]. *)
Definition float_repr (x : float) : str :=
  match x with
  | S754_nan => lit "nan"
  | S754_infinity s => if s then lit "-inf" else lit "inf"
  | S754_zero s => if s then lit "-0.0" else lit "0.0"
  | S754_finite s m e =>
      let '(p, q) := float_ratio m e in
      let decpt := find_decpt p q in
      let '(c, k) := shortest_decimal 16 (S754_finite false m e) p q decpt 1 in
      let '(c, k) := strip_trailing_zeros 17 c k in
      let ds := format_nat c in
      (if s then [ch "-"] else []) ++ repr_layout ds (Z.of_nat (len ds) + k)
  end.

(** ** Percentages *)

(** [value.split("%")[0]]: the text before the first ["%"]. *)
Fixpoint before_percent (value : str) : str :=
  match value with
  | [] => []
  | c :: t => if (c =? ch "%")%N then [] else c :: before_percent t
  end.

Definition num_lt_0 (x : num) : bool :=
  match x with
  | PyInt n => (n <? 0)%Z
  | PyFloat f => SFltb f (float_of_int 0)
  end.

Definition num_gt_100 (x : num) : bool :=
  match x with
  | PyInt n => (100 <? n)%Z
  | PyFloat f => SFltb (float_of_int 100) f
  end.

(** ["{}".format(x)] *)
Definition format_num (x : num) : str :=
  match x with
  | PyInt n => format_int n
  | PyFloat f => float_repr f
  end.

Definition _normalize_percent_rgb (value : str) : result str :=
  let value := before_percent value in
  percent <- (if char_in (ch ".") value
              then f <- py_float value ;; Return (PyFloat f)
              else n <- py_int value ;; Return (PyInt n)) ;;
  Return (if num_lt_0 percent then lit "0%"
          else if num_gt_100 percent then lit "100%"
          else format_num percent ++ lit "%").

Definition normalize_percent_triplet (rgb_triplet : PercentTuple) : result PercentRGB :=
  let '(r, g, b) := rgb_triplet in
  r' <- _normalize_percent_rgb r ;;
  g' <- _normalize_percent_rgb g ;;
  b' <- _normalize_percent_rgb b ;;
  Return (mkPercentRGB r' g' b').

(** ** Conversions *)

Section Conversions.
Context {U : Unicode}.

Definition normalize_hex (hex_value : str) : result str :=
  match HEX_COLOR_RE_match hex_value with
  | None =>
      Raise (ValueError (lit "'" ++ hex_value ++ lit "' is not a valid hexadecimal color value."))
  | Some hex_digits =>
      let hex_digits :=
        if (len hex_digits =? 3)%nat
        then flat_map (fun s => [s; s]) hex_digits
        else hex_digits in
      Return (ch "#" :: lower hex_digits)
  end.

(** The dictionary display that [name_to_hex] indexes with [spec]. *)
Definition NAMES_TO_HEX_BY_SPEC : dict (dict str) :=
  dict_literal
    [ (CSS2, CSS2_NAMES_TO_HEX);
      (CSS21, CSS21_NAMES_TO_HEX);
      (CSS3, CSS3_NAMES_TO_HEX);
      (HTML4, HTML4_NAMES_TO_HEX);
      (COLOR_HEXA, COLOR_HEXA_NAMES_TO_HEX) ].

(** The dictionary display that [hex_to_name] indexes with [spec]. *)
Definition HEX_TO_NAMES_BY_SPEC : dict (dict str) :=
  dict_literal
    [ (CSS2, CSS2_HEX_TO_NAMES);
      (CSS21, CSS21_HEX_TO_NAMES);
      (CSS3, CSS3_HEX_TO_NAMES);
      (HTML4, HTML4_HEX_TO_NAMES);
      (COLOR_HEXA, COLOR_HEXA_HEX_TO_NAMES) ].

(** [spec in SUPPORTED_SPECIFICATIONS] *)
Definition supported (spec : str) : bool :=
  existsb (str_eqb spec) SUPPORTED_SPECIFICATIONS.

Definition name_to_hex (name spec : str) : result str :=
  if negb (supported spec) then Raise (ValueError (SPECIFICATION_ERROR spec))
  else
    let normalized := lower name in
    match dict_get NAMES_TO_HEX_BY_SPEC spec with
    | None => Raise (KeyError spec)
    | Some table =>
        match dict_get table normalized with
        | None =>
            Raise (ValueError (lit "'" ++ name ++ lit "' is not defined as a named color in " ++ spec))
        | Some hex_value => Return hex_value
        end
    end.

Definition hex_to_name (hex_value spec : str) : result str :=
  if negb (supported spec) then Raise (ValueError (SPECIFICATION_ERROR spec))
  else
    normalized <- normalize_hex hex_value ;;
    match dict_get HEX_TO_NAMES_BY_SPEC spec with
    | None => Raise (KeyError spec)
    | Some table =>
        match dict_get table normalized with
        | None =>
            Raise (ValueError (lit "'" ++ hex_value ++ lit "' has no defined color name in " ++ spec))
        | Some name => Return name
        end
    end.

Definition hex_to_rgb (hex_value : str) : result IntegerRGB :=
  normalized <- normalize_hex hex_value ;;
  int_value <- int16 (slice_from 1 normalized) ;;
  Return (mkIntegerRGB (Z.shiftr int_value 16)
                       (Z.land (Z.shiftr int_value 8) 255)
                       (Z.land int_value 255)).

End Conversions.

Definition rgb_to_hex (rgb_triplet : IntTuple) : str :=
  let t := normalize_integer_triplet rgb_triplet in
  ch "#" :: format_02x (red t) ++ format_02x (green t) ++ format_02x (blue t).

(** The [specials] dictionary of [rgb_to_rgb_percent]. *)
Definition specials : list (Z * str) :=
  [ (255, lit "100%"); (128, lit "50%"); (64, lit "25%");
    (32, lit "12.5%"); (16, lit "6.25%"); (0, lit "0%") ]%Z.

(** [specials.get(d, default)] *)
Fixpoint specials_get (l : list (Z * str)) (d : Z) (default : str) : str :=
  match l with
  | [] => default
  | (k, v) :: l' => if (k =? d)%Z then v else specials_get l' d default
  end.

(** One component of [rgb_to_rgb_percent]:
    [specials.get(d, "{:.02f}%".format(d / 255.0 * 100))]. *)
Definition rgb_component_percent (d : Z) : str :=
  specials_get specials d
    (format_2f (float_mul (float_div (float_of_int d) (float_of_int 255))
                          (float_of_int 100)) ++ lit "%").

Definition rgb_to_rgb_percent (rgb_triplet : IntTuple) : PercentRGB :=
  let t := normalize_integer_triplet rgb_triplet in
  mkPercentRGB (rgb_component_percent (red t))
               (rgb_component_percent (green t))
               (rgb_component_percent (blue t)).

Definition _percent_to_integer (percent : str) : result Z :=
  f <- py_float (before_percent percent) ;;
  py_round (float_mul (float_div f (float_of_int 100)) (float_of_int 255)).

Definition rgb_percent_to_rgb (rgb_percent_triplet : PercentTuple) : result IntegerRGB :=
  t <- normalize_percent_triplet rgb_percent_triplet ;;
  r <- _percent_to_integer (pred t) ;;
  g <- _percent_to_integer (pgreen t) ;;
  b <- _percent_to_integer (pblue t) ;;
  Return (mkIntegerRGB r g b).

(** ** HTML5 legacy colour *)

Definition legacy_empty_error : exn :=
  ValueError (lit "HTML5 legacy color parsing forbids empty string as a value.").

(** The message is built at the raise site; the quotation marks around
    [transparent] are the code point 34. *)
Definition legacy_transparent_error : exn :=
  ValueError (lit "HTML5 legacy color parsing forbids " ++ [34%N] ++ lit "transparent"
                ++ [34%N] ++ lit " as a value.").

(** Step 11: [while (len(input) == 0) or (len(input) % 3 != 0): input += "0"]. *)
Fixpoint pad_to_multiple_of_three (fuel : nat) (input : str) : option str :=
  if (len input =? 0)%nat || negb (len input mod 3 =? 0)%nat then
    match fuel with
    | O => None
    | S fuel' => pad_to_multiple_of_three fuel' (input ++ [ch "0"])
    end
  else Some input.

(** Step 14: [while (length > 2) and (red[0] == "0" and green[0] == "0" and
    blue[0] == "0")].  Each round consumes the head of [red], on which the
    recursion runs; indexing an empty component is an [IndexError]. *)
Fixpoint trim_leading_zeros (length : nat) (red green blue : str)
  : result (nat * (str * str * str)) :=
  if (2 <? length)%nat then
    match red with
    | [] => Raise IndexError
    | r0 :: red' =>
        if negb (r0 =? ch "0")%N then Return (length, (red, green, blue))
        else
          match green with
          | [] => Raise IndexError
          | g0 :: green' =>
              if negb (g0 =? ch "0")%N then Return (length, (red, green, blue))
              else
                match blue with
                | [] => Raise IndexError
                | b0 :: blue' =>
                    if negb (b0 =? ch "0")%N then Return (length, (red, green, blue))
                    else trim_leading_zeros (length - 1) red' green' blue'
                end
          end
    end
  else Return (length, (red, green, blue)).

(** Steps 7 to 20, on the stripped input that is neither a keyword nor a
    three-digit colour. *)
Definition legacy_general (input : str) : result HTML5SimpleColor :=
  let input := flat_map (fun c => if (65535 <? c)%N then lit "00" else [c]) input in
  let input := if (128 <? len input)%nat then slice_to 128 input else input in
  let input := if startswith_hash input then slice_from 1 input else input in
  let input := map (fun c => if is_hexdigit c then c else ch "0") input in
  match pad_to_multiple_of_three 3 input with
  | None => Unmodelled
  | Some input =>
      let length := (len input / 3)%nat in
      let red := slice_to length input in
      let green := slice length (length * 2) input in
      let blue := slice_from (length * 2) input in
      let '(length, (red, green, blue)) :=
        if (8 <? length)%nat
        then (8%nat, (slice_from (length - 8) red, slice_from (length - 8) green,
                      slice_from (length - 8) blue))
        else (length, (red, green, blue)) in
      st <- trim_leading_zeros length red green blue ;;
      let '(length, (red, green, blue)) := st in
      let '(red, green, blue) :=
        if (2 <? length)%nat
        then (slice_to 2 red, slice_to 2 green, slice_to 2 blue)
        else (red, green, blue) in
      r <- int16 red ;;
      g <- int16 green ;;
      b <- int16 blue ;;
      Return (mkHTML5SimpleColor r g b)
  end.

Section Legacy.
Context {U : Unicode}.

Definition html5_parse_legacy_color (input : str) : result HTML5SimpleColor :=
  if str_eqb input [] then Raise legacy_empty_error
  else
    let input := strip input in
    if str_eqb (lower input) (lit "transparent") then Raise legacy_transparent_error
    else
      match dict_get CSS3_NAMES_TO_HEX (lower input) with
      | Some keyword_hex => html5_parse_simple_color keyword_hex
      | None =>
          if (len input =? 4)%nat && startswith_hash input
             && forallb is_hexdigit (slice_from 1 input)
          then
            c1 <- index input 1 ;;
            c2 <- index input 2 ;;
            c3 <- index input 3 ;;
            r <- int16 [c1] ;;
            g <- int16 [c2] ;;
            b <- int16 [c3] ;;
            Return (mkHTML5SimpleColor (r * 17) (g * 17) (b * 17))
          else legacy_general input
      end.

End Legacy.

(** ** Notions used in the statements *)

Definition is_byte (v : Z) : Prop := (0 <= v <= 255)%Z.

Definition byte_triplet (c : HTML5SimpleColor) : Prop :=
  is_byte (sred c) /\ is_byte (sgreen c) /\ is_byte (sblue c).

(** Whether [hex_value] parses as a simple colour with byte components. *)
Definition simple_color_ok (hex_value : str) : bool :=
  match html5_parse_simple_color hex_value with
  | Return c =>
      (0 <=? sred c)%Z && (sred c <=? 255)%Z && (0 <=? sgreen c)%Z
      && (sgreen c <=? 255)%Z && (0 <=? sblue c)%Z && (sblue c <=? 255)%Z
  | _ => false
  end.

(** The names that a table gives to [hex_value], in table order. *)
Definition names_of (names_to_hex : dict str) (hex_value : str) : list str :=
  map fst (filter (fun kv => str_eqb (snd kv) hex_value) names_to_hex).

(** A named tuple read as the plain tuple it is. *)
Definition IntegerRGB_as_tuple (t : IntegerRGB) : IntTuple := (red t, green t, blue t).
Definition PercentRGB_as_tuple (t : PercentRGB) : PercentTuple :=
  (pred t, pgreen t, pblue t).

(** ["#"] followed by exactly six hexadecimal digits of either case. *)
Definition is_six_digit_hex (h : str) : bool :=
  (len h =? 7)%nat && startswith_hash h && forallb is_hexdigit (slice_from 1 h).

Section Composites.
Context {U : Unicode}.

(** [rgb_to_hex(hex_to_rgb(h))] *)
Definition hex_rgb_hex (h : str) : result str :=
  t <- hex_to_rgb h ;; Return (rgb_to_hex (IntegerRGB_as_tuple t)).

End Composites.

(** The precision rule as the specification words it.  [hundredths v] is
    [v / 255 * 100] in hundredths of a percent, rounded to the nearest
    integer; [percent_text n] writes [n] hundredths with exactly two
    decimal places. *)
Definition clamp (v : Z) : Z := Z.max 0 (Z.min 255 v).

Definition hundredths (v : Z) : Z := ((20000 * v + 255) / 510)%Z.

Definition percent_text (n : Z) : str :=
  format_nat (n / 100)%Z ++ [ch "."] ++ two_digits (n mod 100)%Z ++ lit "%".

Definition precision_rule (v : Z) : str :=
  if (v =? 0)%Z then lit "0%"
  else if (v =? 16)%Z then lit "6.25%"
  else if (v =? 32)%Z then lit "12.5%"
  else if (v =? 64)%Z then lit "25%"
  else if (v =? 128)%Z then lit "50%"
  else if (v =? 255)%Z then lit "100%"
  else percent_text (hundredths v).

Definition special_values : list Z := [0; 16; 32; 64; 128; 255]%Z.

(** ** The remaining conversions *)

Section MoreConversions.
Context {U : Unicode}.

Definition name_to_rgb (name spec : str) : result IntegerRGB :=
  hex_value <- name_to_hex name spec ;; hex_to_rgb hex_value.

Definition name_to_rgb_percent (name spec : str) : result PercentRGB :=
  t <- name_to_rgb name spec ;;
  Return (rgb_to_rgb_percent (IntegerRGB_as_tuple t)).

Definition hex_to_rgb_percent (hex_value : str) : result PercentRGB :=
  t <- hex_to_rgb hex_value ;;
  Return (rgb_to_rgb_percent (IntegerRGB_as_tuple t)).

Definition rgb_to_name (rgb_triplet : IntTuple) (spec : str) : result str :=
  hex_to_name
    (rgb_to_hex (IntegerRGB_as_tuple (normalize_integer_triplet rgb_triplet))) spec.

(** [normalize_percent_triplet] runs here and again inside
    [rgb_percent_to_rgb], as in the source. *)
Definition rgb_percent_to_name (rgb_percent_triplet : PercentTuple) (spec : str)
  : result str :=
  n <- normalize_percent_triplet rgb_percent_triplet ;;
  t <- rgb_percent_to_rgb (PercentRGB_as_tuple n) ;;
  rgb_to_name (IntegerRGB_as_tuple t) spec.

Definition rgb_percent_to_hex (rgb_percent_triplet : PercentTuple) : result str :=
  n <- normalize_percent_triplet rgb_percent_triplet ;;
  t <- rgb_percent_to_rgb (PercentRGB_as_tuple n) ;;
  Return (rgb_to_hex (IntegerRGB_as_tuple t)).

End MoreConversions.

(** The components are formatted as they come: no clamping. *)
Definition html5_serialize_simple_color (simple_color : IntTuple) : str :=
  let '(red, green, blue) := simple_color in
  let result := [ch "#"] in
  let result := result ++ format_02x red in
  let result := result ++ format_02x green in
  let result := result ++ format_02x blue in
  result.

(** ** Further notions used in the statements *)

Definition HTML5SimpleColor_as_tuple (c : HTML5SimpleColor) : IntTuple :=
  (sred c, sgreen c, sblue c).

Definition is_lower_hexdigit (c : codepoint) : bool :=
  char_in c (lit "0123456789abcdef").

(** A normalized value: ["#"] and six lowercase hexadecimal digits. *)
Definition is_normalized_hex (h : str) : bool :=
  (len h =? 7)%nat && startswith_hash h && forallb is_lower_hexdigit (slice_from 1 h).

(** The three-digit form written out: each digit twice. *)
Definition double_digits (digits : str) : str := flat_map (fun c => [c; c]) digits.

(** The digits that [normalize_hex] writes after the ["#"]. *)
Definition written_digits (digits : str) : str :=
  map ascii_lower (if (len digits =? 3)%nat then double_digits digits else digits).

(** What [HEX_COLOR_RE] admits: ["#"], then the three or six hexadecimal
    [digits], then nothing or one final line feed. *)
Definition hex_shaped (h digits : str) : Prop :=
  (h = ch "#" :: digits \/ h = ch "#" :: digits ++ [10%N])
  /\ (len digits = 3%nat \/ len digits = 6%nat)
  /\ forallb is_hexdigit digits = true.

(** The two digits of a byte, checked for one value. *)
Definition byte_text_ok (v : Z) : bool :=
  match format_02x v with
  | [c; d] =>
      is_lower_hexdigit c && is_lower_hexdigit d
      && (hex_value_of c * 16 + hex_value_of d =? v)%Z
  | _ => false
  end.

Definition str_option_eqb (a b : option str) : bool :=
  match a, b with
  | Some x, Some y => str_eqb x y
  | None, None => true
  | _, _ => false
  end.

Definition is_lowercase_ascii (s : str) : bool :=
  forallb is_ascii s && str_eqb (map ascii_lower s) s.

(** A name table and its reverse table fit together: keys are lowercase
    ASCII, values are normalized, every value leads back to a name of that
    value, and every entry of the reverse table is an entry of the table. *)
Definition tables_fit (table rtable : dict str) : bool :=
  forallb (fun kv =>
             is_lowercase_ascii (fst kv) && is_normalized_hex (snd kv)
             && match dict_get rtable (snd kv) with
                | Some name => str_option_eqb (dict_get table name) (Some (snd kv))
                | None => false
                end) table
  && forallb (fun kv =>
                is_lowercase_ascii (snd kv)
                && str_option_eqb (dict_get table (snd kv)) (Some (fst kv))) rtable.

(** Every entry of [small] is an entry of [big]. *)
Definition table_included (small big : dict str) : bool :=
  forallb (fun kv => str_option_eqb (dict_get big (fst kv)) (Some (snd kv))) small.

Definition clamp_percent (n : Z) : Z := Z.max 0 (Z.min 100 n).

(** The byte of an integer percentage: the percentage clamped to 0..100,
    times 255 / 100, rounded to the nearest integer, a half to the even one. *)
Definition percent_byte (n : Z) : Z :=
  round_half_even_ratio (255 * clamp_percent n) 100.

Definition is_lower_letter (c : codepoint) : bool :=
  ((ch "a" <=? c) && (c <=? ch "z"))%N.

(** One component through [rgb_to_rgb_percent], the two normalizations of
    [rgb_percent_to_hex] and the conversion back. *)
Definition percent_there_and_back (v : Z) : bool :=
  match _normalize_percent_rgb (rgb_component_percent v) with
  | Return s1 =>
      match _normalize_percent_rgb s1 with
      | Return s2 =>
          str_eqb s1 s2
          && match _percent_to_integer s1 with
             | Return w => (w =? v)%Z
             | _ => false
             end
      | _ => false
      end
  | _ => false
  end.

(** An integer percentage through [_normalize_percent_rgb] and
    [_percent_to_integer], against [255 * n / 100] rounded half to even. *)
Definition integer_percent_ok (n : Z) : bool :=
  match _percent_to_integer (format_int n ++ lit "%") with
  | Return w => (w =? round_half_even_ratio (255 * n) 100)%Z
               && (0 <=? w)%Z && (w <=? 255)%Z
  | _ => false
  end.

(** * Properties *)

(** ** Strings, digits and dictionaries *)

Lemma str_eqb_eq (a b : str) : str_eqb a b = true <-> a = b.
Proof.
  revert b; induction a as [|x a IH]; intros [|y b]; simpl; split;
    try discriminate; try reflexivity.
  - rewrite andb_true_iff, N.eqb_eq, IH. intros [-> ->]. reflexivity.
  - intros H. injection H as -> ->. rewrite N.eqb_refl. apply IH. reflexivity.
Qed.

Lemma str_eqb_refl (a : str) : str_eqb a a = true.
Proof. apply str_eqb_eq. reflexivity. Qed.

Lemma str_eqb_neq (a b : str) : str_eqb a b = false <-> a <> b.
Proof.
  split.
  - intros H E. apply str_eqb_eq in E. congruence.
  - intros H. destruct (str_eqb a b) eqn:E; [apply str_eqb_eq in E; contradiction | reflexivity].
Qed.

Lemma is_hexdigit_In (c : codepoint) : is_hexdigit c = true -> In c hexdigits.
Proof.
  unfold is_hexdigit, char_in. rewrite existsb_exists.
  intros [x [Hin Heq]]. apply N.eqb_eq in Heq. subst x. exact Hin.
Qed.

(** Case analysis on the 22 characters of [string.hexdigits]. *)
Ltac hexdigit_cases H :=
  apply is_hexdigit_In in H; vm_compute in H;
  repeat (destruct H as [H | H]; [subst | ]); [ .. | contradiction ].

Lemma hex_value_of_range (c : codepoint) :
  is_hexdigit c = true -> (0 <= hex_value_of c <= 15)%Z.
Proof. intros H. hexdigit_cases H; vm_compute; split; discriminate. Qed.

Lemma hexdigit_is_re_class (c : codepoint) :
  is_hexdigit c = true -> re_hex_class c = true.
Proof. intros H. hexdigit_cases H; reflexivity. Qed.

Lemma hexdigit_is_ascii (c : codepoint) : is_hexdigit c = true -> is_ascii c = true.
Proof. intros H. hexdigit_cases H; reflexivity. Qed.

Lemma hex_digit_char_lower (c : codepoint) :
  is_hexdigit c = true -> hex_digit_char (hex_value_of c) = ascii_lower c.
Proof. intros H. hexdigit_cases H; reflexivity. Qed.

Lemma int16_one (c : codepoint) :
  is_hexdigit c = true -> int16 [c] = Return (hex_value_of c).
Proof. intros H. unfold int16. simpl. rewrite H. reflexivity. Qed.

Lemma int16_two (c d : codepoint) :
  is_hexdigit c = true -> is_hexdigit d = true ->
  int16 [c; d] = Return (hex_value_of c * 16 + hex_value_of d)%Z.
Proof. intros Hc Hd. unfold int16. simpl. rewrite Hc, Hd. reflexivity. Qed.

(** A component of one or two hexadecimal digits parses to a byte. *)
Lemma int16_byte (s : str) :
  (1 <= len s <= 2)%nat -> forallb is_hexdigit s = true ->
  exists v, int16 s = Return v /\ (0 <= v <= 255)%Z.
Proof.
  intros Hlen Hall.
  destruct s as [|c [|d [|e s]]]; simpl in Hlen; try lia.
  - simpl in Hall. rewrite andb_true_r in Hall.
    exists (hex_value_of c). split; [apply int16_one; assumption|].
    pose proof (hex_value_of_range _ Hall). lia.
  - simpl in Hall. rewrite andb_true_r in Hall. apply andb_true_iff in Hall.
    destruct Hall as [Hc Hd].
    exists (hex_value_of c * 16 + hex_value_of d)%Z.
    split; [apply int16_two; assumption|].
    pose proof (hex_value_of_range _ Hc). pose proof (hex_value_of_range _ Hd). lia.
Qed.

Lemma dict_get_In {V : Type} (d : dict V) (k : str) (v : V) :
  dict_get d k = Some v -> In v (map snd d).
Proof.
  induction d as [|[k' v'] d IH]; simpl; [discriminate|].
  destruct (str_eqb k' k).
  - intros H. injection H as ->. left. reflexivity.
  - intros H. right. apply IH. exact H.
Qed.

Lemma dict_get_set_same {V : Type} (d : dict V) (k : str) (v : V) :
  dict_get (dict_set d k v) k = Some v.
Proof.
  induction d as [|[k' v'] d IH]; simpl.
  - rewrite str_eqb_refl. reflexivity.
  - destruct (str_eqb k' k) eqn:E; simpl; rewrite E; [reflexivity | exact IH].
Qed.

Lemma dict_get_set_other {V : Type} (d : dict V) (k k' : str) (v : V) :
  k <> k' -> dict_get (dict_set d k v) k' = dict_get d k'.
Proof.
  intros Hne. induction d as [|[k0 v0] d IH]; simpl.
  - apply str_eqb_neq in Hne. rewrite Hne. reflexivity.
  - destruct (str_eqb k0 k) eqn:E; simpl.
    + apply str_eqb_eq in E. subst k0. apply str_eqb_neq in Hne. rewrite Hne. reflexivity.
    + destruct (str_eqb k0 k'); [reflexivity | exact IH].
Qed.

(** ** HTML5 simple colour *)

Lemma simple_errors_distinct :
  simple_length_error <> simple_hash_error
  /\ simple_length_error <> simple_digits_error
  /\ simple_hash_error <> simple_digits_error.
Proof. repeat split; intros H; vm_compute in H; discriminate H. Qed.

(** The shape of an input that passes the three checks. *)
Lemma seven_characters (input : str) :
  len input = 7%nat ->
  exists c0 c1 c2 c3 c4 c5 c6, input = [c0; c1; c2; c3; c4; c5; c6].
Proof.
  intros H.
  destruct input as [|c0 [|c1 [|c2 [|c3 [|c4 [|c5 [|c6 [|c7 t]]]]]]]];
    simpl in H; try discriminate.
  exists c0, c1, c2, c3, c4, c5, c6. reflexivity.
Qed.

Lemma html5_parse_simple_color_digits (c1 c2 c3 c4 c5 c6 : codepoint) :
  forallb is_hexdigit [c1; c2; c3; c4; c5; c6] = true ->
  html5_parse_simple_color [ch "#"; c1; c2; c3; c4; c5; c6]
  = Return (mkHTML5SimpleColor (hex_value_of c1 * 16 + hex_value_of c2)
                               (hex_value_of c3 * 16 + hex_value_of c4)
                               (hex_value_of c5 * 16 + hex_value_of c6)).
Proof.
  intros H. unfold html5_parse_simple_color.
  change (len [ch "#"; c1; c2; c3; c4; c5; c6] =? 7)%nat with true.
  change (startswith_hash [ch "#"; c1; c2; c3; c4; c5; c6]) with true.
  change (slice_from 1 [ch "#"; c1; c2; c3; c4; c5; c6]) with [c1; c2; c3; c4; c5; c6].
  rewrite H. cbn [negb].
  change (slice 1 3 [ch "#"; c1; c2; c3; c4; c5; c6]) with [c1; c2].
  change (slice 3 5 [ch "#"; c1; c2; c3; c4; c5; c6]) with [c3; c4].
  change (slice 5 7 [ch "#"; c1; c2; c3; c4; c5; c6]) with [c5; c6].
  simpl in H. rewrite !andb_true_iff in H.
  destruct H as (H1 & H2 & H3 & H4 & H5 & H6 & _).
  rewrite !int16_two by assumption. reflexivity.
Qed.

(** The four ways through [html5_parse_simple_color]. *)
Lemma html5_parse_simple_color_cases (input : str) :
  (len input <> 7%nat
   /\ html5_parse_simple_color input = Raise simple_length_error)
  \/ (len input = 7%nat /\ startswith_hash input = false
      /\ html5_parse_simple_color input = Raise simple_hash_error)
  \/ (len input = 7%nat /\ startswith_hash input = true
      /\ forallb is_hexdigit (slice_from 1 input) = false
      /\ html5_parse_simple_color input = Raise simple_digits_error)
  \/ (len input = 7%nat /\ startswith_hash input = true
      /\ forallb is_hexdigit (slice_from 1 input) = true
      /\ exists c1 c2 c3 c4 c5 c6,
           input = [ch "#"; c1; c2; c3; c4; c5; c6]
           /\ html5_parse_simple_color input
              = Return (mkHTML5SimpleColor
                          (hex_value_of c1 * 16 + hex_value_of c2)
                          (hex_value_of c3 * 16 + hex_value_of c4)
                          (hex_value_of c5 * 16 + hex_value_of c6))).
Proof.
  destruct (Nat.eq_dec (len input) 7) as [Hlen | Hlen].
  2:{ left. split; [exact Hlen|]. unfold html5_parse_simple_color.
      apply Nat.eqb_neq in Hlen. rewrite Hlen. reflexivity. }
  right.
  destruct (startswith_hash input) eqn:Hh.
  2:{ left. repeat split; try assumption. unfold html5_parse_simple_color.
      rewrite Hlen, Hh. reflexivity. }
  right.
  destruct (forallb is_hexdigit (slice_from 1 input)) eqn:Hd.
  2:{ left. repeat split; try assumption. unfold html5_parse_simple_color.
      rewrite Hlen, Hh, Hd. reflexivity. }
  right. repeat split; try assumption.
  destruct (seven_characters input Hlen) as (c0 & c1 & c2 & c3 & c4 & c5 & c6 & ->).
  simpl in Hh. apply N.eqb_eq in Hh. subst c0.
  exists c1, c2, c3, c4, c5, c6. split; [reflexivity|].
  apply html5_parse_simple_color_digits. exact Hd.
Qed.

(** C6.  [html5_parse_simple_color] raises the length error exactly when
    the input is not seven characters long; on seven characters it raises
    the missing-[#] error exactly when the first character is not [#]; on
    seven characters starting with [#] it raises the hex-digit error exactly
    when the other six are not all ASCII hex digits; and an input that
    passes the three checks yields the three bytes read from characters
    2-3, 4-5 and 6-7 in base 16, so that ["#123456"] gives [(18, 52, 86)]. *)
Theorem html5_parse_simple_color_spec (input : str) :
  (html5_parse_simple_color input = Raise simple_length_error
     <-> len input <> 7%nat)
  /\ (len input = 7%nat ->
      (html5_parse_simple_color input = Raise simple_hash_error
         <-> startswith_hash input = false))
  /\ (len input = 7%nat -> startswith_hash input = true ->
      (html5_parse_simple_color input = Raise simple_digits_error
         <-> forallb is_hexdigit (slice_from 1 input) = false))
  /\ (len input = 7%nat -> startswith_hash input = true ->
      forallb is_hexdigit (slice_from 1 input) = true ->
      exists c1 c2 c3 c4 c5 c6,
        input = [ch "#"; c1; c2; c3; c4; c5; c6]
        /\ html5_parse_simple_color input
           = Return (mkHTML5SimpleColor (hex_value_of c1 * 16 + hex_value_of c2)
                                        (hex_value_of c3 * 16 + hex_value_of c4)
                                        (hex_value_of c5 * 16 + hex_value_of c6)))
  /\ html5_parse_simple_color (lit "#123456")
     = Return (mkHTML5SimpleColor 18 52 86)
  /\ html5_parse_simple_color (lit "#1234") = Raise simple_length_error
  /\ html5_parse_simple_color (lit "#12345g") = Raise simple_digits_error.
Proof.
  destruct simple_errors_distinct as (D1 & D2 & D3).
  destruct (html5_parse_simple_color_cases input)
    as [[L R] | [(L & H & R) | [(L & H & D & R) | (L & H & D & R)]]].
  - repeat split; try (intros; congruence); try (vm_compute; reflexivity).
  - repeat split; try (intros; congruence); try (vm_compute; reflexivity).
  - repeat split; try (intros; congruence); try (vm_compute; reflexivity).
  - destruct R as (c1 & c2 & c3 & c4 & c5 & c6 & Hin & R).
    repeat split; try (intros; congruence); try (vm_compute; reflexivity).
    intros _ _ _. exists c1, c2, c3, c4, c5, c6. split; assumption.
Qed.

(** ** HTML5 legacy colour: the loops *)

Lemma forallb_firstn {A : Type} (f : A -> bool) (n : nat) (l : list A) :
  forallb f l = true -> forallb f (firstn n l) = true.
Proof.
  revert n; induction l as [|x l IH]; intros [|n]; simpl; try reflexivity.
  rewrite !andb_true_iff. intros [Hx Hl]. split; [exact Hx | apply IH; exact Hl].
Qed.

Lemma forallb_skipn {A : Type} (f : A -> bool) (n : nat) (l : list A) :
  forallb f l = true -> forallb f (skipn n l) = true.
Proof.
  revert n; induction l as [|x l IH]; intros [|n]; simpl; try reflexivity.
  - intros H; exact H.
  - rewrite andb_true_iff. intros [_ Hl]. apply IH; exact Hl.
Qed.

Lemma zero_is_hexdigit : is_hexdigit (ch "0") = true.
Proof. reflexivity. Qed.

(** Step 10 leaves only hexadecimal digits. *)
Lemma replace_non_hexdigits (s : str) :
  forallb is_hexdigit (map (fun c => if is_hexdigit c then c else ch "0") s) = true.
Proof.
  induction s as [|c s IH]; [reflexivity|].
  cbn [map forallb]. rewrite IH, andb_true_r.
  destruct (is_hexdigit c) eqn:E; [exact E | exact zero_is_hexdigit].
Qed.

(** Step 11 ends within three rounds, on a non-empty string whose length
    is a multiple of three. *)
Lemma pad_to_multiple_of_three_ok (input : str) :
  forallb is_hexdigit input = true ->
  exists padded,
    pad_to_multiple_of_three 3 input = Some padded
    /\ forallb is_hexdigit padded = true
    /\ (0 < len padded)%nat
    /\ (len padded mod 3 = 0)%nat.
Proof.
  intros Hhex.
  assert (Hz : forall s, forallb is_hexdigit s = true ->
                         forallb is_hexdigit (s ++ [ch "0"]) = true).
  { intros s Hs. rewrite forallb_app, Hs. reflexivity. }
  assert (Hl : forall s, len (s ++ [ch "0"]) = S (len s)).
  { intros s. unfold len. rewrite length_app. simpl. lia. }
  pose proof (Hz _ Hhex) as H1. pose proof (Hz _ H1) as H2. pose proof (Hz _ H2) as H3.
  pose proof (Hl input) as L1. pose proof (Hl (input ++ [ch "0"])) as L2.
  pose proof (Hl ((input ++ [ch "0"]) ++ [ch "0"])) as L3.
  cbn [pad_to_multiple_of_three].
  destruct ((len input =? 0)%nat || negb (len input mod 3 =? 0)%nat) eqn:C0.
  2:{ exists input. apply orb_false_iff in C0. destruct C0 as [A B].
      apply Nat.eqb_neq in A. apply negb_false_iff, Nat.eqb_eq in B.
      repeat split; try assumption. lia. }
  destruct ((len (input ++ [ch "0"]) =? 0)%nat
            || negb (len (input ++ [ch "0"]) mod 3 =? 0)%nat) eqn:C1.
  2:{ eexists. apply orb_false_iff in C1. destruct C1 as [A B].
      apply Nat.eqb_neq in A. apply negb_false_iff, Nat.eqb_eq in B.
      repeat split; try eassumption; try reflexivity. lia. }
  destruct ((len ((input ++ [ch "0"]) ++ [ch "0"]) =? 0)%nat
            || negb (len ((input ++ [ch "0"]) ++ [ch "0"]) mod 3 =? 0)%nat) eqn:C2.
  2:{ eexists. apply orb_false_iff in C2. destruct C2 as [A B].
      apply Nat.eqb_neq in A. apply negb_false_iff, Nat.eqb_eq in B.
      repeat split; try eassumption; try reflexivity. lia. }
  destruct ((len (((input ++ [ch "0"]) ++ [ch "0"]) ++ [ch "0"]) =? 0)%nat
            || negb (len (((input ++ [ch "0"]) ++ [ch "0"]) ++ [ch "0"]) mod 3 =? 0)%nat)
    eqn:C3.
  2:{ eexists. apply orb_false_iff in C3. destruct C3 as [A B].
      apply Nat.eqb_neq in A. apply negb_false_iff, Nat.eqb_eq in B.
      repeat split; try eassumption; try reflexivity. lia. }
  exfalso.
  rewrite L3, L2, L1 in C3. rewrite L2, L1 in C2. rewrite L1 in C1.
  apply orb_true_iff in C0, C1, C2, C3.
  rewrite !negb_true_iff, !Nat.eqb_neq, !Nat.eqb_eq in *.
  clear - C0 C1 C2 C3. set (n := len input) in *.
  pose proof (Nat.div_mod_eq n 3). pose proof (Nat.mod_upper_bound n 3).
  pose proof (Nat.div_mod_eq (S n) 3). pose proof (Nat.mod_upper_bound (S n) 3).
  pose proof (Nat.div_mod_eq (S (S n)) 3).
  pose proof (Nat.mod_upper_bound (S (S n)) 3).
  pose proof (Nat.div_mod_eq (S (S (S n))) 3).
  pose proof (Nat.mod_upper_bound (S (S (S n))) 3).
  lia.
Qed.

(** The loop of step 14 removes the same number [k] of characters from
    the three components; every removed character is ["0"]; and it stops
    exactly when the length is down to two or one of the three components
    does not start with ["0"]. *)
Lemma trim_leading_zeros_joint (n : nat) (red green blue : str) :
  len red = n -> len green = n -> len blue = n ->
  exists k,
    trim_leading_zeros n red green blue
    = Return ((n - k)%nat, (skipn k red, skipn k green, skipn k blue))
    /\ (k <= n - 2)%nat
    /\ firstn k red = repeat (ch "0") k
    /\ firstn k green = repeat (ch "0") k
    /\ firstn k blue = repeat (ch "0") k
    /\ ((n - k <= 2)%nat
        \/ ~ (hd_error (skipn k red) = Some (ch "0")
              /\ hd_error (skipn k green) = Some (ch "0")
              /\ hd_error (skipn k blue) = Some (ch "0"))).
Proof.
  revert n green blue.
  induction red as [|r0 red' IH]; intros n green blue Hr Hg Hb.
  - simpl in Hr. subst n. exists 0%nat. simpl. repeat split; try lia.
  - destruct (2 <? n)%nat eqn:Hn.
    2:{ exists 0%nat. cbn [trim_leading_zeros]. rewrite Hn.
        apply Nat.ltb_ge in Hn. rewrite Nat.sub_0_r. simpl.
        repeat split; try lia. }
    apply Nat.ltb_lt in Hn.
    destruct green as [|g0 green']; [simpl in Hg; lia|].
    destruct blue as [|b0 blue']; [simpl in Hb; lia|].
    cbn [trim_leading_zeros]. apply Nat.ltb_lt in Hn. rewrite Hn. apply Nat.ltb_lt in Hn.
    destruct (r0 =? ch "0")%N eqn:Er; cbn [negb].
    2:{ exists 0%nat. rewrite Nat.sub_0_r. simpl. repeat split; try lia.
        right. intros (A & _). injection A as A. apply N.eqb_neq in Er. contradiction. }
    destruct (g0 =? ch "0")%N eqn:Eg; cbn [negb].
    2:{ exists 0%nat. rewrite Nat.sub_0_r. simpl. repeat split; try lia.
        right. intros (_ & A & _). injection A as A. apply N.eqb_neq in Eg. contradiction. }
    destruct (b0 =? ch "0")%N eqn:Eb; cbn [negb].
    2:{ exists 0%nat. rewrite Nat.sub_0_r. simpl. repeat split; try lia.
        right. intros (_ & _ & A). injection A as A. apply N.eqb_neq in Eb. contradiction. }
    apply N.eqb_eq in Er, Eg, Eb. subst r0 g0 b0.
    simpl in Hr, Hg, Hb.
    destruct (IH (n - 1)%nat green' blue') as (k & Hk & Hle & Fr & Fg & Fb & Hstop);
      try lia.
    exists (S k). rewrite Hk.
    replace (n - 1 - k)%nat with (n - S k)%nat by lia.
    cbn [skipn firstn repeat]. rewrite Fr, Fg, Fb.
    repeat split; try lia.
    destruct Hstop as [Hs | Hs]; [left; lia | right; exact Hs].
Qed.

(** ** HTML5 legacy colour: the whole algorithm *)

(** Steps 16 to 20 on components of one or two hexadecimal digits. *)
Lemma legacy_components_parse (red green blue : str) :
  (1 <= len red <= 2)%nat -> (1 <= len green <= 2)%nat -> (1 <= len blue <= 2)%nat ->
  forallb is_hexdigit red = true -> forallb is_hexdigit green = true ->
  forallb is_hexdigit blue = true ->
  exists c,
    (r <- int16 red ;; g <- int16 green ;; b <- int16 blue ;;
     Return (mkHTML5SimpleColor r g b)) = Return c
    /\ byte_triplet c.
Proof.
  intros Br Bg Bb Zr Zg Zb.
  destruct (int16_byte red Br Zr) as (r & -> & Rr).
  destruct (int16_byte green Bg Zg) as (g & -> & Rg).
  destruct (int16_byte blue Bb Zb) as (b & -> & Rb).
  cbn [bind]. eexists. split; [reflexivity|].
  unfold byte_triplet, is_byte. cbn [sred sgreen sblue]. lia.
Qed.

(** Steps 7 to 20 always produce a colour. *)
Lemma legacy_general_returns (input : str) :
  exists c, legacy_general input = Return c /\ byte_triplet c.
Proof.
  unfold legacy_general.
  set (s3 := if startswith_hash _ then _ else _).
  destruct (pad_to_multiple_of_three_ok _ (replace_non_hexdigits s3))
    as (padded & -> & Hhex & Hpos & Hmod).
  set (L := (len padded / 3)%nat).
  assert (HL : len padded = (3 * L)%nat).
  { pose proof (Nat.div_mod_eq (len padded) 3). unfold L. lia. }
  assert (HL1 : (1 <= L)%nat) by lia.
  assert (Hr : len (slice_to L padded) = L).
  { unfold slice_to, len in *. rewrite length_firstn. lia. }
  assert (Hg : len (slice L (L * 2) padded) = L).
  { unfold slice, len in *. rewrite length_firstn, length_skipn. lia. }
  assert (Hb : len (slice_from (L * 2) padded) = L).
  { unfold slice_from, len in *. rewrite length_skipn. lia. }
  assert (Xr : forallb is_hexdigit (slice_to L padded) = true).
  { apply forallb_firstn. exact Hhex. }
  assert (Xg : forallb is_hexdigit (slice L (L * 2) padded) = true).
  { apply forallb_firstn, forallb_skipn. exact Hhex. }
  assert (Xb : forallb is_hexdigit (slice_from (L * 2) padded) = true).
  { apply forallb_skipn. exact Hhex. }
  revert Hr Hg Hb Xr Xg Xb.
  generalize (slice_to L padded) (slice L (L * 2) padded) (slice_from (L * 2) padded).
  intros red0 green0 blue0 Hr Hg Hb Xr Xg Xb.
  assert (Hcap : exists n red green blue,
             (if (8 <? L)%nat
              then (8%nat, (slice_from (L - 8) red0, slice_from (L - 8) green0,
                            slice_from (L - 8) blue0))
              else (L, (red0, green0, blue0))) = (n, (red, green, blue))
             /\ (1 <= n)%nat
             /\ len red = n /\ len green = n /\ len blue = n
             /\ forallb is_hexdigit red = true
             /\ forallb is_hexdigit green = true
             /\ forallb is_hexdigit blue = true).
  { destruct (8 <? L)%nat eqn:E8.
    - apply Nat.ltb_lt in E8. do 4 eexists. split; [reflexivity|].
      unfold slice_from, len in *. rewrite !length_skipn.
      repeat split; try lia; apply forallb_skipn; assumption.
    - do 4 eexists. split; [reflexivity|]. repeat split; assumption. }
  destruct Hcap as (n & red & green & blue & -> & Hn & Lr & Lg & Lb & Yr & Yg & Yb).
  destruct (trim_leading_zeros_joint n red green blue Lr Lg Lb)
    as (k & -> & Hk & _).
  cbn [bind].
  destruct (2 <? n - k)%nat eqn:E2.
  - apply Nat.ltb_lt in E2. apply legacy_components_parse;
      unfold slice_to, len in *; rewrite ?length_firstn, ?length_skipn; try lia;
      apply forallb_firstn, forallb_skipn; assumption.
  - apply Nat.ltb_ge in E2. apply legacy_components_parse;
      unfold len in *; rewrite ?length_skipn; try lia;
      apply forallb_skipn; assumption.
Qed.

(** Every value of the CSS3 table is a simple colour. *)
Lemma CSS3_values_simple :
  forallb simple_color_ok (map snd CSS3_NAMES_TO_HEX) = true.
Proof. vm_compute. reflexivity. Qed.

Lemma CSS3_keyword_color (k v : str) :
  dict_get CSS3_NAMES_TO_HEX k = Some v ->
  exists c, html5_parse_simple_color v = Return c /\ byte_triplet c.
Proof.
  intros H. apply dict_get_In in H.
  pose proof CSS3_values_simple as Hall. rewrite forallb_forall in Hall.
  specialize (Hall v H). unfold simple_color_ok in Hall.
  destruct (html5_parse_simple_color v) as [c| |]; try discriminate.
  exists c. split; [reflexivity|].
  rewrite !andb_true_iff, !Z.leb_le in Hall. unfold byte_triplet, is_byte. lia.
Qed.

Lemma legacy_errors_distinct : legacy_empty_error <> legacy_transparent_error.
Proof. intros H. vm_compute in H. discriminate H. Qed.

(** No key of the CSS3 table starts with ["#"]. *)
Lemma CSS3_names_no_hash :
  forallb (fun kv => negb (startswith_hash (fst kv))) CSS3_NAMES_TO_HEX = true.
Proof. vm_compute. reflexivity. Qed.

Lemma dict_get_hash_key {V : Type} (d : dict V) (k : str) :
  forallb (fun kv => negb (startswith_hash (fst kv))) d = true ->
  startswith_hash k = true -> dict_get d k = None.
Proof.
  intros Hd Hk. induction d as [|[k' v'] d IH]; [reflexivity|].
  cbn [forallb fst] in Hd. apply andb_true_iff in Hd. destruct Hd as [H1 H2].
  cbn [dict_get]. destruct (str_eqb k' k) eqn:E.
  - apply str_eqb_eq in E. subst k'. rewrite Hk in H1. discriminate.
  - apply IH. exact H2.
Qed.

Section LegacyProperties.
Context {U : Unicode}.

Lemma lower_ascii (s : str) :
  forallb is_ascii s = true -> lower s = map ascii_lower s.
Proof. intros H. unfold lower. rewrite H. reflexivity. Qed.

Lemma strip_nil : strip [] = [].
Proof. reflexivity. Qed.

(** The three-digit branch (step 6). *)
Lemma legacy_three_digits (input : str) (c1 c2 c3 : codepoint) :
  strip input = [ch "#"; c1; c2; c3] ->
  is_hexdigit c1 = true -> is_hexdigit c2 = true -> is_hexdigit c3 = true ->
  html5_parse_legacy_color input
  = Return (mkHTML5SimpleColor (hex_value_of c1 * 17) (hex_value_of c2 * 17)
                               (hex_value_of c3 * 17)).
Proof.
  intros Hs H1 H2 H3. unfold html5_parse_legacy_color.
  destruct (str_eqb input []) eqn:E.
  { apply str_eqb_eq in E. subst input. rewrite strip_nil in Hs. discriminate. }
  rewrite Hs.
  assert (Hlow : lower [ch "#"; c1; c2; c3]
                 = [ch "#"; ascii_lower c1; ascii_lower c2; ascii_lower c3]).
  { rewrite lower_ascii; [reflexivity|].
    cbn [forallb].
    rewrite (hexdigit_is_ascii _ H1), (hexdigit_is_ascii _ H2), (hexdigit_is_ascii _ H3).
    reflexivity. }
  rewrite Hlow.
  change (str_eqb [ch "#"; ascii_lower c1; ascii_lower c2; ascii_lower c3]
                  (lit "transparent")) with false.
  cbv iota.
  rewrite (dict_get_hash_key CSS3_NAMES_TO_HEX _ CSS3_names_no_hash) by reflexivity.
  change (len [ch "#"; c1; c2; c3] =? 4)%nat with true.
  change (startswith_hash [ch "#"; c1; c2; c3]) with true.
  change (slice_from 1 [ch "#"; c1; c2; c3]) with [c1; c2; c3].
  cbn [forallb andb]. rewrite H1, H2, H3. cbn [andb].
  change (index [ch "#"; c1; c2; c3] 1) with (Return c1).
  change (index [ch "#"; c1; c2; c3] 2) with (Return c2).
  change (index [ch "#"; c1; c2; c3] 3) with (Return c3).
  cbn [bind]. rewrite !int16_one by assumption. reflexivity.
Qed.

(** The three ways through [html5_parse_legacy_color]. *)
Lemma html5_parse_legacy_color_cases (input : str) :
  (input = [] /\ html5_parse_legacy_color input = Raise legacy_empty_error)
  \/ (input <> [] /\ lower (strip input) = lit "transparent"
      /\ html5_parse_legacy_color input = Raise legacy_transparent_error)
  \/ (input <> [] /\ lower (strip input) <> lit "transparent"
      /\ exists c, html5_parse_legacy_color input = Return c /\ byte_triplet c).
Proof.
  unfold html5_parse_legacy_color.
  destruct (str_eqb input []) eqn:E.
  { left. apply str_eqb_eq in E. split; [exact E | reflexivity]. }
  apply str_eqb_neq in E. right.
  destruct (str_eqb (lower (strip input)) (lit "transparent")) eqn:T.
  { left. apply str_eqb_eq in T. repeat split; assumption. }
  apply str_eqb_neq in T. right. split; [exact E|]. split; [exact T|].
  destruct (dict_get CSS3_NAMES_TO_HEX (lower (strip input))) as [keyword_hex|] eqn:K.
  { exact (CSS3_keyword_color _ _ K). }
  destruct ((len (strip input) =? 4)%nat && startswith_hash (strip input)
            && forallb is_hexdigit (slice_from 1 (strip input))) eqn:C.
  2:{ apply legacy_general_returns. }
  rewrite !andb_true_iff in C. destruct C as [[C1 C2] C3].
  apply Nat.eqb_eq in C1.
  destruct (strip input) as [|c0 [|c1 [|c2 [|c3 [|c4 t]]]]]; simpl in C1; try discriminate.
  cbn [slice_from skipn forallb] in C3. rewrite !andb_true_iff in C3.
  destruct C3 as (H1 & H2 & H3 & _).
  change (index [c0; c1; c2; c3] 1) with (Return c1).
  change (index [c0; c1; c2; c3] 2) with (Return c2).
  change (index [c0; c1; c2; c3] 3) with (Return c3).
  cbn [bind]. rewrite !int16_one by assumption. cbn [bind].
  eexists. split; [reflexivity|].
  pose proof (hex_value_of_range _ H1). pose proof (hex_value_of_range _ H2).
  pose proof (hex_value_of_range _ H3).
  unfold byte_triplet, is_byte. cbn [sred sgreen sblue]. lia.
Qed.

End LegacyProperties.

Section LegacyClaims.
Context {U : Unicode}.

(** C2.  [html5_parse_legacy_color] raises an error exactly when the input
    is the empty string (the empty-string error) or when the stripped input
    lowercases to ["transparent"] (the transparent error); on every other
    string, garbage and white space included, it returns a colour. *)
Theorem html5_parse_legacy_color_total (input : str) :
  (input = [] -> html5_parse_legacy_color input = Raise legacy_empty_error)
  /\ (input <> [] -> lower (strip input) = lit "transparent" ->
      html5_parse_legacy_color input = Raise legacy_transparent_error)
  /\ (input <> [] -> lower (strip input) <> lit "transparent" ->
      exists c, html5_parse_legacy_color input = Return c)
  /\ ((exists e, html5_parse_legacy_color input = Raise e)
      <-> input = [] \/ lower (strip input) = lit "transparent")
  /\ html5_parse_legacy_color (lit "gibberish")
     = Return (mkHTML5SimpleColor 0 190 0)
  /\ html5_parse_legacy_color (lit "   ") = Return (mkHTML5SimpleColor 0 0 0).
Proof.
  assert (Ex : html5_parse_legacy_color (lit "gibberish")
               = Return (mkHTML5SimpleColor 0 190 0)
               /\ html5_parse_legacy_color (lit "   ")
                  = Return (mkHTML5SimpleColor 0 0 0)).
  { split; vm_compute; reflexivity. }
  destruct (html5_parse_legacy_color_cases input)
    as [[E R] | [(E & T & R) | (E & T & [c [R _]])]].
  - split; [intros _; exact R|].
    split; [intros H; contradiction|].
    split; [intros H; contradiction|].
    split; [|exact Ex].
    split; [intros _; left; exact E | intros _; exists legacy_empty_error; exact R].
  - split; [intros H; contradiction|].
    split; [intros _ _; exact R|].
    split; [intros _ H; contradiction|].
    split; [|exact Ex].
    split; [intros _; right; exact T
           | intros _; exists legacy_transparent_error; exact R].
  - split; [intros H; contradiction|].
    split; [intros _ H; contradiction|].
    split; [intros _ _; exists c; exact R|].
    split; [|exact Ex].
    split; [intros [e He]; rewrite R in He; discriminate He
           | intros [H | H]; contradiction].
Qed.

(** C3.  The zero-trimming loop of the legacy algorithm works on the three
    components together: it removes the same number [k] of leading
    characters from each, all of them ["0"], never takes the length below
    two, and stops as soon as the length is two or one of the three
    components does not start with ["0"].  When only two of the three start
    with ["0"] nothing is trimmed, which is visible in the result for
    ["001002100"]. *)
Theorem trim_leading_zeros_joint_only :
  (forall (n : nat) (red green blue : str),
      len red = n -> len green = n -> len blue = n ->
      exists k,
        trim_leading_zeros n red green blue
        = Return ((n - k)%nat, (skipn k red, skipn k green, skipn k blue))
        /\ (k <= n - 2)%nat
        /\ firstn k red = repeat (ch "0") k
        /\ firstn k green = repeat (ch "0") k
        /\ firstn k blue = repeat (ch "0") k
        /\ ((n - k <= 2)%nat
            \/ ~ (hd_error (skipn k red) = Some (ch "0")
                  /\ hd_error (skipn k green) = Some (ch "0")
                  /\ hd_error (skipn k blue) = Some (ch "0"))))
  /\ trim_leading_zeros 3 (lit "001") (lit "002") (lit "100")
     = Return (3%nat, (lit "001", lit "002", lit "100"))
  /\ trim_leading_zeros 4 (lit "0001") (lit "0020") (lit "0030")
     = Return (2%nat, (lit "01", lit "20", lit "30"))
  /\ html5_parse_legacy_color (lit "001002100")
     = Return (mkHTML5SimpleColor 0 0 16)
  /\ html5_parse_legacy_color (lit "000000000100000000020000000003")
     = Return (mkHTML5SimpleColor 1 2 3).
Proof.
  split; [exact trim_leading_zeros_joint|].
  repeat split; vm_compute; reflexivity.
Qed.

(** C7.  When the stripped input is ["#"] followed by three ASCII hex
    digits, the result is the triplet of the three digit values, each
    between 0 and 15, multiplied by 17; ["#abc"] gives [(170, 187, 204)].
    Such a string is never ["transparent"] nor a CSS3 keyword, so the two
    provisos of the branch hold by themselves. *)
Theorem html5_parse_legacy_color_three_hex_digits :
  (forall (input : str) (c1 c2 c3 : codepoint),
      strip input = [ch "#"; c1; c2; c3] ->
      is_hexdigit c1 = true -> is_hexdigit c2 = true -> is_hexdigit c3 = true ->
      html5_parse_legacy_color input
      = Return (mkHTML5SimpleColor (hex_value_of c1 * 17) (hex_value_of c2 * 17)
                                   (hex_value_of c3 * 17))
      /\ lower (strip input) <> lit "transparent"
      /\ dict_get CSS3_NAMES_TO_HEX (lower (strip input)) = None
      /\ (0 <= hex_value_of c1 <= 15)%Z
      /\ (0 <= hex_value_of c2 <= 15)%Z
      /\ (0 <= hex_value_of c3 <= 15)%Z)
  /\ html5_parse_legacy_color (lit "#abc")
     = Return (mkHTML5SimpleColor 170 187 204).
Proof.
  split; [|vm_compute; reflexivity].
  intros input c1 c2 c3 Hs H1 H2 H3.
  split; [apply legacy_three_digits; assumption|].
  assert (Hlow : lower (strip input)
                 = [ch "#"; ascii_lower c1; ascii_lower c2; ascii_lower c3]).
  { rewrite Hs, lower_ascii; [reflexivity|]. cbn [forallb].
    rewrite (hexdigit_is_ascii _ H1), (hexdigit_is_ascii _ H2), (hexdigit_is_ascii _ H3).
    reflexivity. }
  rewrite Hlow.
  split; [intros H; vm_compute in H; discriminate H|].
  split; [apply (dict_get_hash_key CSS3_NAMES_TO_HEX _ CSS3_names_no_hash); reflexivity|].
  repeat split; apply hex_value_of_range; assumption.
Qed.

(** C10.  On every input that is not empty and whose stripped form does
    not lowercase to ["transparent"], [html5_parse_legacy_color] returns a
    colour, and each of its three components is an integer between 0 and
    255; so whatever the function returns has its components between 0 and
    255. *)
Theorem html5_parse_legacy_color_bytes (input : str) :
  (input <> [] -> lower (strip input) <> lit "transparent" ->
   exists c, html5_parse_legacy_color input = Return c
             /\ (0 <= sred c <= 255)%Z /\ (0 <= sgreen c <= 255)%Z
             /\ (0 <= sblue c <= 255)%Z)
  /\ (forall c : HTML5SimpleColor,
      html5_parse_legacy_color input = Return c ->
      (0 <= sred c <= 255)%Z /\ (0 <= sgreen c <= 255)%Z /\ (0 <= sblue c <= 255)%Z).
Proof.
  destruct (html5_parse_legacy_color_cases input)
    as [[E R] | [(E & T & R) | (E & T & [c' [R B]])]].
  - split; [intros H; contradiction | intros c H; rewrite R in H; discriminate H].
  - split; [intros _ H; contradiction | intros c H; rewrite R in H; discriminate H].
  - split.
    + intros _ _. exists c'. split; [exact R | exact B].
    + intros c H. rewrite R in H. injection H as <-. exact B.
Qed.

End LegacyClaims.

(** ["gibberish"] is neither empty nor ["transparent"], and is parsed. *)
Lemma html5_parse_legacy_color_total_witness :
  lit "gibberish" <> []
  /\ @lower ascii_only (@strip ascii_only (lit "gibberish")) <> lit "transparent"
  /\ exists c, @html5_parse_legacy_color ascii_only (lit "gibberish") = Return c.
Proof.
  assert (H1 : lit "gibberish" <> []) by (vm_compute; discriminate).
  assert (H2 : @lower ascii_only (@strip ascii_only (lit "gibberish"))
               <> lit "transparent") by (vm_compute; discriminate).
  split; [exact H1|]. split; [exact H2|].
  exact (proj1 (proj2 (proj2
           (@html5_parse_legacy_color_total ascii_only (lit "gibberish")))) H1 H2).
Defined.

(** Three components of length four with two common leading zeros. *)
Lemma trim_leading_zeros_joint_only_witness :
  len (lit "0001") = 4%nat /\ len (lit "0020") = 4%nat /\ len (lit "0030") = 4%nat
  /\ exists k,
       trim_leading_zeros 4 (lit "0001") (lit "0020") (lit "0030")
       = Return ((4 - k)%nat, (skipn k (lit "0001"), skipn k (lit "0020"),
                               skipn k (lit "0030")))
       /\ (k <= 4 - 2)%nat.
Proof.
  repeat (split; [reflexivity|]).
  destruct (proj1 (@trim_leading_zeros_joint_only ascii_only)
              4%nat (lit "0001") (lit "0020") (lit "0030")
              eq_refl eq_refl eq_refl) as (k & H & Hk & _).
  exists k. split; assumption.
Defined.

(** ["  #abc "] strips to ["#abc"]. *)
Lemma html5_parse_legacy_color_three_hex_digits_witness :
  @strip ascii_only (lit "  #abc ") = [ch "#"; ch "a"; ch "b"; ch "c"]
  /\ is_hexdigit (ch "a") = true /\ is_hexdigit (ch "b") = true
  /\ is_hexdigit (ch "c") = true
  /\ @html5_parse_legacy_color ascii_only (lit "  #abc ")
     = Return (mkHTML5SimpleColor (10 * 17) (11 * 17) (12 * 17)).
Proof.
  repeat (split; [reflexivity|]).
  apply (proj1 (@html5_parse_legacy_color_three_hex_digits ascii_only)
           (lit "  #abc ") (ch "a") (ch "b") (ch "c")); reflexivity.
Defined.

(** ["gibberish"] is neither empty nor ["transparent"]; it is parsed, to
    components between 0 and 255. *)
Lemma html5_parse_legacy_color_bytes_witness :
  lit "gibberish" <> []
  /\ @lower ascii_only (@strip ascii_only (lit "gibberish")) <> lit "transparent"
  /\ exists c, @html5_parse_legacy_color ascii_only (lit "gibberish") = Return c
               /\ (0 <= sred c <= 255)%Z /\ (0 <= sgreen c <= 255)%Z
               /\ (0 <= sblue c <= 255)%Z.
Proof.
  assert (H1 : lit "gibberish" <> []) by (vm_compute; discriminate).
  assert (H2 : @lower ascii_only (@strip ascii_only (lit "gibberish"))
               <> lit "transparent") by (vm_compute; discriminate).
  split; [exact H1|]. split; [exact H2|].
  exact (proj1 (@html5_parse_legacy_color_bytes ascii_only (lit "gibberish")) H1 H2).
Defined.

(** ** Specification tags *)

Lemma supported_iff (spec : str) :
  supported spec = true <-> In spec [HTML4; CSS2; CSS21; CSS3].
Proof.
  unfold supported, SUPPORTED_SPECIFICATIONS. rewrite existsb_exists. split.
  - intros [x [Hin Heq]]. apply str_eqb_eq in Heq. subst x. exact Hin.
  - intros Hin. exists spec. split; [exact Hin | apply str_eqb_refl].
Qed.

(** Every ASCII name of the vendor table contains a capital letter, so the
    lowercased name that [name_to_hex] looks up is not a key of the table. *)
Lemma COLOR_HEXA_lowercased_names_missing :
  forallb (fun kv =>
             negb (forallb is_ascii (fst kv))
             || match dict_get COLOR_HEXA_NAMES_TO_HEX (map ascii_lower (fst kv)) with
                | None => true
                | Some _ => false
                end) COLOR_HEXA_NAMES_TO_HEX = true.
Proof. vm_compute. reflexivity. Qed.

Section SpecificationClaims.
Context {U : Unicode}.

(** C1.  What the code does with the [COLOR_HEXA] tag: [name_to_hex] and
    [hex_to_name] reject it with the unsupported-specification error for
    every name and every value, those of the vendor table included, because
    the accepted tags are exactly [HTML4], [CSS2], [CSS21] and [CSS3]; the
    message lists those four.  Both functions nevertheless carry a
    [COLOR_HEXA] entry in the dictionary they index with the tag. *)
Theorem color_hexa_rejected :
  (forall name : str,
      name_to_hex name COLOR_HEXA = Raise (ValueError (SPECIFICATION_ERROR COLOR_HEXA)))
  /\ (forall hex_value : str,
      hex_to_name hex_value COLOR_HEXA
      = Raise (ValueError (SPECIFICATION_ERROR COLOR_HEXA)))
  /\ In (lit "Almond", lit "#efdecd") COLOR_HEXA_NAMES_TO_HEX
  /\ name_to_hex (lit "Almond") COLOR_HEXA
     = Raise (ValueError (lit "color_hexa is not a supported specification for color name lookups; supported specifications are: html4,css2,css21,css3."))
  /\ (forall spec : str,
      supported spec = true <-> In spec [HTML4; CSS2; CSS21; CSS3])
  /\ dict_get NAMES_TO_HEX_BY_SPEC COLOR_HEXA = Some COLOR_HEXA_NAMES_TO_HEX
  /\ dict_get HEX_TO_NAMES_BY_SPEC COLOR_HEXA = Some COLOR_HEXA_HEX_TO_NAMES.
Proof.
  split; [intros name; reflexivity|].
  split; [intros hex_value; reflexivity|].
  split.
  { apply (nth_error_In _ 6). vm_compute. reflexivity. }
  split; [vm_compute; reflexivity|].
  split; [exact supported_iff|].
  split; reflexivity.
Qed.

End SpecificationClaims.

(** ** The CSS3 reverse table *)

Lemma fold_dict_set_absent (a : list (str * str)) (d : dict str) (k : str) :
  ~ In k (map fst a) ->
  dict_get (fold_left (fun d kv => dict_set d (fst kv) (snd kv)) a d) k = dict_get d k.
Proof.
  revert d; induction a as [|[k0 v0] a IH]; intros d Hn; [reflexivity|].
  cbn [fold_left fst snd]. rewrite IH.
  - apply dict_get_set_other. intros E. apply Hn. left. exact E.
  - intros Hin. apply Hn. right. exact Hin.
Qed.

(** After a run of assignments with distinct keys, each key holds the
    value assigned to it, whatever the dictionary held before. *)
Lemma fold_dict_set_assigned (a : list (str * str)) (d : dict str) (k v : str) :
  NoDup (map fst a) -> In (k, v) a ->
  dict_get (fold_left (fun d kv => dict_set d (fst kv) (snd kv)) a d) k = Some v.
Proof.
  revert d; induction a as [|[k0 v0] a IH]; intros d Hnd Hin; [contradiction|].
  cbn [map fst] in Hnd. inversion Hnd as [|? ? Hk0 Hnd']; subst.
  cbn [fold_left fst snd]. destruct Hin as [E | Hin].
  - injection E as -> ->. rewrite fold_dict_set_absent by exact Hk0.
    apply dict_get_set_same.
  - apply IH; assumption.
Qed.

Lemma CSS3_GRAY_ASSIGNMENTS_keys :
  map fst CSS3_GRAY_ASSIGNMENTS
  = [ lit "#a9a9a9"; lit "#2f4f4f"; lit "#696969"; lit "#808080";
      lit "#d3d3d3"; lit "#778899"; lit "#708090" ].
Proof. reflexivity. Qed.

Lemma CSS3_GRAY_ASSIGNMENTS_NoDup : NoDup (map fst CSS3_GRAY_ASSIGNMENTS).
Proof.
  rewrite CSS3_GRAY_ASSIGNMENTS_keys.
  repeat (constructor; [intros H; vm_compute in H; intuition discriminate|]).
  constructor.
Qed.

(** The hexadecimal values that the CSS3 table gives to more than one name. *)
Lemma CSS3_shared_values :
  filter (fun h => (1 <? List.length (names_of CSS3_NAMES_TO_HEX h))%nat)
         (map fst (_reversedict CSS3_NAMES_TO_HEX))
  = [ lit "#00ffff"; lit "#a9a9a9"; lit "#2f4f4f"; lit "#696969"; lit "#ff00ff";
      lit "#808080"; lit "#d3d3d3"; lit "#778899"; lit "#708090" ].
Proof. vm_compute. reflexivity. Qed.

Section ReverseTableClaims.
Context {U : Unicode}.

(** C9, as the code has it.  The seven gray values [#a9a9a9], [#2f4f4f],
    [#696969], [#808080], [#d3d3d3], [#778899] and [#708090] are assigned
    their ["gray"] spelling after the reverse table is built, so the name
    they resolve to does not depend on the order, nor on the content, of
    the table that was inverted; [hex_to_name("#a9a9a9", CSS3)] is
    ["darkgray"]. *)
Theorem CSS3_gray_values_pinned :
  (forall (names_to_hex : dict str) (hex_value name : str),
      In (hex_value, name) CSS3_GRAY_ASSIGNMENTS ->
      dict_get (CSS3_HEX_TO_NAMES_of names_to_hex) hex_value = Some name)
  /\ (forall hex_value name : str,
      In (hex_value, name) CSS3_GRAY_ASSIGNMENTS ->
      hex_to_name hex_value CSS3 = Return name
      /\ In name (names_of CSS3_NAMES_TO_HEX hex_value))
  /\ map fst CSS3_GRAY_ASSIGNMENTS
     = [ lit "#a9a9a9"; lit "#2f4f4f"; lit "#696969"; lit "#808080";
         lit "#d3d3d3"; lit "#778899"; lit "#708090" ]
  /\ hex_to_name (lit "#a9a9a9") CSS3 = Return (lit "darkgray")
  /\ names_of CSS3_NAMES_TO_HEX (lit "#a9a9a9") = [lit "darkgray"; lit "darkgrey"].
Proof.
  split.
  { intros names_to_hex hex_value name Hin. unfold CSS3_HEX_TO_NAMES_of.
    apply fold_dict_set_assigned; [exact CSS3_GRAY_ASSIGNMENTS_NoDup | exact Hin]. }
  split.
  { intros hex_value name Hin. unfold CSS3_GRAY_ASSIGNMENTS in Hin.
    cbn [In] in Hin.
    repeat (destruct Hin as [Hin | Hin];
            [injection Hin as <- <-; split; vm_compute; tauto|]).
    contradiction. }
  split; [reflexivity|].
  split; vm_compute; reflexivity.
Qed.

End ReverseTableClaims.

(** [#808080] in the reverse of the CSS3 table listed backwards. *)
Lemma CSS3_gray_values_pinned_witness :
  In (lit "#808080", lit "gray") CSS3_GRAY_ASSIGNMENTS
  /\ dict_get (CSS3_HEX_TO_NAMES_of (rev CSS3_NAMES_TO_HEX)) (lit "#808080")
     = Some (lit "gray").
Proof.
  assert (H : In (lit "#808080", lit "gray") CSS3_GRAY_ASSIGNMENTS).
  { apply (nth_error_In _ 3). reflexivity. }
  split; [exact H|].
  exact (proj1 (@CSS3_gray_values_pinned ascii_only) _ _ _ H).
Defined.

(** The value [#00ffff] has the two names [aqua] and [cyan] in the CSS3
    table and is not among the seven assignments: the reverse table resolves
    it to [cyan], the later of the two in the table, and to [aqua] when the
    same entries are listed in the opposite order. *)
Lemma CSS3_cyan_follows_table_order :
  names_of CSS3_NAMES_TO_HEX (lit "#00ffff") = [lit "aqua"; lit "cyan"]
  /\ ~ In (lit "#00ffff") (map fst CSS3_GRAY_ASSIGNMENTS)
  /\ Permutation (rev CSS3_NAMES_TO_HEX) CSS3_NAMES_TO_HEX
  /\ dict_get (CSS3_HEX_TO_NAMES_of CSS3_NAMES_TO_HEX) (lit "#00ffff")
     = Some (lit "cyan")
  /\ dict_get (CSS3_HEX_TO_NAMES_of (rev CSS3_NAMES_TO_HEX)) (lit "#00ffff")
     = Some (lit "aqua")
  /\ @hex_to_name ascii_only (lit "#00ffff") CSS3 = Return (lit "cyan").
Proof.
  split; [vm_compute; reflexivity|].
  split; [intros H; vm_compute in H; intuition discriminate|].
  split; [apply Permutation_sym, Permutation_rev|].
  repeat split; vm_compute; reflexivity.
Qed.

(** ** Hexadecimal values and integer triplets *)

Lemma ascii_lower_hexdigit (c : codepoint) :
  is_hexdigit c = true -> is_hexdigit (ascii_lower c) = true.
Proof. intros H. hexdigit_cases H; reflexivity. Qed.

(** Two lowercase digits are what ["{:02x}"] prints for the byte they denote. *)
Lemma format_02x_byte (c d : codepoint) :
  is_hexdigit c = true -> is_hexdigit d = true ->
  format_02x (hex_value_of (ascii_lower c) * 16 + hex_value_of (ascii_lower d))
  = [ascii_lower c; ascii_lower d].
Proof. intros Hc Hd. hexdigit_cases Hc; hexdigit_cases Hd; reflexivity. Qed.

(** [int_value >> 16], [int_value >> 8 & 0xFF] and [int_value & 0xFF]. *)
Lemma split_three_bytes (a b c : Z) :
  (0 <= a <= 255)%Z -> (0 <= b <= 255)%Z -> (0 <= c <= 255)%Z ->
  let int_value := ((a * 256 + b) * 256 + c)%Z in
  Z.shiftr int_value 16 = a
  /\ Z.land (Z.shiftr int_value 8) 255 = b
  /\ Z.land int_value 255 = c.
Proof.
  intros Ha Hb Hc int_value. subst int_value.
  change 255%Z with (Z.ones 8).
  rewrite !Z.land_ones, !Z.shiftr_div_pow2 by lia.
  change (2 ^ 16)%Z with 65536%Z. change (2 ^ 8)%Z with 256%Z.
  repeat split; Z.div_mod_to_equations; lia.
Qed.

Lemma normalize_small (v : Z) : (0 <= v <= 255)%Z -> _normalize_integer_rgb v = v.
Proof.
  intros H. unfold _normalize_integer_rgb.
  destruct (v <? 0)%Z eqn:A; [apply Z.ltb_lt in A; lia|].
  destruct (255 <? v)%Z eqn:B; [apply Z.ltb_lt in B; lia|]. reflexivity.
Qed.

Section HexClaims.
Context {U : Unicode}.

Lemma normalize_hex_six_digits (c1 c2 c3 c4 c5 c6 : codepoint) :
  forallb is_hexdigit [c1; c2; c3; c4; c5; c6] = true ->
  normalize_hex [ch "#"; c1; c2; c3; c4; c5; c6]
  = Return (ch "#" :: map ascii_lower [c1; c2; c3; c4; c5; c6]).
Proof.
  intros H. cbn [forallb] in H. rewrite !andb_true_iff in H.
  destruct H as (H1 & H2 & H3 & H4 & H5 & H6 & _).
  unfold normalize_hex, HEX_COLOR_RE_match.
  change (ch "#" =? ch "#")%N with true. cbv iota.
  unfold re_hex_run.
  cbn [firstn skipn len List.length Nat.eqb forallb re_at_end andb].
  rewrite !(hexdigit_is_re_class _ H1), !(hexdigit_is_re_class _ H2),
    !(hexdigit_is_re_class _ H3), !(hexdigit_is_re_class _ H4),
    !(hexdigit_is_re_class _ H5), !(hexdigit_is_re_class _ H6).
  cbn [andb].
  change (len [c1; c2; c3; c4; c5; c6] =? 3)%nat with false. cbv iota.
  rewrite lower_ascii; [reflexivity|].
  cbn [forallb].
  rewrite (hexdigit_is_ascii _ H1), (hexdigit_is_ascii _ H2), (hexdigit_is_ascii _ H3),
    (hexdigit_is_ascii _ H4), (hexdigit_is_ascii _ H5), (hexdigit_is_ascii _ H6).
  reflexivity.
Qed.

(** C4, as the code has it.  For every ["#"] followed by six hexadecimal
    digits [h], [rgb_to_hex(hex_to_rgb(h))] is [normalize_hex(h)], that is
    [h] in lower case; it is [h] itself exactly when [h] has no capital
    letter. *)
Theorem hex_rgb_hex_lowercases (h : str) :
  is_six_digit_hex h = true ->
  hex_rgb_hex h = Return (map ascii_lower h)
  /\ normalize_hex h = Return (map ascii_lower h)
  /\ lower h = map ascii_lower h
  /\ (hex_rgb_hex h = Return h <-> map ascii_lower h = h).
Proof.
  intros Hh. unfold is_six_digit_hex in Hh. rewrite !andb_true_iff in Hh.
  destruct Hh as [[Hlen Hhash] Hdig]. apply Nat.eqb_eq in Hlen.
  destruct (seven_characters h Hlen) as (c0 & c1 & c2 & c3 & c4 & c5 & c6 & ->).
  cbn [startswith_hash] in Hhash. apply N.eqb_eq in Hhash. subst c0.
  cbn [slice_from skipn] in Hdig.
  pose proof (normalize_hex_six_digits _ _ _ _ _ _ Hdig) as Hnorm.
  assert (Hround : hex_rgb_hex [ch "#"; c1; c2; c3; c4; c5; c6]
                   = Return (map ascii_lower [ch "#"; c1; c2; c3; c4; c5; c6])).
  { unfold hex_rgb_hex, hex_to_rgb. rewrite Hnorm. cbn [bind slice_from skipn map].
    cbn [forallb] in Hdig. rewrite !andb_true_iff in Hdig.
    destruct Hdig as (H1 & H2 & H3 & H4 & H5 & H6 & _).
    unfold int16. cbn [forallb].
    rewrite !ascii_lower_hexdigit by assumption. cbn [andb fold_left].
    cbn [bind].
    pose proof (hex_value_of_range _ (ascii_lower_hexdigit _ H1)) as R1.
    pose proof (hex_value_of_range _ (ascii_lower_hexdigit _ H2)) as R2.
    pose proof (hex_value_of_range _ (ascii_lower_hexdigit _ H3)) as R3.
    pose proof (hex_value_of_range _ (ascii_lower_hexdigit _ H4)) as R4.
    pose proof (hex_value_of_range _ (ascii_lower_hexdigit _ H5)) as R5.
    pose proof (hex_value_of_range _ (ascii_lower_hexdigit _ H6)) as R6.
    set (d1 := hex_value_of (ascii_lower c1)) in *.
    set (d2 := hex_value_of (ascii_lower c2)) in *.
    set (d3 := hex_value_of (ascii_lower c3)) in *.
    set (d4 := hex_value_of (ascii_lower c4)) in *.
    set (d5 := hex_value_of (ascii_lower c5)) in *.
    set (d6 := hex_value_of (ascii_lower c6)) in *.
    replace ((((((0 * 16 + d1) * 16 + d2) * 16 + d3) * 16 + d4) * 16 + d5) * 16 + d6)%Z
      with (((d1 * 16 + d2) * 256 + (d3 * 16 + d4)) * 256 + (d5 * 16 + d6))%Z by ring.
    destruct (@split_three_bytes (d1 * 16 + d2)%Z (d3 * 16 + d4)%Z (d5 * 16 + d6)%Z)
      as (E1 & E2 & E3); try lia.
    cbv zeta in E1, E2, E3. rewrite E1, E2, E3.
    unfold rgb_to_hex, IntegerRGB_as_tuple, normalize_integer_triplet.
    cbn [red green blue].
    rewrite !normalize_small by lia.
    subst d1 d2 d3 d4 d5 d6.
    rewrite !format_02x_byte by assumption. reflexivity. }
  split; [exact Hround|].
  split; [exact Hnorm|].
  split.
  { apply lower_ascii. cbn [forallb] in *. rewrite !andb_true_iff in *.
    destruct Hdig as (H1 & H2 & H3 & H4 & H5 & H6 & _).
    repeat split; try reflexivity; apply hexdigit_is_ascii; assumption. }
  rewrite Hround. split; [intros E; congruence | intros ->; reflexivity].
Qed.

End HexClaims.

(** A mixed-case value. *)
Lemma hex_rgb_hex_lowercases_witness :
  is_six_digit_hex (lit "#FFa500") = true
  /\ @hex_rgb_hex ascii_only (lit "#FFa500") = Return (lit "#ffa500").
Proof.
  split; [reflexivity|].
  exact (proj1 (@hex_rgb_hex_lowercases ascii_only (lit "#FFa500") eq_refl)).
Defined.

(** ["#FFFFFF"] is a ["#"] followed by six hexadecimal digits, and
    [rgb_to_hex(hex_to_rgb("#FFFFFF"))] is ["#ffffff"], another string. *)
Lemma hex_rgb_hex_uppercase_differs :
  is_six_digit_hex (lit "#FFFFFF") = true
  /\ @hex_rgb_hex ascii_only (lit "#FFFFFF") = Return (lit "#ffffff")
  /\ @hex_rgb_hex ascii_only (lit "#FFFFFF") <> Return (lit "#FFFFFF").
Proof.
  split; [reflexivity|].
  split; [vm_compute; reflexivity|].
  intros H. vm_compute in H. discriminate H.
Qed.

(** ** Percentages *)

Lemma _normalize_integer_rgb_clamp (v : Z) : _normalize_integer_rgb v = clamp v.
Proof.
  unfold _normalize_integer_rgb, clamp.
  destruct (v <? 0)%Z eqn:A; [apply Z.ltb_lt in A; lia|]. apply Z.ltb_ge in A.
  destruct (255 <? v)%Z eqn:B; [apply Z.ltb_lt in B; lia|]. apply Z.ltb_ge in B. lia.
Qed.

Lemma clamp_range (v : Z) : (0 <= clamp v <= 255)%Z.
Proof. unfold clamp. lia. Qed.

(** The 256 component values, one by one: the binary64 computation
    [d / 255.0 * 100] printed with ["{:.02f}"] agrees with the rule. *)
Lemma rgb_component_percent_table :
  forallb (fun n => str_eqb (rgb_component_percent (Z.of_nat n))
                            (precision_rule (Z.of_nat n)))
          (seq 0 256) = true.
Proof. vm_compute. reflexivity. Qed.

Lemma rgb_component_percent_rule (v : Z) :
  (0 <= v <= 255)%Z -> rgb_component_percent v = precision_rule v.
Proof.
  intros Hv. pose proof rgb_component_percent_table as T.
  rewrite forallb_forall in T. specialize (T (Z.to_nat v)).
  rewrite Z2Nat.id in T by lia. apply str_eqb_eq, T, in_seq. lia.
Qed.

(** [hundredths v] is the integer nearest to [v / 255 * 100 * 100]; the
    distance is never one half, so no tie-breaking rule is involved. *)
Lemma hundredths_nearest (v : Z) :
  (0 <= v <= 255)%Z -> (2 * Z.abs (10000 * v - 255 * hundredths v) < 255)%Z.
Proof.
  intros Hv. unfold hundredths. Z.div_mod_to_equations. lia.
Qed.

(** C8.  [rgb_to_rgb_percent] clamps each component to 0..255 and applies
    the precision rule: 0, 16, 32, 64, 128 and 255 give ["0%"], ["6.25%"],
    ["12.5%"], ["25%"], ["50%"] and ["100%"]; every other value [v] gives
    [v / 255 * 100] rounded to the nearest hundredth and written with
    exactly two decimal places, followed by ["%"]. *)
Theorem rgb_to_rgb_percent_precision_rule (r g b : Z) :
  rgb_to_rgb_percent (r, g, b)
  = mkPercentRGB (precision_rule (clamp r)) (precision_rule (clamp g))
                 (precision_rule (clamp b))
  /\ map precision_rule special_values
     = [lit "0%"; lit "6.25%"; lit "12.5%"; lit "25%"; lit "50%"; lit "100%"]
  /\ (forall v : Z, (0 <= v <= 255)%Z -> ~ In v special_values ->
      precision_rule v = percent_text (hundredths v)
      /\ (2 * Z.abs (10000 * v - 255 * hundredths v) < 255)%Z)
  /\ map precision_rule [1; 127; 200; 254]%Z
     = [lit "0.39%"; lit "49.80%"; lit "78.43%"; lit "99.61%"].
Proof.
  split.
  { unfold rgb_to_rgb_percent, normalize_integer_triplet. cbn [red green blue].
    rewrite !_normalize_integer_rgb_clamp.
    rewrite !rgb_component_percent_rule by apply clamp_range. reflexivity. }
  split; [vm_compute; reflexivity|].
  split; [|vm_compute; reflexivity].
  intros v Hv Hs. split; [|apply hundredths_nearest; exact Hv].
  unfold precision_rule, special_values in *. cbn [In] in Hs.
  destruct (v =? 0)%Z eqn:E0; [apply Z.eqb_eq in E0; lia|].
  destruct (v =? 16)%Z eqn:E1; [apply Z.eqb_eq in E1; lia|].
  destruct (v =? 32)%Z eqn:E2; [apply Z.eqb_eq in E2; lia|].
  destruct (v =? 64)%Z eqn:E3; [apply Z.eqb_eq in E3; lia|].
  destruct (v =? 128)%Z eqn:E4; [apply Z.eqb_eq in E4; lia|].
  destruct (v =? 255)%Z eqn:E5; [apply Z.eqb_eq in E5; lia|].
  reflexivity.
Qed.

(** The component 200, which is not one of the six special values. *)
Lemma rgb_to_rgb_percent_precision_rule_witness :
  (0 <= 200 <= 255)%Z /\ ~ In 200%Z special_values
  /\ precision_rule 200 = percent_text (hundredths 200)
  /\ (2 * Z.abs (10000 * 200 - 255 * hundredths 200) < 255)%Z.
Proof.
  assert (H1 : (0 <= 200 <= 255)%Z) by lia.
  assert (H2 : ~ In 200%Z special_values).
  { intros H. vm_compute in H. intuition discriminate. }
  split; [exact H1|]. split; [exact H2|].
  exact (proj1 (proj2 (proj2 (rgb_to_rgb_percent_precision_rule 0 0 0))) 200%Z H1 H2).
Defined.

(** One special component through the percentage and back. *)
Lemma special_component_round_trip (v : Z) :
  In v special_values ->
  exists s,
    _normalize_percent_rgb (rgb_component_percent (_normalize_integer_rgb v)) = Return s
    /\ _percent_to_integer s = Return v.
Proof.
  unfold special_values. cbn [In]. intros H.
  repeat (destruct H as [H | H];
          [subst v; eexists; split; [vm_compute; reflexivity | vm_compute; reflexivity]|]).
  contradiction.
Qed.

(** C5.  A triplet whose components are among 0, 16, 32, 64, 128 and 255
    comes back unchanged from [rgb_percent_to_rgb(rgb_to_rgb_percent(t))]. *)
Theorem special_values_round_trip (r g b : Z) :
  In r special_values -> In g special_values -> In b special_values ->
  rgb_percent_to_rgb (PercentRGB_as_tuple (rgb_to_rgb_percent (r, g, b)))
  = Return (mkIntegerRGB r g b)
  /\ IntegerRGB_as_tuple (mkIntegerRGB r g b) = (r, g, b).
Proof.
  intros Hr Hg Hb. split; [|reflexivity].
  unfold rgb_percent_to_rgb, PercentRGB_as_tuple, rgb_to_rgb_percent,
    normalize_percent_triplet, normalize_integer_triplet.
  cbn [red green blue pred pgreen pblue].
  destruct (special_component_round_trip r Hr) as (sr & -> & Pr).
  destruct (special_component_round_trip g Hg) as (sg & -> & Pg).
  destruct (special_component_round_trip b Hb) as (sb & -> & Pb).
  cbn [bind pred pgreen pblue]. rewrite Pr, Pg, Pb. reflexivity.
Qed.

(** The triplet [(16, 128, 255)]. *)
Lemma special_values_round_trip_witness :
  In 16%Z special_values /\ In 128%Z special_values /\ In 255%Z special_values
  /\ rgb_percent_to_rgb (PercentRGB_as_tuple (rgb_to_rgb_percent (16, 128, 255)%Z))
     = Return (mkIntegerRGB 16 128 255).
Proof.
  assert (H1 : In 16%Z special_values) by (apply (nth_error_In _ 1); reflexivity).
  assert (H2 : In 128%Z special_values) by (apply (nth_error_In _ 4); reflexivity).
  assert (H3 : In 255%Z special_values) by (apply (nth_error_In _ 5); reflexivity).
  repeat (split; [assumption|]).
  exact (proj1 (special_values_round_trip 16 128 255 H1 H2 H3)).
Defined.

(** * Further properties *)

(** ** Hexadecimal values: what [normalize_hex] accepts and returns *)

Lemma re_class_is_hexdigit (c : codepoint) :
  re_hex_class c = true -> is_hexdigit c = true.
Proof.
  unfold re_hex_class. rewrite !orb_true_iff, !andb_true_iff, !N.leb_le.
  change (ch "a") with 97%N. change (ch "f") with 102%N.
  change (ch "A") with 65%N. change (ch "F") with 70%N.
  change (ch "0") with 48%N. change (ch "9") with 57%N.
  intros H.
  assert (E : (c = 48 \/ c = 49 \/ c = 50 \/ c = 51 \/ c = 52 \/ c = 53 \/ c = 54
               \/ c = 55 \/ c = 56 \/ c = 57 \/ c = 65 \/ c = 66 \/ c = 67 \/ c = 68
               \/ c = 69 \/ c = 70 \/ c = 97 \/ c = 98 \/ c = 99 \/ c = 100
               \/ c = 101 \/ c = 102)%N) by lia.
  repeat (destruct E as [E | E]; [subst c; reflexivity|]). subst c. reflexivity.
Qed.

Lemma forallb_weaken {A : Type} (f g : A -> bool) (l : list A) :
  (forall x, f x = true -> g x = true) -> forallb f l = true -> forallb g l = true.
Proof.
  intros Hfg. induction l as [|x l IH]; [reflexivity|].
  cbn [forallb]. rewrite !andb_true_iff. intros [Hx Hl].
  split; [apply Hfg; exact Hx | apply IH; exact Hl].
Qed.

Lemma forallb_double {f : codepoint -> bool} (s : str) :
  forallb f s = true -> forallb f (double_digits s) = true.
Proof.
  induction s as [|c s IH]; [reflexivity|].
  cbn [forallb double_digits flat_map app]. rewrite !andb_true_iff.
  intros [Hc Hs]. repeat split; try exact Hc. apply IH. exact Hs.
Qed.

(** One alternative of the pattern matched: the group and what follows it. *)
Lemma re_hex_run_Some (n : nat) (s g : str) :
  re_hex_run n s = Some g ->
  len g = n /\ forallb is_hexdigit g = true /\ (s = g \/ s = g ++ [10%N]).
Proof.
  unfold re_hex_run. intros H.
  destruct ((len (firstn n s) =? n)%nat && forallb re_hex_class (firstn n s)
            && re_at_end (skipn n s)) eqn:E; [|discriminate].
  injection H as <-. rewrite !andb_true_iff in E. destruct E as [[E1 E2] E3].
  apply Nat.eqb_eq in E1. split; [exact E1|].
  split; [exact (forallb_weaken _ _ _ re_class_is_hexdigit E2)|].
  pose proof (firstn_skipn n s) as Hs.
  destruct (skipn n s) as [|c [|d t]]; cbn [re_at_end] in E3; try discriminate.
  - left. rewrite app_nil_r in Hs. symmetry. exact Hs.
  - right. apply N.eqb_eq in E3. subst c. symmetry. exact Hs.
Qed.

Lemma re_hex_run_digits (n : nat) (digits tail : str) :
  len digits = n -> forallb is_hexdigit digits = true ->
  re_hex_run n (digits ++ tail) = if re_at_end tail then Some digits else None.
Proof.
  intros <- Hhex. unfold re_hex_run, len.
  rewrite firstn_app, firstn_all, Nat.sub_diag, firstn_O, app_nil_r.
  rewrite skipn_app, skipn_all, Nat.sub_diag, skipn_O. cbn [app].
  rewrite Nat.eqb_refl, (forallb_weaken _ _ _ hexdigit_is_re_class Hhex).
  reflexivity.
Qed.

(** [HEX_COLOR_RE] matches exactly the strings of the admitted shape. *)
Lemma HEX_COLOR_RE_match_shaped (h digits : str) :
  hex_shaped h digits -> HEX_COLOR_RE_match h = Some digits.
Proof.
  intros (Hh & Hlen & Hhex).
  assert (Ht : exists tail, h = ch "#" :: digits ++ tail /\ re_at_end tail = true).
  { destruct Hh as [-> | ->].
    - exists []. rewrite app_nil_r. split; reflexivity.
    - exists [10%N]. split; reflexivity. }
  destruct Ht as (tail & -> & Hend).
  unfold HEX_COLOR_RE_match. change (ch "#" =? ch "#")%N with true. cbv iota.
  destruct Hlen as [H3 | H6].
  - rewrite (re_hex_run_digits 3 digits tail H3 Hhex), Hend. reflexivity.
  - assert (E3 : re_hex_run 3 (digits ++ tail) = None).
    { destruct digits as [|a [|b [|c [|d [|e [|f [|x t]]]]]]]; try discriminate H6.
      unfold re_hex_run. cbn [app firstn skipn]. destruct tail as [|y [|z t]];
        cbn [app re_at_end]; rewrite andb_false_r; reflexivity. }
    rewrite E3, (re_hex_run_digits 6 digits tail H6 Hhex), Hend. reflexivity.
Qed.

Lemma HEX_COLOR_RE_match_Some (h g : str) :
  HEX_COLOR_RE_match h = Some g -> hex_shaped h g.
Proof.
  unfold HEX_COLOR_RE_match. destruct h as [|c rest]; [discriminate|].
  destruct (c =? ch "#")%N eqn:Ec; [|discriminate]. apply N.eqb_eq in Ec. subst c.
  destruct (re_hex_run 3 rest) as [g3|] eqn:E3.
  - intros H. injection H as <-.
    destruct (re_hex_run_Some _ _ _ E3) as (L & X & [-> | ->]);
      (split; [|split; [left; exact L | exact X]]); [left | right]; reflexivity.
  - intros E6.
    destruct (re_hex_run_Some _ _ _ E6) as (L & X & [-> | ->]);
      (split; [|split; [right; exact L | exact X]]); [left | right]; reflexivity.
Qed.

Lemma hexdigits_are_ascii (s : str) :
  forallb is_hexdigit s = true -> forallb is_ascii s = true.
Proof. apply forallb_weaken. exact hexdigit_is_ascii. Qed.

Lemma ascii_lower_lower_hexdigit (c : codepoint) :
  is_hexdigit c = true -> is_lower_hexdigit (ascii_lower c) = true.
Proof. intros H. hexdigit_cases H; reflexivity. Qed.

Lemma lower_hexdigit_is_hexdigit (c : codepoint) :
  is_lower_hexdigit c = true -> is_hexdigit c = true /\ ascii_lower c = c.
Proof.
  unfold is_lower_hexdigit, char_in. rewrite existsb_exists.
  intros [x [Hin Heq]]. apply N.eqb_eq in Heq. subst x. vm_compute in Hin.
  repeat (destruct Hin as [Hin | Hin]; [subst c; split; reflexivity|]).
  contradiction.
Qed.

Lemma hex_value_of_lower (c : codepoint) :
  is_hexdigit c = true -> hex_value_of (ascii_lower c) = hex_value_of c.
Proof. intros H. hexdigit_cases H; reflexivity. Qed.

Section NormalizeHex.
Context {U : Unicode}.

Lemma normalize_hex_shaped (h digits : str) :
  hex_shaped h digits -> normalize_hex h = Return (ch "#" :: written_digits digits).
Proof.
  intros Hs. unfold normalize_hex. rewrite (HEX_COLOR_RE_match_shaped _ _ Hs).
  destruct Hs as (_ & _ & Hhex). unfold written_digits.
  rewrite lower_ascii; [reflexivity|].
  apply hexdigits_are_ascii.
  destruct (len digits =? 3)%nat; [apply forallb_double|]; exact Hhex.
Qed.

Lemma normalize_hex_Return (h r : str) :
  normalize_hex h = Return r ->
  exists digits, hex_shaped h digits /\ r = ch "#" :: written_digits digits.
Proof.
  intros H. destruct (HEX_COLOR_RE_match h) as [g|] eqn:E.
  - apply HEX_COLOR_RE_match_Some in E. exists g. split; [exact E|].
    rewrite (normalize_hex_shaped _ _ E) in H. injection H as <-. reflexivity.
  - unfold normalize_hex in H. rewrite E in H. discriminate.
Qed.

(** What [normalize_hex] writes is six lowercase hexadecimal digits. *)
Lemma written_digits_six (digits : str) :
  (len digits = 3%nat \/ len digits = 6%nat) -> forallb is_hexdigit digits = true ->
  exists c1 c2 c3 c4 c5 c6,
    written_digits digits = map ascii_lower [c1; c2; c3; c4; c5; c6]
    /\ forallb is_hexdigit [c1; c2; c3; c4; c5; c6] = true.
Proof.
  intros [H3 | H6] Hhex.
  - destruct digits as [|a [|b [|c [|x t]]]]; try discriminate H3.
    exists a, a, b, b, c, c. split; [reflexivity|].
    cbn [forallb] in *. rewrite !andb_true_iff in *. tauto.
  - destruct digits as [|a [|b [|c [|d [|e [|f [|x t]]]]]]]; try discriminate H6.
    exists a, b, c, d, e, f. split; [reflexivity | exact Hhex].
Qed.

End NormalizeHex.

Lemma byte_text_table : forallb (fun n => byte_text_ok (Z.of_nat n)) (seq 0 256) = true.
Proof. vm_compute. reflexivity. Qed.

(** ["{:02x}"] of a byte: two lowercase digits that denote it. *)
Lemma format_02x_of_byte (v : Z) :
  (0 <= v <= 255)%Z ->
  exists c d,
    format_02x v = [c; d]
    /\ is_lower_hexdigit c = true /\ is_lower_hexdigit d = true
    /\ (hex_value_of c * 16 + hex_value_of d = v)%Z.
Proof.
  intros Hv. pose proof byte_text_table as T. rewrite forallb_forall in T.
  specialize (T (Z.to_nat v)). rewrite Z2Nat.id in T by lia.
  assert (Hin : In (Z.to_nat v) (seq 0 256)) by (apply in_seq; lia).
  specialize (T Hin). unfold byte_text_ok in T.
  destruct (format_02x v) as [|c [|d [|e t]]]; try discriminate T.
  rewrite !andb_true_iff, Z.eqb_eq in T. destruct T as [[Hc Hd] Hval].
  exists c, d. repeat split; assumption.
Qed.

Lemma int16_six (c1 c2 c3 c4 c5 c6 : codepoint) :
  forallb is_hexdigit [c1; c2; c3; c4; c5; c6] = true ->
  int16 [c1; c2; c3; c4; c5; c6]
  = Return (((hex_value_of c1 * 16 + hex_value_of c2) * 256
             + (hex_value_of c3 * 16 + hex_value_of c4)) * 256
            + (hex_value_of c5 * 16 + hex_value_of c6))%Z.
Proof.
  intros H. unfold int16. rewrite H. cbn [fold_left]. f_equal. ring.
Qed.

Section HexProperties.
Context {U : Unicode}.

(** [hex_to_rgb] on a value whose normal form is known. *)
Lemma hex_to_rgb_of_normal_form (h : str) (c1 c2 c3 c4 c5 c6 : codepoint) :
  normalize_hex h = Return [ch "#"; c1; c2; c3; c4; c5; c6] ->
  forallb is_hexdigit [c1; c2; c3; c4; c5; c6] = true ->
  hex_to_rgb h
  = Return (mkIntegerRGB (hex_value_of c1 * 16 + hex_value_of c2)
                         (hex_value_of c3 * 16 + hex_value_of c4)
                         (hex_value_of c5 * 16 + hex_value_of c6)).
Proof.
  intros Hn Hhex. unfold hex_to_rgb. rewrite Hn. cbn [bind slice_from skipn].
  rewrite (int16_six _ _ _ _ _ _ Hhex). cbn [bind].
  cbn [forallb] in Hhex. rewrite !andb_true_iff in Hhex.
  destruct Hhex as (H1 & H2 & H3 & H4 & H5 & H6 & _).
  pose proof (hex_value_of_range _ H1). pose proof (hex_value_of_range _ H2).
  pose proof (hex_value_of_range _ H3). pose proof (hex_value_of_range _ H4).
  pose proof (hex_value_of_range _ H5). pose proof (hex_value_of_range _ H6).
  destruct (@split_three_bytes (hex_value_of c1 * 16 + hex_value_of c2)%Z
              (hex_value_of c3 * 16 + hex_value_of c4)%Z
              (hex_value_of c5 * 16 + hex_value_of c6)%Z) as (E1 & E2 & E3); try lia.
  cbv zeta in E1, E2, E3. rewrite E1, E2, E3. reflexivity.
Qed.

(** The normal form of an accepted value, digit by digit. *)
Lemma normalize_hex_normal_form (h r : str) :
  normalize_hex h = Return r ->
  exists c1 c2 c3 c4 c5 c6,
    r = ch "#" :: map ascii_lower [c1; c2; c3; c4; c5; c6]
    /\ forallb is_hexdigit [c1; c2; c3; c4; c5; c6] = true.
Proof.
  intros H. destruct (normalize_hex_Return _ _ H) as (digits & (_ & Hlen & Hhex) & ->).
  destruct (written_digits_six digits Hlen Hhex)
    as (c1 & c2 & c3 & c4 & c5 & c6 & -> & Hall).
  exists c1, c2, c3, c4, c5, c6. split; [reflexivity | exact Hall].
Qed.

Lemma lowered_hexdigits (s : str) :
  forallb is_hexdigit s = true -> forallb is_hexdigit (map ascii_lower s) = true.
Proof.
  induction s as [|c s IH]; [reflexivity|].
  cbn [forallb map]. rewrite !andb_true_iff. intros [Hc Hs].
  split; [apply ascii_lower_hexdigit; exact Hc | apply IH; exact Hs].
Qed.

Lemma normalized_is_fixed (r : str) :
  is_normalized_hex r = true -> normalize_hex r = Return r.
Proof.
  unfold is_normalized_hex. rewrite !andb_true_iff. intros [[Hlen Hhash] Hl].
  apply Nat.eqb_eq in Hlen.
  destruct (seven_characters r Hlen) as (c0 & c1 & c2 & c3 & c4 & c5 & c6 & ->).
  cbn [startswith_hash] in Hhash. apply N.eqb_eq in Hhash. subst c0.
  cbn [slice_from skipn forallb] in Hl. rewrite !andb_true_iff in Hl.
  destruct Hl as (L1 & L2 & L3 & L4 & L5 & L6 & _).
  destruct (lower_hexdigit_is_hexdigit _ L1) as [X1 Y1].
  destruct (lower_hexdigit_is_hexdigit _ L2) as [X2 Y2].
  destruct (lower_hexdigit_is_hexdigit _ L3) as [X3 Y3].
  destruct (lower_hexdigit_is_hexdigit _ L4) as [X4 Y4].
  destruct (lower_hexdigit_is_hexdigit _ L5) as [X5 Y5].
  destruct (lower_hexdigit_is_hexdigit _ L6) as [X6 Y6].
  rewrite (normalize_hex_shaped _ [c1; c2; c3; c4; c5; c6]).
  - unfold written_digits. cbn [len List.length Nat.eqb map].
    rewrite Y1, Y2, Y3, Y4, Y5, Y6. reflexivity.
  - split; [left; reflexivity|]. split; [right; reflexivity|].
    cbn [forallb]. rewrite X1, X2, X3, X4, X5, X6. reflexivity.
Qed.

Lemma normal_form_is_normalized (c1 c2 c3 c4 c5 c6 : codepoint) :
  forallb is_hexdigit [c1; c2; c3; c4; c5; c6] = true ->
  is_normalized_hex (ch "#" :: map ascii_lower [c1; c2; c3; c4; c5; c6]) = true.
Proof.
  intros H. cbn [forallb] in H. rewrite !andb_true_iff in H.
  destruct H as (H1 & H2 & H3 & H4 & H5 & H6 & _).
  unfold is_normalized_hex. cbn [map len List.length Nat.eqb startswith_hash
                                 slice_from skipn forallb andb].
  rewrite N.eqb_refl. cbn [andb].
  rewrite !ascii_lower_lower_hexdigit by assumption. reflexivity.
Qed.

(** X1.  [normalize_hex] accepts exactly a ["#"] followed by three or six
    hexadecimal digits, with nothing or one final line feed after them (the
    [$] of the pattern); it returns ["#"] and the digits in lower case, a
    three-digit value with each digit doubled; on every other string it
    raises the [ValueError] that quotes the string. *)
Theorem normalize_hex_accepts_exactly (h : str) :
  (forall digits : str,
      hex_shaped h digits ->
      normalize_hex h = Return (ch "#" :: written_digits digits))
  /\ ((forall digits : str, ~ hex_shaped h digits) ->
      normalize_hex h
      = Raise (ValueError (lit "'" ++ h ++ lit "' is not a valid hexadecimal color value.")))
  /\ (forall r : str, normalize_hex h = Return r -> exists digits, hex_shaped h digits).
Proof.
  split; [exact (normalize_hex_shaped h)|]. split.
  - intros Hno. unfold normalize_hex.
    destruct (HEX_COLOR_RE_match h) as [g|] eqn:E; [|reflexivity].
    apply HEX_COLOR_RE_match_Some in E. exfalso. exact (Hno g E).
  - intros r Hr. destruct (normalize_hex_Return _ _ Hr) as (digits & Hs & _).
    exists digits. exact Hs.
Qed.

(** X2.  Whatever [normalize_hex] returns is a normalized value, seven
    characters, ["#"] and six lowercase hexadecimal digits, and
    [normalize_hex] leaves every normalized value unchanged. *)
Theorem normalize_hex_idempotent (h r : str) :
  normalize_hex h = Return r ->
  is_normalized_hex r = true /\ normalize_hex r = Return r.
Proof.
  intros H.
  destruct (normalize_hex_normal_form _ _ H) as (c1 & c2 & c3 & c4 & c5 & c6 & -> & Hall).
  pose proof (normal_form_is_normalized _ _ _ _ _ _ Hall) as Hn.
  split; [exact Hn | exact (normalized_is_fixed _ Hn)].
Qed.

(** X3.  [rgb_to_hex] of any integer triplet, in range or not, is a
    normalized value, which [normalize_hex] leaves unchanged and from which
    [hex_to_rgb] reads the clamped triplet back. *)
Theorem rgb_to_hex_then_hex_to_rgb (rgb_triplet : IntTuple) :
  is_normalized_hex (rgb_to_hex rgb_triplet) = true
  /\ normalize_hex (rgb_to_hex rgb_triplet) = Return (rgb_to_hex rgb_triplet)
  /\ hex_to_rgb (rgb_to_hex rgb_triplet)
     = Return (normalize_integer_triplet rgb_triplet).
Proof.
  destruct rgb_triplet as [[r g] b].
  unfold rgb_to_hex, normalize_integer_triplet. cbn [red green blue].
  rewrite !_normalize_integer_rgb_clamp.
  destruct (format_02x_of_byte _ (clamp_range r)) as (c1 & c2 & -> & L1 & L2 & V1).
  destruct (format_02x_of_byte _ (clamp_range g)) as (c3 & c4 & -> & L3 & L4 & V2).
  destruct (format_02x_of_byte _ (clamp_range b)) as (c5 & c6 & -> & L5 & L6 & V3).
  cbn [app].
  assert (Hn : is_normalized_hex [ch "#"; c1; c2; c3; c4; c5; c6] = true).
  { unfold is_normalized_hex.
    cbn [len List.length Nat.eqb startswith_hash slice_from skipn forallb].
    rewrite N.eqb_refl, L1, L2, L3, L4, L5, L6. reflexivity. }
  pose proof (normalized_is_fixed _ Hn) as Hfix.
  split; [exact Hn|]. split; [exact Hfix|].
  rewrite (hex_to_rgb_of_normal_form _ _ _ _ _ _ _ Hfix).
  - rewrite V1, V2, V3. reflexivity.
  - cbn [forallb].
    rewrite (proj1 (lower_hexdigit_is_hexdigit _ L1)), (proj1 (lower_hexdigit_is_hexdigit _ L2)),
      (proj1 (lower_hexdigit_is_hexdigit _ L3)), (proj1 (lower_hexdigit_is_hexdigit _ L4)),
      (proj1 (lower_hexdigit_is_hexdigit _ L5)), (proj1 (lower_hexdigit_is_hexdigit _ L6)).
    reflexivity.
Qed.

(** [rgb_to_hex(hex_to_rgb(h))] for an accepted [h]. *)
Lemma hex_rgb_hex_of_accepted (h r : str) :
  normalize_hex h = Return r ->
  hex_rgb_hex h = Return r
  /\ exists t, hex_to_rgb h = Return t
               /\ (0 <= red t <= 255)%Z /\ (0 <= green t <= 255)%Z
               /\ (0 <= blue t <= 255)%Z.
Proof.
  intros H.
  destruct (normalize_hex_normal_form _ _ H) as (c1 & c2 & c3 & c4 & c5 & c6 & -> & Hall).
  pose proof (lowered_hexdigits _ Hall) as Hlow. cbn [map] in H, Hlow.
  pose proof (hex_to_rgb_of_normal_form _ _ _ _ _ _ _ H Hlow) as Hrgb.
  cbn [forallb] in Hall. rewrite !andb_true_iff in Hall.
  destruct Hall as (H1 & H2 & H3 & H4 & H5 & H6 & _).
  pose proof (hex_value_of_range _ (ascii_lower_hexdigit _ H1)).
  pose proof (hex_value_of_range _ (ascii_lower_hexdigit _ H2)).
  pose proof (hex_value_of_range _ (ascii_lower_hexdigit _ H3)).
  pose proof (hex_value_of_range _ (ascii_lower_hexdigit _ H4)).
  pose proof (hex_value_of_range _ (ascii_lower_hexdigit _ H5)).
  pose proof (hex_value_of_range _ (ascii_lower_hexdigit _ H6)).
  split.
  - unfold hex_rgb_hex. rewrite Hrgb. cbn [bind].
    unfold rgb_to_hex, IntegerRGB_as_tuple, normalize_integer_triplet.
    cbn [red green blue]. rewrite !normalize_small by lia.
    rewrite !format_02x_byte by assumption. reflexivity.
  - eexists. split; [exact Hrgb|]. cbn [red green blue]. lia.
Qed.

(** X4.  For every string [h], [rgb_to_hex(hex_to_rgb(h))] is
    [normalize_hex(h)]: the normalized value when [h] is accepted, in its
    three-digit and line-feed forms too, and the same [ValueError] when it
    is not. *)
Theorem hex_rgb_hex_is_normalize_hex (h : str) :
  hex_rgb_hex h = normalize_hex h.
Proof.
  destruct (normalize_hex h) as [r|e|] eqn:E.
  - exact (proj1 (hex_rgb_hex_of_accepted _ _ E)).
  - unfold hex_rgb_hex, hex_to_rgb. rewrite E. reflexivity.
  - unfold normalize_hex in E. destruct (HEX_COLOR_RE_match h); discriminate E.
Qed.

(** X5.  [hex_to_rgb] returns exactly when [normalize_hex] does, and then
    each component is between 0 and 255; otherwise it raises the error of
    [normalize_hex]. *)
Theorem hex_to_rgb_bytes (h : str) :
  (forall r : str, normalize_hex h = Return r ->
     exists t, hex_to_rgb h = Return t
               /\ (0 <= red t <= 255)%Z /\ (0 <= green t <= 255)%Z
               /\ (0 <= blue t <= 255)%Z)
  /\ (forall e : exn, normalize_hex h = Raise e -> hex_to_rgb h = Raise e)
  /\ (forall t : IntegerRGB, hex_to_rgb h = Return t ->
      (0 <= red t <= 255)%Z /\ (0 <= green t <= 255)%Z /\ (0 <= blue t <= 255)%Z).
Proof.
  split; [intros r Hr; exact (proj2 (hex_rgb_hex_of_accepted _ _ Hr))|].
  split; [intros e He; unfold hex_to_rgb; rewrite He; reflexivity|].
  intros t Ht. destruct (normalize_hex h) as [r|e|] eqn:E.
  - destruct (proj2 (hex_rgb_hex_of_accepted _ _ E)) as (t' & Ht' & B).
    rewrite Ht in Ht'. injection Ht' as <-. exact B.
  - unfold hex_to_rgb in Ht. rewrite E in Ht. discriminate Ht.
  - unfold hex_to_rgb in Ht. rewrite E in Ht. discriminate Ht.
Qed.

End HexProperties.

(** ** Simple colours: serialization and the other parsers *)

Lemma hex_digits_of_nonempty (fuel : nat) (n : Z) :
  (1 <= len (hex_digits_of (S fuel) n))%nat.
Proof.
  cbn [hex_digits_of]. destruct (n <? 16)%Z; unfold len.
  - simpl. lia.
  - rewrite length_app. simpl. lia.
Qed.

Lemma format_x_long (n : Z) : (256 <= n)%Z -> (3 <= len (format_x n))%nat.
Proof.
  intros Hn. unfold format_x.
  assert (Hlog : (8 <= Z.log2 n)%Z).
  { change 8%Z with (Z.log2 256). apply Z.log2_le_mono. exact Hn. }
  destruct (Z.to_nat (Z.log2 n)) as [|[|f]] eqn:Ef; try lia.
  cbn [hex_digits_of].
  destruct (n <? 16)%Z eqn:E1; [apply Z.ltb_lt in E1; lia|].
  destruct (n / 16 <? 16)%Z eqn:E2.
  { apply Z.ltb_lt in E2. assert (n < 256)%Z; [|lia].
    pose proof (Z.div_mod n 16). pose proof (Z.mod_pos_bound n 16). lia. }
  pose proof (hex_digits_of_nonempty f (n / 16 / 16)) as H1.
  unfold len in *. rewrite !length_app. simpl. cbn [hex_digits_of] in H1. lia.
Qed.

Lemma format_02x_length (n : Z) :
  (2 <= len (format_02x n))%nat
  /\ ((256 <= n)%Z -> (3 <= len (format_02x n))%nat)
  /\ ((n < 0)%Z -> exists t, format_02x n = ch "-" :: t).
Proof.
  unfold format_02x. destruct (n <? 0)%Z eqn:E.
  - apply Z.ltb_lt in E. pose proof (hex_digits_of_nonempty (Z.to_nat (Z.log2 (- n))) (- n)).
    unfold format_x, len in *. repeat split.
    + cbn [List.length]. lia.
    + intros. lia.
    + intros _. eexists. reflexivity.
  - apply Z.ltb_ge in E. repeat split.
    + destruct (len (format_x n) <? 2)%nat eqn:E2.
      * pose proof (hex_digits_of_nonempty (Z.to_nat (Z.log2 n)) n).
        unfold format_x, len in *. cbn [List.length]. lia.
      * apply Nat.ltb_ge in E2. exact E2.
    + intros H. pose proof (format_x_long n H) as H3.
      destruct (len (format_x n) <? 2)%nat eqn:E2; [apply Nat.ltb_lt in E2; lia | exact H3].
    + intros. lia.
Qed.

Lemma minus_is_not_hexdigit : is_hexdigit (ch "-") = false.
Proof. reflexivity. Qed.

(** A component outside 0..255 spoils the serialized string: it is longer
    than seven characters or carries a minus sign. *)
Lemma serialized_out_of_range (r g b : Z) (c : HTML5SimpleColor) :
  html5_parse_simple_color (html5_serialize_simple_color (r, g, b)) = Return c ->
  (0 <= r <= 255)%Z /\ (0 <= g <= 255)%Z /\ (0 <= b <= 255)%Z.
Proof.
  intros H.
  destruct (html5_parse_simple_color_cases (html5_serialize_simple_color (r, g, b)))
    as [[_ R] | [(_ & _ & R) | [(_ & _ & _ & R) | (L & _ & D & _)]]];
    try (rewrite R in H; discriminate H).
  unfold html5_serialize_simple_color in L, D.
  cbn [app] in L, D. cbn [slice_from skipn] in D.
  unfold len in L. cbn [List.length] in L. rewrite !length_app in L.
  rewrite !forallb_app, !andb_true_iff in D. destruct D as [[Dr Dg] Db].
  destruct (format_02x_length r) as (Lr & Br & Nr).
  destruct (format_02x_length g) as (Lg & Bg & Ng).
  destruct (format_02x_length b) as (Lb & Bb & Nb).
  unfold len in *.
  assert (Hneg : forall n, forallb is_hexdigit (format_02x n) = true ->
                           (n < 0)%Z -> (exists t, format_02x n = ch "-" :: t) -> False).
  { intros n Hd _ [t Ht]. rewrite Ht in Hd. cbn [forallb] in Hd.
    rewrite minus_is_not_hexdigit in Hd. discriminate Hd. }
  repeat split.
  - destruct (Z.lt_ge_cases r 0) as [N|N]; [exfalso; exact (Hneg r Dr N (Nr N)) | exact N].
  - destruct (Z.lt_ge_cases r 256) as [N|N]; [lia | specialize (Br N); lia].
  - destruct (Z.lt_ge_cases g 0) as [N|N]; [exfalso; exact (Hneg g Dg N (Ng N)) | exact N].
  - destruct (Z.lt_ge_cases g 256) as [N|N]; [lia | specialize (Bg N); lia].
  - destruct (Z.lt_ge_cases b 0) as [N|N]; [exfalso; exact (Hneg b Db N (Nb N)) | exact N].
  - destruct (Z.lt_ge_cases b 256) as [N|N]; [lia | specialize (Bb N); lia].
Qed.

Lemma serialized_in_range (r g b : Z) :
  (0 <= r <= 255)%Z -> (0 <= g <= 255)%Z -> (0 <= b <= 255)%Z ->
  html5_parse_simple_color (html5_serialize_simple_color (r, g, b))
  = Return (mkHTML5SimpleColor r g b)
  /\ html5_serialize_simple_color (r, g, b) = rgb_to_hex (r, g, b).
Proof.
  intros Hr Hg Hb.
  assert (E : html5_serialize_simple_color (r, g, b) = rgb_to_hex (r, g, b)).
  { unfold html5_serialize_simple_color, rgb_to_hex, normalize_integer_triplet.
    cbn [red green blue]. rewrite !normalize_small by assumption.
    cbn [app]. rewrite <- app_assoc. reflexivity. }
  split; [|exact E].
  unfold html5_serialize_simple_color.
  destruct (format_02x_of_byte _ Hr) as (c1 & c2 & -> & L1 & L2 & V1).
  destruct (format_02x_of_byte _ Hg) as (c3 & c4 & -> & L3 & L4 & V2).
  destruct (format_02x_of_byte _ Hb) as (c5 & c6 & -> & L5 & L6 & V3).
  cbn [app]. rewrite html5_parse_simple_color_digits.
  - rewrite V1, V2, V3. reflexivity.
  - cbn [forallb].
    rewrite (proj1 (lower_hexdigit_is_hexdigit _ L1)), (proj1 (lower_hexdigit_is_hexdigit _ L2)),
      (proj1 (lower_hexdigit_is_hexdigit _ L3)), (proj1 (lower_hexdigit_is_hexdigit _ L4)),
      (proj1 (lower_hexdigit_is_hexdigit _ L5)), (proj1 (lower_hexdigit_is_hexdigit _ L6)).
    reflexivity.
Qed.

(** X6.  [html5_serialize_simple_color] does not validate its argument:
    parsing the serialized string gives the triplet back exactly when the
    three components lie between 0 and 255, and for such a triplet the
    string is the one [rgb_to_hex] writes. *)
Theorem html5_serialize_then_parse (r g b : Z) :
  (html5_parse_simple_color (html5_serialize_simple_color (r, g, b))
   = Return (mkHTML5SimpleColor r g b)
   <-> (0 <= r <= 255)%Z /\ (0 <= g <= 255)%Z /\ (0 <= b <= 255)%Z)
  /\ ((0 <= r <= 255)%Z /\ (0 <= g <= 255)%Z /\ (0 <= b <= 255)%Z ->
      html5_serialize_simple_color (r, g, b) = rgb_to_hex (r, g, b))
  /\ (forall c : HTML5SimpleColor,
      html5_parse_simple_color (html5_serialize_simple_color (r, g, b)) = Return c ->
      c = mkHTML5SimpleColor r g b).
Proof.
  split; [split|split].
  - apply serialized_out_of_range.
  - intros (Hr & Hg & Hb). exact (proj1 (serialized_in_range r g b Hr Hg Hb)).
  - intros (Hr & Hg & Hb). exact (proj2 (serialized_in_range r g b Hr Hg Hb)).
  - intros c Hc. destruct (serialized_out_of_range _ _ _ _ Hc) as (Hr & Hg & Hb).
    rewrite (proj1 (serialized_in_range r g b Hr Hg Hb)) in Hc.
    injection Hc as <-. reflexivity.
Qed.

(** The shape of an input that [html5_parse_simple_color] accepts. *)
Lemma simple_color_inversion (s : str) (c : HTML5SimpleColor) :
  html5_parse_simple_color s = Return c ->
  exists c1 c2 c3 c4 c5 c6,
    s = [ch "#"; c1; c2; c3; c4; c5; c6]
    /\ forallb is_hexdigit [c1; c2; c3; c4; c5; c6] = true
    /\ c = mkHTML5SimpleColor (hex_value_of c1 * 16 + hex_value_of c2)
                              (hex_value_of c3 * 16 + hex_value_of c4)
                              (hex_value_of c5 * 16 + hex_value_of c6).
Proof.
  intros H.
  destruct (html5_parse_simple_color_cases s)
    as [[_ R] | [(_ & _ & R) | [(_ & _ & _ & R) | (_ & _ & D & R)]]];
    try (rewrite R in H; discriminate H).
  destruct R as (c1 & c2 & c3 & c4 & c5 & c6 & -> & R).
  exists c1, c2, c3, c4, c5, c6. split; [reflexivity|].
  split; [exact D|]. rewrite R in H. injection H as <-. reflexivity.
Qed.

(** X7.  Serializing what [html5_parse_simple_color] returns gives the
    parsed string back in lower case. *)
Theorem html5_parse_then_serialize (s : str) (c : HTML5SimpleColor) :
  html5_parse_simple_color s = Return c ->
  html5_serialize_simple_color (HTML5SimpleColor_as_tuple c) = map ascii_lower s.
Proof.
  intros H.
  destruct (simple_color_inversion _ _ H) as (c1 & c2 & c3 & c4 & c5 & c6 & -> & D & ->).
  cbn [forallb] in D. rewrite !andb_true_iff in D.
  destruct D as (H1 & H2 & H3 & H4 & H5 & H6 & _).
  unfold html5_serialize_simple_color, HTML5SimpleColor_as_tuple.
  cbn [sred sgreen sblue].
  rewrite <- (hex_value_of_lower _ H1), <- (hex_value_of_lower _ H2),
    <- (hex_value_of_lower _ H3), <- (hex_value_of_lower _ H4),
    <- (hex_value_of_lower _ H5), <- (hex_value_of_lower _ H6).
  rewrite !format_02x_byte by assumption. reflexivity.
Qed.

Section SimpleAndHex.
Context {U : Unicode}.

Lemma hex_to_rgb_of_simple_color (s : str) (c : HTML5SimpleColor) :
  html5_parse_simple_color s = Return c ->
  hex_to_rgb s = Return (mkIntegerRGB (sred c) (sgreen c) (sblue c)).
Proof.
  intros H.
  destruct (simple_color_inversion _ _ H) as (c1 & c2 & c3 & c4 & c5 & c6 & -> & D & ->).
  pose proof (normalize_hex_six_digits _ _ _ _ _ _ D) as Hn. cbn [map] in Hn.
  pose proof (lowered_hexdigits _ D) as Hl. cbn [map] in Hl.
  rewrite (hex_to_rgb_of_normal_form _ _ _ _ _ _ _ Hn Hl).
  cbn [forallb] in D. rewrite !andb_true_iff in D.
  destruct D as (H1 & H2 & H3 & H4 & H5 & H6 & _).
  rewrite !hex_value_of_lower by assumption. reflexivity.
Qed.

(** X8.  On every string that [html5_parse_simple_color] accepts,
    [hex_to_rgb] returns the same three components. *)
Theorem simple_color_is_hex_to_rgb (s : str) (c : HTML5SimpleColor) :
  html5_parse_simple_color s = Return c ->
  hex_to_rgb s = Return (mkIntegerRGB (sred c) (sgreen c) (sblue c)).
Proof. exact (hex_to_rgb_of_simple_color s c). Qed.

End SimpleAndHex.

(** ** The legacy parser on digits, white space and keywords *)

Lemma dict_get_excluded {V : Type} (P : str -> bool) (d : dict V) (k : str) :
  forallb (fun kv => negb (P (fst kv))) d = true -> P k = true -> dict_get d k = None.
Proof.
  intros Hd Hk. induction d as [|[k' v'] d IH]; [reflexivity|].
  cbn [forallb fst] in Hd. apply andb_true_iff in Hd. destruct Hd as [H1 H2].
  cbn [dict_get]. destruct (str_eqb k' k) eqn:E.
  - apply str_eqb_eq in E. subst k'. rewrite Hk in H1. discriminate.
  - apply IH. exact H2.
Qed.

(** Every CSS3 colour name has a character that is not a hexadecimal digit. *)
Lemma CSS3_names_not_digits :
  forallb (fun kv => negb (forallb is_hexdigit (fst kv))) CSS3_NAMES_TO_HEX = true.
Proof. vm_compute. reflexivity. Qed.

Lemma hexdigit_not_hash (c : codepoint) :
  is_hexdigit c = true -> (c =? ch "#")%N = false.
Proof. intros H. hexdigit_cases H; reflexivity. Qed.

Lemma astral_replacement_ascii (s : str) :
  forallb is_ascii s = true ->
  flat_map (fun c => if (65535 <? c)%N then lit "00" else [c]) s = s.
Proof.
  induction s as [|c s IH]; [reflexivity|].
  cbn [forallb flat_map]. rewrite andb_true_iff. intros [Hc Hs].
  rewrite (IH Hs). unfold is_ascii in Hc. apply N.ltb_lt in Hc.
  destruct (65535 <? c)%N eqn:E; [apply N.ltb_lt in E; lia | reflexivity].
Qed.

Lemma digit_replacement_digits (s : str) :
  forallb is_hexdigit s = true ->
  map (fun c => if is_hexdigit c then c else ch "0") s = s.
Proof.
  induction s as [|c s IH]; [reflexivity|].
  cbn [forallb map]. rewrite andb_true_iff. intros [Hc Hs].
  rewrite (IH Hs), Hc. reflexivity.
Qed.

(** Steps 7 to 20 do not see a leading ["#"] before hexadecimal digits. *)
Lemma legacy_general_hash (d : str) :
  forallb is_hexdigit d = true -> (len d <= 127)%nat ->
  legacy_general (ch "#" :: d) = legacy_general d.
Proof.
  intros Hd Hlen. unfold legacy_general.
  pose proof (hexdigits_are_ascii _ Hd) as Ha.
  rewrite (astral_replacement_ascii (ch "#" :: d)), (astral_replacement_ascii d);
    [|exact Ha | cbn [forallb]; rewrite Ha; reflexivity].
  assert (E1 : (128 <? len (ch "#" :: d))%nat = false).
  { apply Nat.ltb_ge. unfold len in *. cbn [List.length]. lia. }
  assert (E2 : (128 <? len d)%nat = false) by (apply Nat.ltb_ge; lia).
  rewrite E1, E2. change (startswith_hash (ch "#" :: d)) with true. cbv iota.
  assert (E3 : startswith_hash d = false).
  { destruct d as [|c d']; [reflexivity|]. cbn [forallb] in Hd.
    apply andb_true_iff in Hd. exact (hexdigit_not_hash _ (proj1 Hd)). }
  rewrite E3. reflexivity.
Qed.

(** Steps 7 to 20 on six and on three hexadecimal digits. *)
Lemma legacy_general_six (c1 c2 c3 c4 c5 c6 : codepoint) :
  forallb is_hexdigit [c1; c2; c3; c4; c5; c6] = true ->
  legacy_general [c1; c2; c3; c4; c5; c6]
  = Return (mkHTML5SimpleColor (hex_value_of c1 * 16 + hex_value_of c2)
                               (hex_value_of c3 * 16 + hex_value_of c4)
                               (hex_value_of c5 * 16 + hex_value_of c6)).
Proof.
  intros Hd. unfold legacy_general.
  rewrite (astral_replacement_ascii _ (hexdigits_are_ascii _ Hd)).
  change (128 <? len [c1; c2; c3; c4; c5; c6])%nat with false. cbv iota.
  cbn [forallb] in Hd. rewrite !andb_true_iff in Hd.
  destruct Hd as (H1 & H2 & H3 & H4 & H5 & H6 & _).
  cbn [startswith_hash]. rewrite (hexdigit_not_hash _ H1).
  cbn [map]. rewrite H1, H2, H3, H4, H5, H6.
  cbn [pad_to_multiple_of_three len List.length Nat.eqb Nat.modulo Nat.divmod fst snd
       Nat.sub negb orb Nat.div Nat.ltb Nat.leb slice_to slice slice_from firstn skipn
       Nat.mul Nat.add trim_leading_zeros bind].
  rewrite !int16_two by assumption. reflexivity.
Qed.

Lemma legacy_general_three (a b c : codepoint) :
  is_hexdigit a = true -> is_hexdigit b = true -> is_hexdigit c = true ->
  legacy_general [a; b; c]
  = Return (mkHTML5SimpleColor (hex_value_of a) (hex_value_of b) (hex_value_of c)).
Proof.
  intros Ha Hb Hc. unfold legacy_general.
  rewrite astral_replacement_ascii
    by (cbn [forallb]; rewrite !hexdigit_is_ascii by assumption; reflexivity).
  change (128 <? len [a; b; c])%nat with false. cbv iota.
  cbn [startswith_hash]. rewrite (hexdigit_not_hash _ Ha).
  cbn [map]. rewrite Ha, Hb, Hc.
  cbn [pad_to_multiple_of_three len List.length Nat.eqb Nat.modulo Nat.divmod fst snd
       Nat.sub negb orb Nat.div Nat.ltb Nat.leb slice_to slice slice_from firstn skipn
       Nat.mul Nat.add trim_leading_zeros bind].
  rewrite !int16_one by assumption. reflexivity.
Qed.

Section LegacyDigits.
Context {U : Unicode}.

Lemma hexdigit_not_space (c : codepoint) : is_hexdigit c = true -> isspace c = false.
Proof. intros H. hexdigit_cases H; reflexivity. Qed.

Lemma lstrip_keeps (s : str) :
  (forall c, hd_error s = Some c -> isspace c = false) -> lstrip s = s.
Proof.
  destruct s as [|c s]; [reflexivity|]. intros H. cbn [lstrip].
  rewrite (H c eq_refl). reflexivity.
Qed.

(** [strip] leaves alone a string without white space. *)
Lemma strip_keeps (s : str) :
  (forall c, In c s -> isspace c = false) -> strip s = s.
Proof.
  intros H. unfold strip, rstrip.
  rewrite (lstrip_keeps s).
  - rewrite lstrip_keeps; [apply rev_involutive|].
    intros c Hc. apply H, in_rev.
    destruct (rev s) as [|x t]; [discriminate|]. injection Hc as ->. left. reflexivity.
  - intros c Hc. apply H. destruct s as [|x t]; [discriminate|].
    injection Hc as ->. left. reflexivity.
Qed.

Lemma strip_hexdigits (d : str) : forallb is_hexdigit d = true -> strip d = d.
Proof.
  intros Hd. apply strip_keeps. intros c Hc. rewrite forallb_forall in Hd.
  apply hexdigit_not_space, Hd, Hc.
Qed.

(** On hexadecimal digits alone the algorithm goes straight to step 7. *)
Lemma legacy_on_digits (d : str) :
  d <> [] -> forallb is_hexdigit d = true ->
  html5_parse_legacy_color d = legacy_general d.
Proof.
  intros Hne Hd. unfold html5_parse_legacy_color.
  apply str_eqb_neq in Hne. rewrite Hne.
  rewrite (strip_hexdigits _ Hd), (lower_ascii _ (hexdigits_are_ascii _ Hd)).
  pose proof (lowered_hexdigits _ Hd) as Hl.
  destruct (str_eqb (map ascii_lower d) (lit "transparent")) eqn:T.
  { apply str_eqb_eq in T. rewrite T in Hl. discriminate Hl. }
  rewrite (dict_get_excluded (forallb is_hexdigit) CSS3_NAMES_TO_HEX _
             CSS3_names_not_digits Hl).
  assert (E : startswith_hash d = false).
  { destruct d as [|c d']; [reflexivity|]. cbn [forallb] in Hd.
    apply andb_true_iff in Hd. exact (hexdigit_not_hash _ (proj1 Hd)). }
  rewrite E, andb_false_r. reflexivity.
Qed.

(** The same after a ["#"], unless the digits are three. *)
Lemma legacy_on_hash_digits (d : str) :
  forallb is_hexdigit d = true -> len d <> 3%nat ->
  html5_parse_legacy_color (ch "#" :: d) = legacy_general (ch "#" :: d).
Proof.
  intros Hd H3. unfold html5_parse_legacy_color.
  change (str_eqb (ch "#" :: d) []) with false. cbv iota.
  rewrite strip_keeps.
  2:{ intros c [<- | Hc]; [reflexivity|]. rewrite forallb_forall in Hd.
      apply hexdigit_not_space, Hd, Hc. }
  rewrite lower_ascii
    by (cbn [forallb]; rewrite (hexdigits_are_ascii _ Hd); reflexivity).
  cbn [map]. change (ascii_lower (ch "#")) with (ch "#").
  change (str_eqb (ch "#" :: map ascii_lower d) (lit "transparent")) with false.
  cbv iota.
  rewrite (dict_get_hash_key CSS3_NAMES_TO_HEX _ CSS3_names_no_hash) by reflexivity.
  assert (E : (len (ch "#" :: d) =? 4)%nat = false).
  { apply Nat.eqb_neq. unfold len in *. cbn [List.length]. lia. }
  rewrite E. reflexivity.
Qed.

(** X9.  The legacy parser extends the simple one: a string that
    [html5_parse_simple_color] accepts is parsed to the same colour by
    [html5_parse_legacy_color]. *)
Theorem legacy_extends_simple (s : str) (c : HTML5SimpleColor) :
  html5_parse_simple_color s = Return c -> html5_parse_legacy_color s = Return c.
Proof.
  intros H.
  destruct (simple_color_inversion _ _ H) as (c1 & c2 & c3 & c4 & c5 & c6 & -> & D & ->).
  rewrite legacy_on_hash_digits; [|exact D | discriminate].
  rewrite legacy_general_hash; [|exact D | unfold len; cbn [List.length]; lia].
  apply legacy_general_six. exact D.
Qed.

(** X10.  Before hexadecimal digits the ["#"] is optional for the legacy
    parser, except before exactly three digits: ["#abc"] has each digit
    multiplied by 17, while ["abc"] is read as three one-digit components. *)
Theorem legacy_hash_is_optional :
  (forall d : str,
      d <> [] -> forallb is_hexdigit d = true -> (len d <= 127)%nat ->
      len d <> 3%nat ->
      html5_parse_legacy_color (ch "#" :: d) = html5_parse_legacy_color d)
  /\ (forall a b c : codepoint,
      is_hexdigit a = true -> is_hexdigit b = true -> is_hexdigit c = true ->
      html5_parse_legacy_color [a; b; c]
      = Return (mkHTML5SimpleColor (hex_value_of a) (hex_value_of b) (hex_value_of c))
      /\ html5_parse_legacy_color [ch "#"; a; b; c]
         = Return (mkHTML5SimpleColor (hex_value_of a * 17) (hex_value_of b * 17)
                                      (hex_value_of c * 17))).
Proof.
  split.
  - intros d Hne Hd Hlen H3.
    rewrite (legacy_on_hash_digits d Hd H3), (legacy_on_digits d Hne Hd).
    apply legacy_general_hash; assumption.
  - intros a b c Ha Hb Hc. split.
    + rewrite legacy_on_digits; [apply legacy_general_three; assumption | discriminate|].
      cbn [forallb]. rewrite Ha, Hb, Hc. reflexivity.
    + apply legacy_three_digits; try assumption.
      apply strip_keeps. intros x [<- | Hx]; [reflexivity|].
      apply hexdigit_not_space. cbn [In] in Hx.
      destruct Hx as [<- | [<- | [<- | []]]]; assumption.
Qed.

End LegacyDigits.

Lemma dict_get_In_pair {V : Type} (d : dict V) (k : str) (v : V) :
  dict_get d k = Some v -> In (k, v) d.
Proof.
  induction d as [|[k' v'] d IH]; cbn [dict_get]; [discriminate|].
  destruct (str_eqb k' k) eqn:E.
  - intros H. injection H as ->. apply str_eqb_eq in E. subst k'. left. reflexivity.
  - intros H. right. apply IH. exact H.
Qed.

Lemma supported_HTML4 : supported HTML4 = true. Proof. reflexivity. Qed.
Lemma supported_CSS2 : supported CSS2 = true. Proof. reflexivity. Qed.
Lemma supported_CSS21 : supported CSS21 = true. Proof. reflexivity. Qed.
Lemma supported_CSS3 : supported CSS3 = true. Proof. reflexivity. Qed.

Lemma names_by_spec :
  dict_get NAMES_TO_HEX_BY_SPEC HTML4 = Some HTML4_NAMES_TO_HEX
  /\ dict_get NAMES_TO_HEX_BY_SPEC CSS2 = Some HTML4_NAMES_TO_HEX
  /\ dict_get NAMES_TO_HEX_BY_SPEC CSS21 = Some CSS21_NAMES_TO_HEX
  /\ dict_get NAMES_TO_HEX_BY_SPEC CSS3 = Some CSS3_NAMES_TO_HEX.
Proof. repeat split; reflexivity. Qed.

Lemma hex_by_spec :
  dict_get HEX_TO_NAMES_BY_SPEC HTML4 = Some HTML4_HEX_TO_NAMES
  /\ dict_get HEX_TO_NAMES_BY_SPEC CSS2 = Some HTML4_HEX_TO_NAMES
  /\ dict_get HEX_TO_NAMES_BY_SPEC CSS21 = Some CSS21_HEX_TO_NAMES
  /\ dict_get HEX_TO_NAMES_BY_SPEC CSS3 = Some CSS3_HEX_TO_NAMES.
Proof. repeat split; reflexivity. Qed.

(** Every CSS3 colour name is made of lowercase letters. *)
Lemma CSS3_names_letters :
  forallb (fun kv => forallb is_lower_letter (fst kv)) CSS3_NAMES_TO_HEX = true.
Proof. vm_compute. reflexivity. Qed.

Lemma CSS3_no_empty_name : dict_get CSS3_NAMES_TO_HEX [] = None.
Proof. vm_compute. reflexivity. Qed.

Lemma CSS3_no_transparent : dict_get CSS3_NAMES_TO_HEX (lit "transparent") = None.
Proof. vm_compute. reflexivity. Qed.

Section LegacyWhitespace.
Context {U : Unicode}.

Lemma lstrip_spaces (ws x : str) :
  forallb isspace ws = true -> lstrip (ws ++ x) = lstrip x.
Proof.
  induction ws as [|c ws IH]; [reflexivity|].
  cbn [forallb app lstrip]. rewrite andb_true_iff. intros [Hc Hws].
  rewrite Hc. apply IH. exact Hws.
Qed.

Lemma lstrip_app (s w : str) : lstrip s <> [] -> lstrip (s ++ w) = lstrip s ++ w.
Proof.
  induction s as [|c s IH]; [intros H; contradiction H; reflexivity|].
  cbn [app lstrip]. destruct (isspace c); [exact IH | reflexivity].
Qed.

Lemma lstrip_nil_spaces (s : str) : lstrip s = [] -> forallb isspace s = true.
Proof.
  induction s as [|c s IH]; [reflexivity|].
  cbn [lstrip forallb]. destruct (isspace c); [exact IH | discriminate].
Qed.

Lemma rstrip_spaces (x ws : str) :
  forallb isspace ws = true -> rstrip (x ++ ws) = rstrip x.
Proof.
  intros H. unfold rstrip. rewrite rev_app_distr, lstrip_spaces; [reflexivity|].
  rewrite forallb_forall in *. intros c Hc. apply H, in_rev. exact Hc.
Qed.

(** White space around a string does not survive [strip]. *)
Lemma strip_padding (ws1 ws2 s : str) :
  forallb isspace ws1 = true -> forallb isspace ws2 = true ->
  strip (ws1 ++ s ++ ws2) = strip s.
Proof.
  intros H1 H2. unfold strip. rewrite (lstrip_spaces ws1 _ H1).
  destruct (lstrip s) as [|c t] eqn:E.
  - pose proof (lstrip_nil_spaces _ E) as Hs.
    assert (Hall : forallb isspace (s ++ ws2) = true)
      by (rewrite forallb_app, Hs, H2; reflexivity).
    pose proof (lstrip_spaces (s ++ ws2) [] Hall) as Hl.
    rewrite app_nil_r in Hl. rewrite Hl. reflexivity.
  - rewrite lstrip_app by (rewrite E; discriminate). rewrite E.
    apply rstrip_spaces. exact H2.
Qed.

Lemma legacy_depends_on_strip (a b : str) :
  a <> [] -> b <> [] -> strip a = strip b ->
  html5_parse_legacy_color a = html5_parse_legacy_color b.
Proof.
  intros Ha Hb H. unfold html5_parse_legacy_color.
  apply str_eqb_neq in Ha, Hb. rewrite Ha, Hb, H. reflexivity.
Qed.

(** X11.  The legacy parser ignores white space around a non-empty
    string, and reads a non-empty string of white space alone as black,
    where the empty string is an error. *)
Theorem legacy_ignores_surrounding_whitespace :
  (forall ws1 ws2 s : str,
      forallb isspace ws1 = true -> forallb isspace ws2 = true -> s <> [] ->
      html5_parse_legacy_color (ws1 ++ s ++ ws2) = html5_parse_legacy_color s)
  /\ (forall ws : str,
      ws <> [] -> forallb isspace ws = true ->
      html5_parse_legacy_color ws = Return (mkHTML5SimpleColor 0 0 0))
  /\ html5_parse_legacy_color [] = Raise legacy_empty_error.
Proof.
  split; [|split; [|reflexivity]].
  - intros ws1 ws2 s H1 H2 Hs. apply legacy_depends_on_strip.
    + intros E. apply app_eq_nil in E. destruct E as [_ E].
      apply app_eq_nil in E. destruct E as [E _]. contradiction.
    + exact Hs.
    + apply strip_padding; assumption.
  - intros ws Hne Hws.
    assert (Hs : strip ws = []).
    { pose proof (strip_padding ws [] [] Hws eq_refl) as H. cbn [app] in H.
      rewrite app_nil_r in H. exact H. }
    unfold html5_parse_legacy_color. apply str_eqb_neq in Hne. rewrite Hne, Hs.
    vm_compute. reflexivity.
Qed.

Lemma letter_not_space (c : codepoint) :
  is_ascii c = true -> is_lower_letter (ascii_lower c) = true -> isspace c = false.
Proof.
  intros Ha Hl. unfold isspace. rewrite Ha.
  unfold is_lower_letter, ascii_lower, ascii_isspace in *.
  change (ch "a") with 97%N in *. change (ch "z") with 122%N in *.
  change (ch "A") with 65%N in *. change (ch "Z") with 90%N in *.
  destruct ((65 <=? c)%N && (c <=? 90)%N) eqn:E.
  - rewrite andb_true_iff, !N.leb_le in E.
    rewrite !orb_false_iff, !andb_false_iff, !N.leb_gt, N.eqb_neq. lia.
  - rewrite andb_true_iff, !N.leb_le in Hl.
    rewrite !orb_false_iff, !andb_false_iff, !N.leb_gt, N.eqb_neq. lia.
Qed.

(** X12.  On an ASCII colour name that [name_to_rgb] finds in the CSS3
    table, in any letter case, [html5_parse_legacy_color] returns the same
    three components. *)
Theorem legacy_keywords_are_CSS3_names (name : str) (t : IntegerRGB) :
  forallb is_ascii name = true ->
  name_to_rgb name CSS3 = Return t ->
  html5_parse_legacy_color name
  = Return (mkHTML5SimpleColor (red t) (green t) (blue t)).
Proof.
  intros Hascii H. unfold name_to_rgb, name_to_hex in H.
  rewrite supported_CSS3 in H. cbn [negb] in H.
  rewrite (proj2 (proj2 (proj2 names_by_spec))) in H.
  rewrite (lower_ascii _ Hascii) in H.
  destruct (dict_get CSS3_NAMES_TO_HEX (map ascii_lower name)) as [hex|] eqn:K;
    [|discriminate H].
  cbn [bind] in H.
  assert (Hne : name <> []).
  { intros ->. cbn [map] in K. rewrite CSS3_no_empty_name in K. discriminate K. }
  assert (Hletters : forallb is_lower_letter (map ascii_lower name) = true).
  { pose proof CSS3_names_letters as T. rewrite forallb_forall in T.
    exact (T _ (dict_get_In_pair _ _ _ K)). }
  assert (Hstrip : strip name = name).
  { apply strip_keeps. intros c Hc. rewrite forallb_forall in Hascii, Hletters.
    apply letter_not_space; [apply Hascii; exact Hc|].
    apply Hletters, in_map. exact Hc. }
  unfold html5_parse_legacy_color.
  apply str_eqb_neq in Hne. rewrite Hne, Hstrip, (lower_ascii _ Hascii).
  destruct (str_eqb (map ascii_lower name) (lit "transparent")) eqn:T.
  { apply str_eqb_eq in T. rewrite T, CSS3_no_transparent in K. discriminate K. }
  rewrite K.
  destruct (CSS3_keyword_color _ _ K) as (c & Hc & _).
  rewrite (hex_to_rgb_of_simple_color _ _ Hc) in H. injection H as <-.
  rewrite Hc. destruct c. reflexivity.
Qed.

End LegacyWhitespace.

(** ** Names and values: the tables and their reverse tables *)

Lemma tables_fit_HTML4 : tables_fit HTML4_NAMES_TO_HEX HTML4_HEX_TO_NAMES = true.
Proof. vm_compute. reflexivity. Qed.

Lemma tables_fit_CSS21 : tables_fit CSS21_NAMES_TO_HEX CSS21_HEX_TO_NAMES = true.
Proof. vm_compute. reflexivity. Qed.

Lemma tables_fit_CSS3 : tables_fit CSS3_NAMES_TO_HEX CSS3_HEX_TO_NAMES = true.
Proof. vm_compute. reflexivity. Qed.

Lemma tables_included :
  table_included HTML4_NAMES_TO_HEX CSS21_NAMES_TO_HEX = true
  /\ table_included CSS21_NAMES_TO_HEX CSS3_NAMES_TO_HEX = true
  /\ table_included HTML4_NAMES_TO_HEX CSS3_NAMES_TO_HEX = true.
Proof. repeat split; vm_compute; reflexivity. Qed.

Lemma str_option_eqb_Some (o : option str) (x : str) :
  str_option_eqb o (Some x) = true -> o = Some x.
Proof.
  destruct o as [y|]; cbn [str_option_eqb]; [|discriminate].
  intros H. apply str_eqb_eq in H. subst y. reflexivity.
Qed.

Lemma is_lowercase_ascii_lower (s : str) :
  is_lowercase_ascii s = true -> forallb is_ascii s = true /\ map ascii_lower s = s.
Proof.
  unfold is_lowercase_ascii. rewrite andb_true_iff. intros [H1 H2].
  split; [exact H1 | apply str_eqb_eq; exact H2].
Qed.

(** What [tables_fit] says of one entry of the name table. *)
Lemma tables_fit_entry (table rtable : dict str) (k v : str) :
  tables_fit table rtable = true -> In (k, v) table ->
  is_lowercase_ascii k = true /\ is_normalized_hex v = true
  /\ exists name, dict_get rtable v = Some name /\ dict_get table name = Some v.
Proof.
  unfold tables_fit. rewrite andb_true_iff. intros [H _] Hin.
  rewrite forallb_forall in H. specialize (H _ Hin). cbn [fst snd] in H.
  rewrite !andb_true_iff in H. destruct H as [[Hk Hv] Hr].
  split; [exact Hk|]. split; [exact Hv|].
  destruct (dict_get rtable v) as [name|]; [|discriminate Hr].
  exists name. split; [reflexivity | apply str_option_eqb_Some; exact Hr].
Qed.

(** What [tables_fit] says of one entry of the reverse table. *)
Lemma tables_fit_reverse_entry (table rtable : dict str) (h n : str) :
  tables_fit table rtable = true -> In (h, n) rtable ->
  is_lowercase_ascii n = true /\ dict_get table n = Some h.
Proof.
  unfold tables_fit. rewrite andb_true_iff. intros [_ H] Hin.
  rewrite forallb_forall in H. specialize (H _ Hin). cbn [fst snd] in H.
  rewrite andb_true_iff in H. destruct H as [Hn Ht].
  split; [exact Hn | apply str_option_eqb_Some; exact Ht].
Qed.

(** The two tables that a supported specification selects. *)
Lemma supported_tables (spec : str) :
  supported spec = true ->
  exists table rtable,
    dict_get NAMES_TO_HEX_BY_SPEC spec = Some table
    /\ dict_get HEX_TO_NAMES_BY_SPEC spec = Some rtable
    /\ tables_fit table rtable = true.
Proof.
  intros H. apply supported_iff in H.
  destruct names_by_spec as (N1 & N2 & N3 & N4).
  destruct hex_by_spec as (R1 & R2 & R3 & R4).
  destruct H as [<- | [<- | [<- | [<- | []]]]].
  - exists HTML4_NAMES_TO_HEX, HTML4_HEX_TO_NAMES.
    split; [exact N1 | split; [exact R1 | exact tables_fit_HTML4]].
  - exists HTML4_NAMES_TO_HEX, HTML4_HEX_TO_NAMES.
    split; [exact N2 | split; [exact R2 | exact tables_fit_HTML4]].
  - exists CSS21_NAMES_TO_HEX, CSS21_HEX_TO_NAMES.
    split; [exact N3 | split; [exact R3 | exact tables_fit_CSS21]].
  - exists CSS3_NAMES_TO_HEX, CSS3_HEX_TO_NAMES.
    split; [exact N4 | split; [exact R4 | exact tables_fit_CSS3]].
Qed.

(** [_reversedict] with a dictionary to start from: the last name of
    [hex_value] in [d], or what the dictionary held. *)
Lemma reverse_fold_get (d : dict str) (acc : dict str) (v : str) :
  dict_get (fold_left (fun acc kv => dict_set acc (snd kv) (fst kv)) d acc) v
  = match hd_error (rev (names_of d v)) with
    | Some k => Some k
    | None => dict_get acc v
    end.
Proof.
  revert acc. induction d as [|[k0 v0] d IH]; intros acc; [reflexivity|].
  cbn [fold_left fst snd]. rewrite IH. unfold names_of. cbn [filter snd].
  destruct (str_eqb v0 v) eqn:E.
  - apply str_eqb_eq in E. subst v0. cbn [map fst rev].
    destruct (rev (map fst (filter (fun kv => str_eqb (snd kv) v) d))) as [|x t];
      [|reflexivity].
    cbn [hd_error app]. apply dict_get_set_same.
  - destruct (hd_error (rev (map fst (filter (fun kv => str_eqb (snd kv) v) d))));
      [reflexivity|].
    apply dict_get_set_other. intros ->. rewrite str_eqb_refl in E. discriminate E.
Qed.

(** X13.  In the dictionary that [_reversedict] builds, a value leads to
    the last of the names that the given dictionary maps to it, in the
    order of the dictionary, and a value that no name maps to is absent. *)
Theorem _reversedict_last_name (d : dict str) (hex_value : str) :
  dict_get (_reversedict d) hex_value = hd_error (rev (names_of d hex_value)).
Proof.
  unfold _reversedict. rewrite reverse_fold_get.
  destruct (hd_error (rev (names_of d hex_value))); reflexivity.
Qed.

Section NameProperties.
Context {U : Unicode}.

(** When [name_to_hex] returns. *)
Lemma name_to_hex_Return (name spec hex : str) :
  name_to_hex name spec = Return hex <->
  supported spec = true
  /\ exists table, dict_get NAMES_TO_HEX_BY_SPEC spec = Some table
                   /\ dict_get table (lower name) = Some hex.
Proof.
  unfold name_to_hex. split.
  - destruct (supported spec); cbn [negb]; [|discriminate].
    destruct (dict_get NAMES_TO_HEX_BY_SPEC spec) as [table|]; [|discriminate].
    destruct (dict_get table (lower name)) as [h|] eqn:E; [|discriminate].
    intros H. injection H as <-. split; [reflexivity|].
    exists table. split; [reflexivity | exact E].
  - intros (-> & table & -> & ->). reflexivity.
Qed.

(** When [hex_to_name] returns. *)
Lemma hex_to_name_Return (hex_value spec name : str) :
  hex_to_name hex_value spec = Return name <->
  supported spec = true
  /\ exists rtable normalized,
       dict_get HEX_TO_NAMES_BY_SPEC spec = Some rtable
       /\ normalize_hex hex_value = Return normalized
       /\ dict_get rtable normalized = Some name.
Proof.
  unfold hex_to_name. split.
  - destruct (supported spec); cbn [negb]; [|discriminate].
    destruct (normalize_hex hex_value) as [n| |]; cbn [bind]; try discriminate.
    destruct (dict_get HEX_TO_NAMES_BY_SPEC spec) as [rtable|]; [|discriminate].
    destruct (dict_get rtable n) as [x|] eqn:E; [|discriminate].
    intros H. injection H as <-. split; [reflexivity|].
    exists rtable, n. split; [reflexivity|]. split; [reflexivity | exact E].
  - intros (-> & rtable & n & -> & -> & E). cbn [negb bind]. rewrite E. reflexivity.
Qed.

Lemma lower_lowercase (s : str) : is_lowercase_ascii s = true -> lower s = s.
Proof.
  intros H. destruct (is_lowercase_ascii_lower _ H) as [Ha Hl].
  rewrite (lower_ascii _ Ha). exact Hl.
Qed.

(** X14.  For each of the four supported specifications, a value that
    [name_to_hex] returns is normalized, [hex_to_name] finds a name for it,
    and that name, perhaps another spelling, maps back to the same value. *)
Theorem name_hex_name_round_trip (name spec hex : str) :
  name_to_hex name spec = Return hex ->
  is_normalized_hex hex = true
  /\ exists name', hex_to_name hex spec = Return name'
                   /\ name_to_hex name' spec = Return hex.
Proof.
  intros H. apply name_to_hex_Return in H. destruct H as (Hs & table & Ht & Hk).
  destruct (supported_tables spec Hs) as (table' & rtable & Ht' & Hr & Hfit).
  rewrite Ht in Ht'. injection Ht' as <-.
  destruct (tables_fit_entry _ _ _ _ Hfit (dict_get_In_pair _ _ _ Hk))
    as (_ & Hn & name' & Hrev & Hback).
  split; [exact Hn|]. exists name'. split.
  - apply hex_to_name_Return. split; [exact Hs|].
    exists rtable, hex. repeat split; try assumption. apply normalized_is_fixed, Hn.
  - apply name_to_hex_Return. split; [exact Hs|]. exists table. split; [exact Ht|].
    destruct (tables_fit_reverse_entry _ _ _ _ Hfit (dict_get_In_pair _ _ _ Hrev))
      as (Hlow & _).
    rewrite (lower_lowercase _ Hlow). exact Hback.
Qed.

(** X15.  A name that [hex_to_name] returns is a name of the normalized
    value in the same specification: [name_to_hex] maps it back. *)
Theorem hex_name_hex_round_trip (hex_value spec name : str) :
  hex_to_name hex_value spec = Return name ->
  exists normalized,
    normalize_hex hex_value = Return normalized
    /\ name_to_hex name spec = Return normalized.
Proof.
  intros H. apply hex_to_name_Return in H.
  destruct H as (Hs & rtable & n & Hr & Hn & Hk).
  destruct (supported_tables spec Hs) as (table & rtable' & Ht & Hr' & Hfit).
  rewrite Hr in Hr'. injection Hr' as <-.
  destruct (tables_fit_reverse_entry _ _ _ _ Hfit (dict_get_In_pair _ _ _ Hk))
    as (Hlow & Hback).
  exists n. split; [exact Hn|].
  apply name_to_hex_Return. split; [exact Hs|]. exists table. split; [exact Ht|].
  rewrite (lower_lowercase _ Hlow). exact Hback.
Qed.

Lemma table_included_get (small big : dict str) (k v : str) :
  table_included small big = true -> dict_get small k = Some v -> dict_get big k = Some v.
Proof.
  unfold table_included. intros H Hk. rewrite forallb_forall in H.
  specialize (H _ (dict_get_In_pair _ _ _ Hk)). cbn [fst snd] in H.
  apply str_option_eqb_Some. exact H.
Qed.

(** X16.  The specifications grow: a name that [name_to_hex] finds in
    HTML4 has the same value in CSS2, CSS21 and CSS3, and a name found in
    CSS21 has the same value in CSS3; CSS2 and HTML4 find exactly the same
    names. *)
Theorem name_tables_grow (name hex : str) :
  (name_to_hex name HTML4 = Return hex <-> name_to_hex name CSS2 = Return hex)
  /\ (name_to_hex name HTML4 = Return hex -> name_to_hex name CSS21 = Return hex)
  /\ (name_to_hex name CSS21 = Return hex -> name_to_hex name CSS3 = Return hex).
Proof.
  destruct names_by_spec as (N1 & N2 & N3 & N4).
  destruct tables_included as (I1 & I2 & _).
  rewrite !name_to_hex_Return, N1, N2, N3, N4.
  rewrite supported_HTML4, supported_CSS2, supported_CSS21, supported_CSS3.
  split; [split|split].
  - intros (_ & table & E & K). injection E as <-.
    split; [reflexivity|]. exists HTML4_NAMES_TO_HEX. split; [reflexivity | exact K].
  - intros (_ & table & E & K). injection E as <-.
    split; [reflexivity|]. exists HTML4_NAMES_TO_HEX. split; [reflexivity | exact K].
  - intros (_ & table & E & K). injection E as <-.
    split; [reflexivity|]. exists CSS21_NAMES_TO_HEX. split; [reflexivity|].
    exact (table_included_get _ _ _ _ I1 K).
  - intros (_ & table & E & K). injection E as <-.
    split; [reflexivity|]. exists CSS3_NAMES_TO_HEX. split; [reflexivity|].
    exact (table_included_get _ _ _ _ I2 K).
Qed.

(** X17.  [name_to_rgb] fails only where [name_to_hex] fails, with the
    same error: on a name that [name_to_hex] maps to a value it returns the
    three components of that value, each between 0 and 255. *)
Theorem name_to_rgb_follows_name_to_hex (name spec : str) :
  (forall hex : str,
      name_to_hex name spec = Return hex ->
      exists t, name_to_rgb name spec = Return t /\ hex_to_rgb hex = Return t
                /\ (0 <= red t <= 255)%Z /\ (0 <= green t <= 255)%Z
                /\ (0 <= blue t <= 255)%Z)
  /\ (forall e : exn, name_to_hex name spec = Raise e -> name_to_rgb name spec = Raise e).
Proof.
  split.
  - intros hex H. pose proof H as H'. apply name_to_hex_Return in H'.
    destruct H' as (Hs & table & Ht & Hk).
    destruct (supported_tables spec Hs) as (table' & rtable & Ht' & _ & Hfit).
    rewrite Ht in Ht'. injection Ht' as <-.
    destruct (tables_fit_entry _ _ _ _ Hfit (dict_get_In_pair _ _ _ Hk)) as (_ & Hn & _).
    destruct (proj2 (hex_rgb_hex_of_accepted _ _ (normalized_is_fixed _ Hn)))
      as (t & Hrgb & B).
    exists t. unfold name_to_rgb. rewrite H. cbn [bind].
    split; [exact Hrgb|]. split; [exact Hrgb | exact B].
  - intros e H. unfold name_to_rgb. rewrite H. reflexivity.
Qed.

Lemma rgb_to_hex_normalizes_once (rgb_triplet : IntTuple) :
  rgb_to_hex (IntegerRGB_as_tuple (normalize_integer_triplet rgb_triplet))
  = rgb_to_hex rgb_triplet.
Proof.
  destruct rgb_triplet as [[r g] b].
  unfold rgb_to_hex, IntegerRGB_as_tuple, normalize_integer_triplet.
  cbn [red green blue].
  rewrite !(normalize_small (_normalize_integer_rgb _))
    by (rewrite _normalize_integer_rgb_clamp; apply clamp_range).
  reflexivity.
Qed.

(** X18.  [rgb_to_name] is [hex_to_name] of what [rgb_to_hex] writes, the
    second clamping changing nothing; and when [hex_to_name] finds a name
    for a value, [rgb_to_name] finds the same name for the triplet that
    [hex_to_rgb] reads from the value. *)
Theorem rgb_to_name_follows_hex_to_name :
  (forall (rgb_triplet : IntTuple) (spec : str),
      rgb_to_name rgb_triplet spec = hex_to_name (rgb_to_hex rgb_triplet) spec)
  /\ (forall hex_value spec name : str,
      hex_to_name hex_value spec = Return name ->
      exists t, hex_to_rgb hex_value = Return t
                /\ rgb_to_name (IntegerRGB_as_tuple t) spec = Return name).
Proof.
  split.
  - intros rgb_triplet spec. unfold rgb_to_name.
    rewrite rgb_to_hex_normalizes_once. reflexivity.
  - intros hex_value spec name H. apply hex_to_name_Return in H.
    destruct H as (Hs & rtable & n & Hr & Hn & Hk).
    destruct (hex_rgb_hex_of_accepted _ _ Hn) as (Hround & t & Ht & _).
    exists t. split; [exact Ht|].
    unfold hex_rgb_hex in Hround. rewrite Ht in Hround. cbn [bind] in Hround.
    injection Hround as Hhex.
    unfold rgb_to_name. rewrite rgb_to_hex_normalizes_once, Hhex.
    apply hex_to_name_Return. split; [exact Hs|].
    exists rtable, n. repeat split; try assumption.
    destruct (normalize_hex_normal_form _ _ Hn) as (c1 & c2 & c3 & c4 & c5 & c6 & -> & Hall).
    apply normalized_is_fixed, normal_form_is_normalized. exact Hall.
Qed.

End NameProperties.

(** ** Percentages: every triplet, and integer percentages *)

Lemma percent_there_and_back_table :
  forallb (fun n => percent_there_and_back (Z.of_nat n)) (seq 0 256) = true.
Proof. vm_compute. reflexivity. Qed.

(** One component: the percentage that [rgb_to_rgb_percent] writes is left
    unchanged by a second normalization and converts back to the component. *)
Lemma component_there_and_back (v : Z) :
  (0 <= v <= 255)%Z ->
  exists s,
    _normalize_percent_rgb (rgb_component_percent v) = Return s
    /\ _normalize_percent_rgb s = Return s
    /\ _percent_to_integer s = Return v.
Proof.
  intros Hv. pose proof percent_there_and_back_table as T.
  rewrite forallb_forall in T. specialize (T (Z.to_nat v)).
  rewrite Z2Nat.id in T by lia.
  assert (Hin : In (Z.to_nat v) (seq 0 256)) by (apply in_seq; lia).
  specialize (T Hin). unfold percent_there_and_back in T.
  destruct (_normalize_percent_rgb (rgb_component_percent v)) as [s1| |];
    try discriminate T.
  destruct (_normalize_percent_rgb s1) as [s2| |] eqn:E2; try discriminate T.
  apply andb_true_iff in T. destruct T as [T1 T2].
  apply str_eqb_eq in T1. subst s2.
  destruct (_percent_to_integer s1) as [w| |] eqn:E3; try discriminate T2.
  apply Z.eqb_eq in T2. subst w.
  exists s1. repeat split; assumption.
Qed.

(** The three components together. *)
Lemma triplet_there_and_back (r g b : Z) :
  exists n : PercentRGB,
    normalize_percent_triplet (PercentRGB_as_tuple (rgb_to_rgb_percent (r, g, b)))
    = Return n
    /\ normalize_percent_triplet (PercentRGB_as_tuple n) = Return n
    /\ rgb_percent_to_rgb (PercentRGB_as_tuple n)
       = Return (normalize_integer_triplet (r, g, b)).
Proof.
  unfold rgb_to_rgb_percent, normalize_integer_triplet. cbn [red green blue].
  assert (Hr := clamp_range r). assert (Hg := clamp_range g). assert (Hb := clamp_range b).
  rewrite <- !_normalize_integer_rgb_clamp in Hr, Hg, Hb.
  destruct (component_there_and_back _ Hr) as (sr & Nr & Ir & Pr).
  destruct (component_there_and_back _ Hg) as (sg & Ng & Ig & Pg).
  destruct (component_there_and_back _ Hb) as (sb & Nb & Ib & Pb).
  exists (mkPercentRGB sr sg sb).
  unfold rgb_percent_to_rgb, normalize_percent_triplet, PercentRGB_as_tuple.
  cbn [pred pgreen pblue]. rewrite Nr, Ng, Nb. cbn [bind].
  rewrite Ir, Ig, Ib. cbn [bind pred pgreen pblue]. rewrite Pr, Pg, Pb.
  repeat split; reflexivity.
Qed.

(** X19.  For every integer triplet, in range or not,
    [rgb_percent_to_rgb(rgb_to_rgb_percent(t))] is the clamped triplet:
    the two decimal places that [rgb_to_rgb_percent] keeps lose no
    component value. *)
Theorem percent_round_trip_every_triplet (rgb_triplet : IntTuple) :
  rgb_percent_to_rgb (PercentRGB_as_tuple (rgb_to_rgb_percent rgb_triplet))
  = Return (normalize_integer_triplet rgb_triplet).
Proof.
  destruct rgb_triplet as [[r g] b].
  destruct (triplet_there_and_back r g b) as (n & Hn & _ & Hrgb).
  unfold rgb_percent_to_rgb in *. rewrite Hn. cbn [bind].
  destruct (triplet_there_and_back r g b) as (n' & Hn' & Hidem & _).
  rewrite Hn in Hn'. injection Hn' as <-.
  rewrite Hidem in Hrgb. cbn [bind] in Hrgb. exact Hrgb.
Qed.

Section PercentComposites.
Context {U : Unicode}.

Lemma rgb_percent_to_hex_of_percent (r g b : Z) :
  rgb_percent_to_hex (PercentRGB_as_tuple (rgb_to_rgb_percent (r, g, b)))
  = Return (rgb_to_hex (r, g, b)).
Proof.
  destruct (triplet_there_and_back r g b) as (n & Hn & _ & Hrgb).
  unfold rgb_percent_to_hex. rewrite Hn. cbn [bind]. rewrite Hrgb. cbn [bind].
  rewrite rgb_to_hex_normalizes_once. reflexivity.
Qed.

(** X20.  Through the percentages and on to a value or a name:
    [rgb_percent_to_hex(rgb_to_rgb_percent(t))] is [rgb_to_hex(t)] and
    [rgb_percent_to_name(rgb_to_rgb_percent(t), spec)] is
    [rgb_to_name(t, spec)], for every integer triplet and every
    specification tag. *)
Theorem percent_then_hex_or_name (rgb_triplet : IntTuple) (spec : str) :
  rgb_percent_to_hex (PercentRGB_as_tuple (rgb_to_rgb_percent rgb_triplet))
  = Return (rgb_to_hex rgb_triplet)
  /\ rgb_percent_to_name (PercentRGB_as_tuple (rgb_to_rgb_percent rgb_triplet)) spec
     = rgb_to_name rgb_triplet spec.
Proof.
  destruct rgb_triplet as [[r g] b].
  split; [apply rgb_percent_to_hex_of_percent|].
  destruct (triplet_there_and_back r g b) as (n & Hn & _ & Hrgb).
  unfold rgb_percent_to_name. rewrite Hn. cbn [bind]. rewrite Hrgb. cbn [bind].
  unfold rgb_to_name. rewrite !rgb_to_hex_normalizes_once. reflexivity.
Qed.

(** X21.  A value or a name taken to percentages and back to a value:
    [rgb_percent_to_hex(hex_to_rgb_percent(h))] is [normalize_hex(h)] and
    [rgb_percent_to_hex(name_to_rgb_percent(name, spec))] is
    [name_to_hex(name, spec)], errors included. *)
Theorem through_percent_and_back (h name spec : str) :
  (p <- hex_to_rgb_percent h ;; rgb_percent_to_hex (PercentRGB_as_tuple p))
  = normalize_hex h
  /\ (p <- name_to_rgb_percent name spec ;; rgb_percent_to_hex (PercentRGB_as_tuple p))
     = name_to_hex name spec.
Proof.
  assert (Hhex : forall x, (p <- hex_to_rgb_percent x ;;
                            rgb_percent_to_hex (PercentRGB_as_tuple p))
                           = normalize_hex x).
  { intros x. unfold hex_to_rgb_percent.
    destruct (normalize_hex x) as [r|e|] eqn:E.
    - destruct (hex_rgb_hex_of_accepted _ _ E) as (Hround & t & Ht & _).
      unfold hex_rgb_hex in Hround. rewrite Ht in *. cbn [bind] in *.
      destruct t as [tr tg tb]. unfold IntegerRGB_as_tuple in *. cbn [red green blue] in *.
      rewrite rgb_percent_to_hex_of_percent. exact Hround.
    - unfold hex_to_rgb. rewrite E. reflexivity.
    - unfold normalize_hex in E. destruct (HEX_COLOR_RE_match x); discriminate E. }
  split; [apply Hhex|].
  unfold name_to_rgb_percent, name_to_rgb.
  destruct (name_to_hex name spec) as [hex|e|] eqn:E.
  - pose proof E as E'. apply name_to_hex_Return in E'.
    destruct E' as (Hs & table & Ht & Hk).
    destruct (supported_tables spec Hs) as (table' & rtable & Ht' & _ & Hfit).
    rewrite Ht in Ht'. injection Ht' as <-.
    destruct (tables_fit_entry _ _ _ _ Hfit (dict_get_In_pair _ _ _ Hk)) as (_ & Hn & _).
    specialize (Hhex hex). unfold hex_to_rgb_percent in Hhex.
    rewrite (normalized_is_fixed _ Hn) in Hhex. cbn [bind].
    destruct (hex_to_rgb hex) as [t| |]; cbn [bind] in *; exact Hhex.
  - reflexivity.
  - unfold name_to_hex in E. destruct (negb (supported spec)); [discriminate E|].
    destruct (dict_get NAMES_TO_HEX_BY_SPEC spec) as [table|]; [|discriminate E].
    destruct (dict_get table (lower name)); discriminate E.
Qed.

End PercentComposites.

Lemma integer_percent_table :
  forallb (fun n => integer_percent_ok (Z.of_nat n)) (seq 0 101) = true.
Proof. vm_compute. reflexivity. Qed.

Lemma percent_byte_of_clamped (n : Z) :
  _percent_to_integer (format_int (clamp_percent n) ++ lit "%") = Return (percent_byte n)
  /\ (0 <= percent_byte n <= 255)%Z.
Proof.
  assert (Hc : (0 <= clamp_percent n <= 100)%Z) by (unfold clamp_percent; lia).
  pose proof integer_percent_table as T. rewrite forallb_forall in T.
  specialize (T (Z.to_nat (clamp_percent n))). rewrite Z2Nat.id in T by lia.
  assert (Hin : In (Z.to_nat (clamp_percent n)) (seq 0 101)) by (apply in_seq; lia).
  specialize (T Hin). unfold integer_percent_ok in T.
  destruct (_percent_to_integer (format_int (clamp_percent n) ++ lit "%")) as [w| |];
    try discriminate T.
  rewrite !andb_true_iff, Z.eqb_eq, !Z.leb_le in T. destruct T as [[T1 T2] T3].
  unfold percent_byte. rewrite <- T1. split; [reflexivity | lia].
Qed.

(** The characters of a string that [py_int] reads. *)
Lemma py_int_characters (s : str) (n : Z) :
  py_int s = Return n ->
  s <> []
  /\ forallb (fun c => (c =? ch "-")%N || (c =? ch "+")%N || is_decdigit c) s = true
  /\ (exists neg body, split_sign s = (neg, body)
                       /\ n = (if neg then - dec_value body else dec_value body)%Z).
Proof.
  unfold py_int. destruct (split_sign s) as [neg body] eqn:E.
  destruct (negb (len body =? 0)%nat && forallb is_decdigit body) eqn:C; [|discriminate].
  destruct (int_max_str_digits <? Z.of_nat (len body))%Z; [discriminate|].
  intros H. injection H as <-. apply andb_true_iff in C. destruct C as [C1 C2].
  apply negb_true_iff, Nat.eqb_neq in C1.
  assert (Hweak : forallb (fun c => (c =? ch "-")%N || (c =? ch "+")%N || is_decdigit c)
                          body = true).
  { apply (forallb_weaken is_decdigit); [|exact C2]. intros x Hx. rewrite Hx.
    apply orb_true_r. }
  split; [|split].
  - intros ->. cbn [split_sign] in E. injection E as _ <-. apply C1. reflexivity.
  - unfold split_sign in E. destruct s as [|c t]; [reflexivity|].
    destruct (c =? ch "-")%N eqn:E1.
    + injection E as _ <-. cbn [forallb]. rewrite E1, Hweak. reflexivity.
    + destruct (c =? ch "+")%N eqn:E2.
      * injection E as _ <-. cbn [forallb]. rewrite E1, E2, Hweak. reflexivity.
      * injection E as _ <-. exact Hweak.
  - exists neg, body. split; reflexivity.
Qed.

Lemma before_percent_of_integer (s tail : str) :
  forallb (fun c => (c =? ch "-")%N || (c =? ch "+")%N || is_decdigit c) s = true ->
  before_percent (s ++ ch "%" :: tail) = s /\ char_in (ch ".") s = false.
Proof.
  induction s as [|c s IH]; [intros _; split; reflexivity|].
  cbn [forallb]. rewrite andb_true_iff. intros [Hc Hs].
  destruct (IH Hs) as [IH1 IH2].
  assert (Hne : (c =? ch "%")%N = false /\ (ch "." =? c)%N = false).
  { unfold is_decdigit in Hc. rewrite !orb_true_iff, andb_true_iff, !N.eqb_eq, !N.leb_le in Hc.
    rewrite !N.eqb_neq.
    change (ch "-") with 45%N in Hc. change (ch "+") with 43%N in Hc.
    change (ch "0") with 48%N in Hc. change (ch "9") with 57%N in Hc.
    change (ch "%") with 37%N. change (ch ".") with 46%N. lia. }
  destruct Hne as [N1 N2]. split.
  - cbn [app before_percent]. rewrite N1, IH1. reflexivity.
  - unfold char_in in *. cbn [existsb]. rewrite N2, IH2. reflexivity.
Qed.

(** [_normalize_percent_rgb] on an integer percentage. *)
Lemma normalize_integer_percent (s : str) (n : Z) :
  py_int s = Return n ->
  _normalize_percent_rgb (s ++ lit "%") = Return (format_int (clamp_percent n) ++ lit "%").
Proof.
  intros H. destruct (py_int_characters _ _ H) as (_ & Hchars & _).
  destruct (before_percent_of_integer s [] Hchars) as [Hb Hd].
  unfold _normalize_percent_rgb. change (lit "%") with [ch "%"]. rewrite Hb, Hd, H.
  cbn [bind]. unfold num_lt_0, num_gt_100, format_num, clamp_percent.
  destruct (n <? 0)%Z eqn:E0.
  - apply Z.ltb_lt in E0. replace (Z.max 0 (Z.min 100 n)) with 0%Z by lia. reflexivity.
  - apply Z.ltb_ge in E0. destruct (100 <? n)%Z eqn:E1.
    + apply Z.ltb_lt in E1. replace (Z.max 0 (Z.min 100 n)) with 100%Z by lia. reflexivity.
    + apply Z.ltb_ge in E1. replace (Z.max 0 (Z.min 100 n)) with n by lia. reflexivity.
Qed.

(** [int] refuses a literal of more than [int_max_str_digits] digits. *)
Lemma py_int_long (s : str) :
  forallb is_decdigit s = true ->
  (int_max_str_digits < Z.of_nat (len s))%Z ->
  py_int s = Raise (int_limit_error (Z.of_nat (len s))).
Proof.
  intros Hd Hl. unfold py_int.
  assert (Hs : split_sign s = (false, s)).
  { destruct s as [|c t]; [reflexivity|].
    cbn [forallb] in Hd. apply andb_true_iff in Hd. destruct Hd as [Hc _].
    unfold is_decdigit in Hc. rewrite andb_true_iff, !N.leb_le in Hc.
    change (ch "0") with 48%N in Hc. change (ch "9") with 57%N in Hc.
    unfold split_sign.
    assert (E1 : (c =? ch "-")%N = false)
      by (apply N.eqb_neq; change (ch "-") with 45%N; lia).
    assert (E2 : (c =? ch "+")%N = false)
      by (apply N.eqb_neq; change (ch "+") with 43%N; lia).
    rewrite E1, E2. reflexivity. }
  rewrite Hs, Hd.
  assert (Hn : (len s =? 0)%nat = false).
  { apply Nat.eqb_neq. intros E. rewrite E in Hl. unfold int_max_str_digits in Hl. lia. }
  rewrite Hn. cbn [negb andb].
  apply Z.ltb_lt in Hl. rewrite Hl. reflexivity.
Qed.

(** X22.  Integer percentages, written as an optional sign, decimal
    digits and ["%"].  Where [int] reads the number, which takes a literal
    of at most 4300 digits, [normalize_percent_triplet] clamps it to 0..100
    and [rgb_percent_to_rgb] returns the clamped percentage times 255 / 100
    rounded to the nearest integer, a half going to the even neighbour
    (["50%"] gives 128, ["30%"] gives 76); every component is between 0 and
    255.  On a literal of more than 4300 digits both functions raise the
    [ValueError] of [int]'s digit limit. *)
Theorem integer_percentages :
  (forall (s1 s2 s3 : str) (n1 n2 n3 : Z),
      py_int s1 = Return n1 -> py_int s2 = Return n2 -> py_int s3 = Return n3 ->
      normalize_percent_triplet (s1 ++ lit "%", s2 ++ lit "%", s3 ++ lit "%")
      = Return (mkPercentRGB (format_int (clamp_percent n1) ++ lit "%")
                             (format_int (clamp_percent n2) ++ lit "%")
                             (format_int (clamp_percent n3) ++ lit "%"))
      /\ rgb_percent_to_rgb (s1 ++ lit "%", s2 ++ lit "%", s3 ++ lit "%")
         = Return (mkIntegerRGB (percent_byte n1) (percent_byte n2) (percent_byte n3))
      /\ (0 <= percent_byte n1 <= 255)%Z /\ (0 <= percent_byte n2 <= 255)%Z
      /\ (0 <= percent_byte n3 <= 255)%Z)
  /\ (forall (s : str) (n : Z),
      py_int s = Return n ->
      exists neg digits,
        split_sign s = (neg, digits)
        /\ digits <> [] /\ forallb is_decdigit digits = true
        /\ (Z.of_nat (len digits) <= 4300)%Z
        /\ n = (if neg then - dec_value digits else dec_value digits)%Z)
  /\ (forall s g b : str,
      forallb is_decdigit s = true -> (4300 < Z.of_nat (len s))%Z ->
      normalize_percent_triplet (s ++ lit "%", g, b)
      = Raise (int_limit_error (Z.of_nat (len s)))
      /\ rgb_percent_to_rgb (s ++ lit "%", g, b)
         = Raise (int_limit_error (Z.of_nat (len s))))
  /\ map percent_byte [-5; 0; 10; 30; 50; 70; 90; 100; 250]%Z
     = [0; 0; 26; 76; 128; 178; 230; 255; 255]%Z.
Proof.
  split; [|split; [|split; [|reflexivity]]].
  - intros s1 s2 s3 n1 n2 n3 H1 H2 H3.
    pose proof (normalize_integer_percent _ _ H1) as N1.
    pose proof (normalize_integer_percent _ _ H2) as N2.
    pose proof (normalize_integer_percent _ _ H3) as N3.
    destruct (percent_byte_of_clamped n1) as [P1 B1].
    destruct (percent_byte_of_clamped n2) as [P2 B2].
    destruct (percent_byte_of_clamped n3) as [P3 B3].
    assert (Hn : normalize_percent_triplet (s1 ++ lit "%", s2 ++ lit "%", s3 ++ lit "%")
                 = Return (mkPercentRGB (format_int (clamp_percent n1) ++ lit "%")
                                        (format_int (clamp_percent n2) ++ lit "%")
                                        (format_int (clamp_percent n3) ++ lit "%"))).
    { unfold normalize_percent_triplet. rewrite N1, N2, N3. reflexivity. }
    split; [exact Hn|]. split.
    + unfold rgb_percent_to_rgb. rewrite Hn. cbn [bind pred pgreen pblue].
      rewrite P1, P2, P3. reflexivity.
    + repeat split; try apply B1; try apply B2; try apply B3.
  - intros s n. unfold py_int. destruct (split_sign s) as [neg digits].
    destruct (negb (len digits =? 0)%nat && forallb is_decdigit digits) eqn:C;
      [|discriminate].
    destruct (int_max_str_digits <? Z.of_nat (len digits))%Z eqn:L; [discriminate|].
    intros H. injection H as <-. exists neg, digits.
    apply andb_true_iff in C. destruct C as [C1 C2].
    apply negb_true_iff, Nat.eqb_neq in C1. apply Z.ltb_ge in L.
    split; [reflexivity|]. split; [intros ->; apply C1; reflexivity|].
    split; [exact C2|]. split; [exact L | reflexivity].
  - intros s g b Hd Hl.
    assert (Hchars : forallb (fun c => (c =? ch "-")%N || (c =? ch "+")%N || is_decdigit c)
                             s = true).
    { apply (forallb_weaken is_decdigit); [|exact Hd]. intros x Hx. rewrite Hx.
      apply orb_true_r. }
    destruct (before_percent_of_integer s [] Hchars) as [Hb Hp].
    assert (Hn : _normalize_percent_rgb (s ++ lit "%")
                 = Raise (int_limit_error (Z.of_nat (len s)))).
    { unfold _normalize_percent_rgb. change (lit "%") with [ch "%"].
      rewrite Hb, Hp, (py_int_long s Hd Hl). reflexivity. }
    assert (Ht : normalize_percent_triplet (s ++ lit "%", g, b)
                 = Raise (int_limit_error (Z.of_nat (len s)))).
    { unfold normalize_percent_triplet. rewrite Hn. reflexivity. }
    split; [exact Ht|]. unfold rgb_percent_to_rgb. rewrite Ht. reflexivity.
Qed.

(** ** Clamping, long inputs and lookup errors *)

(** X23.  [normalize_integer_triplet] works on each component by itself:
    a negative component becomes 0, one above 255 becomes 255, and one
    between 0 and 255 is kept.  So every component of the result is between
    0 and 255, a second application changes nothing, and the argument is
    returned as it is exactly when its three components already lie between
    0 and 255. *)
Theorem normalize_integer_triplet_clamps (r g b : Z) :
  let t := normalize_integer_triplet (r, g, b) in
  ((0 <= red t <= 255)%Z /\ (0 <= green t <= 255)%Z /\ (0 <= blue t <= 255)%Z)
  /\ normalize_integer_triplet (IntegerRGB_as_tuple t) = t
  /\ (IntegerRGB_as_tuple t = (r, g, b)
      <-> (0 <= r <= 255)%Z /\ (0 <= g <= 255)%Z /\ (0 <= b <= 255)%Z)
  /\ (((r < 0)%Z -> red t = 0%Z) /\ ((255 < r)%Z -> red t = 255%Z)
      /\ ((0 <= r <= 255)%Z -> red t = r))
  /\ (((g < 0)%Z -> green t = 0%Z) /\ ((255 < g)%Z -> green t = 255%Z)
      /\ ((0 <= g <= 255)%Z -> green t = g))
  /\ (((b < 0)%Z -> blue t = 0%Z) /\ ((255 < b)%Z -> blue t = 255%Z)
      /\ ((0 <= b <= 255)%Z -> blue t = b))
  /\ t = mkIntegerRGB (Z.max 0 (Z.min 255 r)) (Z.max 0 (Z.min 255 g))
                      (Z.max 0 (Z.min 255 b)).
Proof.
  cbv zeta. unfold normalize_integer_triplet, IntegerRGB_as_tuple.
  cbn [red green blue]. rewrite !_normalize_integer_rgb_clamp.
  pose proof (clamp_range r). pose proof (clamp_range g). pose proof (clamp_range b).
  split; [lia|]. split; [unfold clamp; f_equal; lia|].
  split.
  { split.
    - intros E. injection E as E1 E2 E3. unfold clamp in *. lia.
    - intros (Hr & Hg & Hb). unfold clamp.
      replace (Z.max 0 (Z.min 255 r)) with r by lia.
      replace (Z.max 0 (Z.min 255 g)) with g by lia.
      replace (Z.max 0 (Z.min 255 b)) with b by lia. reflexivity. }
  unfold clamp.
  split; [repeat split; intros; lia|].
  split; [repeat split; intros; lia|].
  split; [repeat split; intros; lia|].
  reflexivity.
Qed.

(** Every CSS3 colour name is shorter than 128 characters. *)
Lemma CSS3_names_short :
  forallb (fun kv => negb (128 <=? len (fst kv))%nat) CSS3_NAMES_TO_HEX = true.
Proof. vm_compute. reflexivity. Qed.

(** Step 8 on a string and on a longer one with the same first 128 characters. *)
Lemma legacy_general_truncates (a b : str) :
  (128 <= len a)%nat -> forallb is_ascii (a ++ b) = true ->
  legacy_general (a ++ b) = legacy_general a.
Proof.
  intros Hlen Hascii. unfold legacy_general.
  assert (Ha : forallb is_ascii a = true).
  { rewrite forallb_app in Hascii. apply andb_true_iff in Hascii. exact (proj1 Hascii). }
  rewrite (astral_replacement_ascii _ Hascii), (astral_replacement_ascii _ Ha).
  assert (E : (if (128 <? len (a ++ b))%nat then slice_to 128 (a ++ b) else a ++ b)
              = (if (128 <? len a)%nat then slice_to 128 a else a)).
  { assert (F : firstn 128 (a ++ b) = firstn 128 a).
    { rewrite firstn_app. unfold len in Hlen.
      replace (128 - List.length a)%nat with 0%nat by lia.
      rewrite firstn_O, app_nil_r. reflexivity. }
    unfold slice_to, len in *.
    destruct (128 <? List.length (a ++ b))%nat eqn:E1;
      destruct (128 <? List.length a)%nat eqn:E2.
    - exact F.
    - apply Nat.ltb_ge in E2. rewrite F. apply firstn_all2. exact E2.
    - apply Nat.ltb_ge in E1. apply Nat.ltb_lt in E2. rewrite length_app in E1. lia.
    - apply Nat.ltb_ge in E1, E2. rewrite length_app in E1.
      destruct b as [|c t]; [apply app_nil_r | cbn [List.length] in E1; lia]. }
  rewrite E. reflexivity.
Qed.

Section LegacyLong.
Context {U : Unicode}.

Lemma legacy_on_long_ascii (x : str) :
  (128 <= len x)%nat -> forallb is_ascii x = true ->
  (forall c, In c x -> isspace c = false) ->
  html5_parse_legacy_color x = legacy_general x.
Proof.
  intros Hlen Hascii Hspace. unfold html5_parse_legacy_color.
  assert (Hne : str_eqb x [] = false).
  { apply str_eqb_neq. intros ->. cbn in Hlen. lia. }
  rewrite Hne, (strip_keeps _ Hspace), (lower_ascii _ Hascii).
  assert (Hl : len (map ascii_lower x) = len x) by apply length_map.
  destruct (str_eqb (map ascii_lower x) (lit "transparent")) eqn:T.
  { apply str_eqb_eq in T. rewrite T in Hl. cbn in Hl. lia. }
  rewrite (dict_get_excluded (fun k => (128 <=? len k)%nat) CSS3_NAMES_TO_HEX _
             CSS3_names_short) by (apply Nat.leb_le; lia).
  assert (E : (len x =? 4)%nat = false) by (apply Nat.eqb_neq; lia).
  rewrite E. reflexivity.
Qed.

(** X24.  On ASCII input without white space, the legacy parser reads at
    most the first 128 characters: whatever follows them does not change
    the result. *)
Theorem legacy_reads_128_characters (a b : str) :
  (128 <= len a)%nat -> forallb is_ascii (a ++ b) = true ->
  (forall c, In c (a ++ b) -> isspace c = false) ->
  html5_parse_legacy_color (a ++ b) = html5_parse_legacy_color a.
Proof.
  intros Hlen Hascii Hspace.
  assert (Ha : forallb is_ascii a = true).
  { rewrite forallb_app in Hascii. apply andb_true_iff in Hascii. exact (proj1 Hascii). }
  rewrite (legacy_on_long_ascii (a ++ b)), (legacy_on_long_ascii a).
  - apply legacy_general_truncates; assumption.
  - exact Hlen.
  - exact Ha.
  - intros c Hc. apply Hspace, in_or_app. left. exact Hc.
  - unfold len in *. rewrite length_app. lia.
  - exact Hascii.
  - exact Hspace.
Qed.

(** X25.  The errors of the two table lookups.  With a tag other than
    [HTML4], [CSS2], [CSS21] and [CSS3] both raise the unsupported-tag
    error, whatever the name or the value, malformed values included.  With
    a supported tag, [name_to_hex] raises the error that quotes the name as
    given when the lowercased name is not in the table, and [hex_to_name]
    raises the error of [normalize_hex] on a malformed value and the error
    that quotes the value as given when the normalized value has no name. *)
Theorem lookup_errors (spec : str) :
  (supported spec = false ->
   forall x : str,
     name_to_hex x spec = Raise (ValueError (SPECIFICATION_ERROR spec))
     /\ hex_to_name x spec = Raise (ValueError (SPECIFICATION_ERROR spec)))
  /\ (supported spec = true ->
      exists table rtable,
        dict_get NAMES_TO_HEX_BY_SPEC spec = Some table
        /\ dict_get HEX_TO_NAMES_BY_SPEC spec = Some rtable
        /\ (forall name : str,
               dict_get table (lower name) = None ->
               name_to_hex name spec
               = Raise (ValueError (lit "'" ++ name
                                      ++ lit "' is not defined as a named color in " ++ spec)))
        /\ (forall (hex_value : str) (e : exn),
               normalize_hex hex_value = Raise e -> hex_to_name hex_value spec = Raise e)
        /\ (forall hex_value normalized : str,
               normalize_hex hex_value = Return normalized ->
               dict_get rtable normalized = None ->
               hex_to_name hex_value spec
               = Raise (ValueError (lit "'" ++ hex_value
                                      ++ lit "' has no defined color name in " ++ spec)))).
Proof.
  split.
  - intros Hs x. unfold name_to_hex, hex_to_name. rewrite Hs. split; reflexivity.
  - intros Hs. destruct (supported_tables spec Hs) as (table & rtable & Ht & Hr & _).
    exists table, rtable. split; [exact Ht|]. split; [exact Hr|].
    unfold name_to_hex, hex_to_name. rewrite Hs, Ht, Hr. cbn [negb].
    split; [|split].
    + intros name ->. reflexivity.
    + intros hex_value e ->. reflexivity.
    + intros hex_value normalized -> E. cbn [bind]. rewrite E. reflexivity.
Qed.

End LegacyLong.

(** ** The further properties at concrete inputs *)

(** ["#aBc"] followed by a line feed. *)
Lemma normalize_hex_accepts_exactly_witness :
  hex_shaped (lit "#aBc" ++ [10%N]) (lit "aBc")
  /\ @normalize_hex ascii_only (lit "#aBc" ++ [10%N]) = Return (lit "#aabbcc").
Proof.
  assert (H : hex_shaped (lit "#aBc" ++ [10%N]) (lit "aBc")).
  { split; [right; reflexivity|]. split; [left; reflexivity | reflexivity]. }
  split; [exact H|].
  exact (proj1 (@normalize_hex_accepts_exactly ascii_only _) _ H).
Defined.

Lemma normalize_hex_idempotent_witness :
  @normalize_hex ascii_only (lit "#ABC") = Return (lit "#aabbcc")
  /\ is_normalized_hex (lit "#aabbcc") = true
  /\ @normalize_hex ascii_only (lit "#aabbcc") = Return (lit "#aabbcc").
Proof.
  assert (H : @normalize_hex ascii_only (lit "#ABC") = Return (lit "#aabbcc"))
    by reflexivity.
  split; [exact H|]. exact (@normalize_hex_idempotent ascii_only _ _ H).
Defined.

Lemma hex_to_rgb_bytes_witness :
  @normalize_hex ascii_only (lit "#ABC") = Return (lit "#aabbcc")
  /\ exists t, @hex_to_rgb ascii_only (lit "#ABC") = Return t
               /\ (0 <= red t <= 255)%Z /\ (0 <= green t <= 255)%Z
               /\ (0 <= blue t <= 255)%Z.
Proof.
  assert (H : @normalize_hex ascii_only (lit "#ABC") = Return (lit "#aabbcc"))
    by reflexivity.
  split; [exact H|]. exact (proj1 (@hex_to_rgb_bytes ascii_only _) _ H).
Defined.

Lemma html5_serialize_then_parse_witness :
  ((0 <= 0 <= 255)%Z /\ (0 <= 15 <= 255)%Z /\ (0 <= 255 <= 255)%Z)
  /\ html5_parse_simple_color (html5_serialize_simple_color (0, 15, 255)%Z)
     = Return (mkHTML5SimpleColor 0 15 255)
  /\ html5_serialize_simple_color (0, 15, 255)%Z = lit "#000fff".
Proof.
  assert (H : (0 <= 0 <= 255)%Z /\ (0 <= 15 <= 255)%Z /\ (0 <= 255 <= 255)%Z) by lia.
  split; [exact H|]. split; [|reflexivity].
  exact (proj2 (proj1 (html5_serialize_then_parse 0 15 255)) H).
Defined.

Lemma html5_parse_then_serialize_witness :
  html5_parse_simple_color (lit "#00FFaa") = Return (mkHTML5SimpleColor 0 255 170)
  /\ html5_serialize_simple_color (0, 255, 170)%Z = lit "#00ffaa".
Proof.
  assert (H : html5_parse_simple_color (lit "#00FFaa")
              = Return (mkHTML5SimpleColor 0 255 170)) by reflexivity.
  split; [exact H|]. exact (html5_parse_then_serialize _ _ H).
Defined.

Lemma simple_color_is_hex_to_rgb_witness :
  html5_parse_simple_color (lit "#123456") = Return (mkHTML5SimpleColor 18 52 86)
  /\ @hex_to_rgb ascii_only (lit "#123456") = Return (mkIntegerRGB 18 52 86).
Proof.
  assert (H : html5_parse_simple_color (lit "#123456")
              = Return (mkHTML5SimpleColor 18 52 86)) by reflexivity.
  split; [exact H|]. exact (@simple_color_is_hex_to_rgb ascii_only _ _ H).
Defined.

Lemma legacy_extends_simple_witness :
  html5_parse_simple_color (lit "#123456") = Return (mkHTML5SimpleColor 18 52 86)
  /\ @html5_parse_legacy_color ascii_only (lit "#123456")
     = Return (mkHTML5SimpleColor 18 52 86).
Proof.
  assert (H : html5_parse_simple_color (lit "#123456")
              = Return (mkHTML5SimpleColor 18 52 86)) by reflexivity.
  split; [exact H|]. exact (@legacy_extends_simple ascii_only _ _ H).
Defined.

Lemma legacy_hash_is_optional_witness :
  lit "ff0000" <> [] /\ forallb is_hexdigit (lit "ff0000") = true
  /\ (len (lit "ff0000") <= 127)%nat /\ len (lit "ff0000") <> 3%nat
  /\ @html5_parse_legacy_color ascii_only (lit "#ff0000")
     = @html5_parse_legacy_color ascii_only (lit "ff0000").
Proof.
  assert (H1 : lit "ff0000" <> []) by (vm_compute; discriminate).
  assert (H2 : forallb is_hexdigit (lit "ff0000") = true) by reflexivity.
  assert (H3 : (len (lit "ff0000") <= 127)%nat) by (vm_compute; lia).
  assert (H4 : len (lit "ff0000") <> 3%nat) by (vm_compute; lia).
  repeat (split; [assumption|]).
  exact (proj1 (@legacy_hash_is_optional ascii_only) _ H1 H2 H3 H4).
Defined.

Lemma legacy_ignores_surrounding_whitespace_witness :
  forallb (@isspace ascii_only) (lit "  ") = true
  /\ forallb (@isspace ascii_only) (lit " ") = true
  /\ lit "red" <> []
  /\ @html5_parse_legacy_color ascii_only (lit "  " ++ lit "red" ++ lit " ")
     = @html5_parse_legacy_color ascii_only (lit "red").
Proof.
  assert (H1 : forallb (@isspace ascii_only) (lit "  ") = true) by reflexivity.
  assert (H2 : forallb (@isspace ascii_only) (lit " ") = true) by reflexivity.
  assert (H3 : lit "red" <> []) by (vm_compute; discriminate).
  repeat (split; [assumption|]).
  exact (proj1 (@legacy_ignores_surrounding_whitespace ascii_only) _ _ _ H1 H2 H3).
Defined.

Lemma legacy_keywords_are_CSS3_names_witness :
  forallb is_ascii (lit "RED") = true
  /\ @name_to_rgb ascii_only (lit "RED") CSS3 = Return (mkIntegerRGB 255 0 0)
  /\ @html5_parse_legacy_color ascii_only (lit "RED")
     = Return (mkHTML5SimpleColor 255 0 0).
Proof.
  assert (H1 : forallb is_ascii (lit "RED") = true) by reflexivity.
  assert (H2 : @name_to_rgb ascii_only (lit "RED") CSS3 = Return (mkIntegerRGB 255 0 0))
    by (vm_compute; reflexivity).
  repeat (split; [assumption|]).
  exact (@legacy_keywords_are_CSS3_names ascii_only _ _ H1 H2).
Defined.

Lemma name_hex_name_round_trip_witness :
  @name_to_hex ascii_only (lit "Grey") CSS3 = Return (lit "#808080")
  /\ is_normalized_hex (lit "#808080") = true
  /\ exists name', @hex_to_name ascii_only (lit "#808080") CSS3 = Return name'
                   /\ @name_to_hex ascii_only name' CSS3 = Return (lit "#808080").
Proof.
  assert (H : @name_to_hex ascii_only (lit "Grey") CSS3 = Return (lit "#808080"))
    by (vm_compute; reflexivity).
  split; [exact H|]. exact (@name_hex_name_round_trip ascii_only _ _ _ H).
Defined.

Lemma hex_name_hex_round_trip_witness :
  @hex_to_name ascii_only (lit "#FFF") HTML4 = Return (lit "white")
  /\ exists normalized,
       @normalize_hex ascii_only (lit "#FFF") = Return normalized
       /\ @name_to_hex ascii_only (lit "white") HTML4 = Return normalized.
Proof.
  assert (H : @hex_to_name ascii_only (lit "#FFF") HTML4 = Return (lit "white"))
    by (vm_compute; reflexivity).
  split; [exact H|]. exact (@hex_name_hex_round_trip ascii_only _ _ _ H).
Defined.

Lemma name_tables_grow_witness :
  @name_to_hex ascii_only (lit "aqua") HTML4 = Return (lit "#00ffff")
  /\ @name_to_hex ascii_only (lit "aqua") CSS21 = Return (lit "#00ffff").
Proof.
  assert (H : @name_to_hex ascii_only (lit "aqua") HTML4 = Return (lit "#00ffff"))
    by (vm_compute; reflexivity).
  split; [exact H|].
  exact (proj1 (proj2 (@name_tables_grow ascii_only _ _)) H).
Defined.

Lemma name_to_rgb_follows_name_to_hex_witness :
  @name_to_hex ascii_only (lit "navy") CSS3 = Return (lit "#000080")
  /\ exists t, @name_to_rgb ascii_only (lit "navy") CSS3 = Return t
               /\ @hex_to_rgb ascii_only (lit "#000080") = Return t
               /\ (0 <= red t <= 255)%Z /\ (0 <= green t <= 255)%Z
               /\ (0 <= blue t <= 255)%Z.
Proof.
  assert (H : @name_to_hex ascii_only (lit "navy") CSS3 = Return (lit "#000080"))
    by (vm_compute; reflexivity).
  split; [exact H|].
  exact (proj1 (@name_to_rgb_follows_name_to_hex ascii_only _ _) _ H).
Defined.

Lemma rgb_to_name_follows_hex_to_name_witness :
  @hex_to_name ascii_only (lit "#000080") CSS3 = Return (lit "navy")
  /\ exists t, @hex_to_rgb ascii_only (lit "#000080") = Return t
               /\ @rgb_to_name ascii_only (IntegerRGB_as_tuple t) CSS3
                  = Return (lit "navy").
Proof.
  assert (H : @hex_to_name ascii_only (lit "#000080") CSS3 = Return (lit "navy"))
    by (vm_compute; reflexivity).
  split; [exact H|].
  exact (proj2 (@rgb_to_name_follows_hex_to_name ascii_only) _ _ _ H).
Defined.

Lemma integer_percentages_witness :
  py_int (lit "50") = Return 50%Z /\ py_int (lit "-5") = Return (-5)%Z
  /\ py_int (lit "30") = Return 30%Z
  /\ rgb_percent_to_rgb (lit "50%", lit "-5%", lit "30%")
     = Return (mkIntegerRGB 128 0 76).
Proof.
  assert (H1 : py_int (lit "50") = Return 50%Z) by reflexivity.
  assert (H2 : py_int (lit "-5") = Return (-5)%Z) by reflexivity.
  assert (H3 : py_int (lit "30") = Return 30%Z) by reflexivity.
  repeat (split; [assumption|]).
  exact (proj1 (proj2 (proj1 integer_percentages _ _ _ _ _ _ H1 H2 H3))).
Defined.

(** 128 letters [f], then three more characters. *)
Lemma legacy_reads_128_characters_witness :
  (128 <= len (repeat (ch "f") 128))%nat
  /\ forallb is_ascii (repeat (ch "f") 128 ++ lit "123") = true
  /\ @html5_parse_legacy_color ascii_only (repeat (ch "f") 128 ++ lit "123")
     = @html5_parse_legacy_color ascii_only (repeat (ch "f") 128).
Proof.
  assert (H1 : (128 <= len (repeat (ch "f") 128))%nat)
    by (unfold len; rewrite repeat_length; lia).
  assert (H2 : forallb is_ascii (repeat (ch "f") 128 ++ lit "123") = true)
    by (vm_compute; reflexivity).
  assert (H3 : forall c, In c (repeat (ch "f") 128 ++ lit "123") ->
                         @isspace ascii_only c = false).
  { assert (B : forallb (fun c => negb (@isspace ascii_only c))
                        (repeat (ch "f") 128 ++ lit "123") = true)
      by (vm_compute; reflexivity).
    rewrite forallb_forall in B. intros c Hc. apply negb_true_iff, B, Hc. }
  repeat (split; [assumption|]).
  exact (@legacy_reads_128_characters ascii_only _ _ H1 H2 H3).
Defined.

Lemma lookup_errors_witness :
  supported (lit "css4") = false
  /\ @name_to_hex ascii_only (lit "red") (lit "css4")
     = Raise (ValueError (SPECIFICATION_ERROR (lit "css4")))
  /\ @hex_to_name ascii_only (lit "not a value") (lit "css4")
     = Raise (ValueError (SPECIFICATION_ERROR (lit "css4"))).
Proof.
  assert (H : supported (lit "css4") = false) by reflexivity.
  split; [exact H|]. split.
  - exact (proj1 (proj1 (@lookup_errors ascii_only (lit "css4")) H (lit "red"))).
  - exact (proj2 (proj1 (@lookup_errors ascii_only (lit "css4")) H (lit "not a value"))).
Defined.

Lemma normalize_integer_triplet_clamps_witness :
  (-5 < 0)%Z /\ (255 < 260)%Z /\ (0 <= 128 <= 255)%Z
  /\ red (normalize_integer_triplet (-5, 260, 128)%Z) = 0%Z
  /\ green (normalize_integer_triplet (-5, 260, 128)%Z) = 255%Z
  /\ blue (normalize_integer_triplet (-5, 260, 128)%Z) = 128%Z.
Proof.
  assert (H1 : (-5 < 0)%Z) by lia.
  assert (H2 : (255 < 260)%Z) by lia.
  assert (H3 : (0 <= 128 <= 255)%Z) by lia.
  repeat (split; [assumption|]).
  destruct (normalize_integer_triplet_clamps (-5) 260 128)
    as (_ & _ & _ & (Hr & _ & _) & (_ & Hg & _) & (_ & _ & Hb) & _).
  split; [exact (Hr H1)|]. split; [exact (Hg H2) | exact (Hb H3)].
Defined.
